(** * stream-rt: the real-time streaming front end of whisper.cpp

    A shallow embedding of [examples/stream-rt/stream-rt.cpp] and the
    properties of its window loop, timestamp formatting, argument parsing
    and exit codes.

    Conventions of the embedding:
    - C++ [int] and [int64_t] values are [Z]; where the source narrows or
      can overflow, the wrap-around or the undefined behaviour is written
      out;
    - [double] arithmetic is IEEE 754 binary64 as specified by [SpecFloat]
      (round to nearest, ties to even);
    - a [float] is its 32-bit object representation (a [Z] below [2^32]);
      the one float operation of the program, [sample / 32768.0f], is
      computed with [SpecFloat] at binary32 and encoded;
    - [std::cin] is a record with the unread bytes and the stream's
      [eofbit], [failbit] and [gcount];
    - everything the process does to the outside (console, file sink,
      recognition engine, standard input) is recorded in a trace of events;
    - the whisper API declared in [whisper.h] is not part of the program:
      it is an interface the development is parameterised by. *)

From Stdlib Require Import ZArith List String Ascii Bool Lia.
From Stdlib Require Import Strings.Byte DecimalString SpecFloat.
From Stdlib Require PrimFloat FloatOps.
Import ListNotations.

Local Open Scope Z_scope.
Local Open Scope list_scope.

(** ** Machine integers *)

Definition INT_MIN : Z := - 2 ^ 31.
Definition INT_MAX : Z := 2 ^ 31 - 1.

Definition in_int (z : Z) : bool := (INT_MIN <=? z) && (z <=? INT_MAX).

(** The conversion [(int) x] of a 64-bit value: reduction modulo [2^32]
    into the signed range. *)
Definition to_int32 (z : Z) : Z := (z + 2 ^ 31) mod 2 ^ 32 - 2 ^ 31.

(** ** IEEE 754 binary64, as far as the program uses it *)

Module Double.

Definition prec : Z := 53.
Definition emax : Z := 1024.

(** [int -> double]: exact for every 32-bit integer. *)
Definition of_int (z : Z) : spec_float := binary_normalize prec emax z 0 false.

Definition mul : spec_float -> spec_float -> spec_float := SFmul prec emax.

(** The literal [1e-3]: the double nearest to one thousandth,
    [0x1.0624dd2f1a9fcp-10]. *)
Definition lit_1e_3 : spec_float := S754_finite false 4611686018427388 (-62).

(** Truncation toward zero, the value of a floating-integral conversion
    when it is representable. *)
Definition trunc (x : spec_float) : option Z :=
  match x with
  | S754_zero _ => Some 0
  | S754_finite s m e =>
      let a := if 0 <=? e then Z.pos m * 2 ^ e else Z.pos m / 2 ^ (- e) in
      Some (if s then - a else a)
  | S754_infinity _ | S754_nan => None
  end.

(** [double -> int]: undefined behaviour ([None]) when the truncated value
    is not an [int]. *)
Definition to_int (x : spec_float) : option Z :=
  match trunc x with
  | Some z => if in_int z then Some z else None
  | None => None
  end.

(** [double -> size_t]: undefined behaviour when the truncated value is
    not a 64-bit unsigned integer. *)
Definition to_size_t (x : spec_float) : option Z :=
  match trunc x with
  | Some z => if (0 <=? z) && (z <? 2 ^ 64) then Some z else None
  | None => None
  end.

End Double.

(** ** IEEE 754 binary32 and the object representation of a [float] *)

Module Float32.

Definition prec : Z := 24.
Definition emax : Z := 128.

(** A [float] as the program stores it: four bytes, little endian, read as
    a 32-bit pattern. *)
Definition t : Type := Z.

Definition of_int (z : Z) : spec_float := binary_normalize prec emax z 0 false.

Definition div : spec_float -> spec_float -> spec_float := SFdiv prec emax.

(** Encoding of a binary32 value (sign, biased exponent, fraction). *)
Definition bits_of (x : spec_float) : t :=
  let sign (s : bool) := if s then 2 ^ 31 else 0 in
  match x with
  | S754_zero s => sign s
  | S754_infinity s => sign s + 255 * 2 ^ 23
  | S754_nan => 255 * 2 ^ 23 + 2 ^ 22
  | S754_finite s m e =>
      if Z.pos m <? 2 ^ 23 then sign s + Z.pos m
      else sign s + (e + 150) * 2 ^ 23 + (Z.pos m - 2 ^ 23)
  end.

(** [0.0f], the fill value of [pcmf32]. *)
Definition zero : t := bits_of (S754_zero false).

(** Both zeros of the format: the patterns whose value is zero. *)
Definition is_zero (x : t) : bool := (x =? 0) || (x =? 2 ^ 31).

(** The defaults of the two thresholds. *)
Definition lit_0_6f : t := bits_of (S754_finite false 10066330 (-24)).
Definition lit_100f : t := bits_of (S754_finite false 13107200 (-17)).

End Float32.

(** ** Constants of [whisper.h]

    [WHISPER_SAMPLE_RATE] is a macro of the header, which is not part of
    this program's source; the development takes it as a parameter.  Its
    value in whisper.cpp is 16000. *)

Definition SAMPLE_RATE_16K : Z := 16000.

Section SampleCounts.

Variable WHISPER_SAMPLE_RATE : Z.

(** [const int n_samples_step = (1e-3 * params.step_ms) * WHISPER_SAMPLE_RATE;] *)
Definition n_samples_step_of (step_ms : Z) : option Z :=
  Double.to_int
    (Double.mul (Double.mul Double.lit_1e_3 (Double.of_int step_ms))
                (Double.of_int WHISPER_SAMPLE_RATE)).

(** [std::vector<int16_t> buffer16((1e-3 * 10000) * WHISPER_SAMPLE_RATE);] *)
Definition n_samples_wav : option Z :=
  Double.to_size_t
    (Double.mul (Double.mul Double.lit_1e_3 (Double.of_int 10000))
                (Double.of_int WHISPER_SAMPLE_RATE)).

End SampleCounts.

(** ** [to_timestamp] *)

Definition dec_of_N (n : N) : string := NilZero.string_of_uint (N.to_uint n).

Fixpoint zeros (n : nat) : string :=
  match n with
  | O => ""%string
  | S k => ("0" ++ zeros k)%string
  end.

(** [printf]'s [%0<width>d]: the decimal digits, preceded by a minus sign
    when negative, zero-padded between sign and digits up to [width]
    characters in all. *)
Definition fmt_0d (width : nat) (z : Z) : string :=
  let digits := dec_of_N (Z.abs_N z) in
  let sign : string := if z <? 0 then "-"%string else ""%string in
  let pad := zeros (width - String.length sign - String.length digits)%nat in
  (sign ++ pad ++ digits)%string.

(** [snprintf(buf, size, ...)] keeps at most [size - 1] characters. *)
Definition snprintf (size : nat) (s : string) : string :=
  substring 0 (size - 1) s.

(** [std::string to_timestamp(int64_t t)], lines 206-217.  [/] on
    [int64_t] truncates toward zero ([Z.quot]); no intermediate value leaves
    the range of [t]. *)
Definition to_timestamp (t : Z) : string :=
  let sec := Z.quot t 100 in
  let msec := t - sec * 100 in
  let min := Z.quot sec 60 in
  let sec := sec - min * 60 in
  let mm := fmt_0d 2 (to_int32 min) in
  let ss := fmt_0d 2 (to_int32 sec) in
  let mmm := fmt_0d 3 (to_int32 msec) in
  snprintf 32 (mm ++ ":" ++ ss ++ "." ++ mmm)%string.

(** ** Configuration: [struct whisper_params], lines 14-41 *)

Record whisper_params : Type := mk_whisper_params {
  n_threads : Z;
  step_ms : Z;
  length_ms : Z;
  keep_ms : Z;
  capture_id : Z;
  max_tokens : Z;
  audio_ctx : Z;
  vad_thold : Float32.t;
  freq_thold : Float32.t;
  speed_up : bool;
  from_wav_file : bool;
  translate : bool;
  no_fallback : bool;
  print_special : bool;
  no_context : bool;
  no_timestamps : bool;
  tinydiarize : bool;
  save_audio : bool;
  use_gpu : bool;
  language : string;
  model : string;
  fname_out : string
}.

(** Assignments to one member, as the parser performs them. *)
Module Set_.
Definition n_threads (v : Z) (p : whisper_params) : whisper_params :=
  let 'mk_whisper_params _ a1 a2 a3 a4 a5 a6 a7 a8 a9 a10 a11 a12 a13 a14 a15 a16 a17 a18 a19 a20 a21 := p in
  mk_whisper_params v a1 a2 a3 a4 a5 a6 a7 a8 a9 a10 a11 a12 a13 a14 a15 a16 a17 a18 a19 a20 a21.
Definition step_ms (v : Z) (p : whisper_params) : whisper_params :=
  let 'mk_whisper_params a0 _ a2 a3 a4 a5 a6 a7 a8 a9 a10 a11 a12 a13 a14 a15 a16 a17 a18 a19 a20 a21 := p in
  mk_whisper_params a0 v a2 a3 a4 a5 a6 a7 a8 a9 a10 a11 a12 a13 a14 a15 a16 a17 a18 a19 a20 a21.
Definition length_ms (v : Z) (p : whisper_params) : whisper_params :=
  let 'mk_whisper_params a0 a1 _ a3 a4 a5 a6 a7 a8 a9 a10 a11 a12 a13 a14 a15 a16 a17 a18 a19 a20 a21 := p in
  mk_whisper_params a0 a1 v a3 a4 a5 a6 a7 a8 a9 a10 a11 a12 a13 a14 a15 a16 a17 a18 a19 a20 a21.
Definition keep_ms (v : Z) (p : whisper_params) : whisper_params :=
  let 'mk_whisper_params a0 a1 a2 _ a4 a5 a6 a7 a8 a9 a10 a11 a12 a13 a14 a15 a16 a17 a18 a19 a20 a21 := p in
  mk_whisper_params a0 a1 a2 v a4 a5 a6 a7 a8 a9 a10 a11 a12 a13 a14 a15 a16 a17 a18 a19 a20 a21.
Definition capture_id (v : Z) (p : whisper_params) : whisper_params :=
  let 'mk_whisper_params a0 a1 a2 a3 _ a5 a6 a7 a8 a9 a10 a11 a12 a13 a14 a15 a16 a17 a18 a19 a20 a21 := p in
  mk_whisper_params a0 a1 a2 a3 v a5 a6 a7 a8 a9 a10 a11 a12 a13 a14 a15 a16 a17 a18 a19 a20 a21.
Definition max_tokens (v : Z) (p : whisper_params) : whisper_params :=
  let 'mk_whisper_params a0 a1 a2 a3 a4 _ a6 a7 a8 a9 a10 a11 a12 a13 a14 a15 a16 a17 a18 a19 a20 a21 := p in
  mk_whisper_params a0 a1 a2 a3 a4 v a6 a7 a8 a9 a10 a11 a12 a13 a14 a15 a16 a17 a18 a19 a20 a21.
Definition audio_ctx (v : Z) (p : whisper_params) : whisper_params :=
  let 'mk_whisper_params a0 a1 a2 a3 a4 a5 _ a7 a8 a9 a10 a11 a12 a13 a14 a15 a16 a17 a18 a19 a20 a21 := p in
  mk_whisper_params a0 a1 a2 a3 a4 a5 v a7 a8 a9 a10 a11 a12 a13 a14 a15 a16 a17 a18 a19 a20 a21.
Definition vad_thold (v : Float32.t) (p : whisper_params) : whisper_params :=
  let 'mk_whisper_params a0 a1 a2 a3 a4 a5 a6 _ a8 a9 a10 a11 a12 a13 a14 a15 a16 a17 a18 a19 a20 a21 := p in
  mk_whisper_params a0 a1 a2 a3 a4 a5 a6 v a8 a9 a10 a11 a12 a13 a14 a15 a16 a17 a18 a19 a20 a21.
Definition freq_thold (v : Float32.t) (p : whisper_params) : whisper_params :=
  let 'mk_whisper_params a0 a1 a2 a3 a4 a5 a6 a7 _ a9 a10 a11 a12 a13 a14 a15 a16 a17 a18 a19 a20 a21 := p in
  mk_whisper_params a0 a1 a2 a3 a4 a5 a6 a7 v a9 a10 a11 a12 a13 a14 a15 a16 a17 a18 a19 a20 a21.
Definition speed_up (v : bool) (p : whisper_params) : whisper_params :=
  let 'mk_whisper_params a0 a1 a2 a3 a4 a5 a6 a7 a8 _ a10 a11 a12 a13 a14 a15 a16 a17 a18 a19 a20 a21 := p in
  mk_whisper_params a0 a1 a2 a3 a4 a5 a6 a7 a8 v a10 a11 a12 a13 a14 a15 a16 a17 a18 a19 a20 a21.
Definition from_wav_file (v : bool) (p : whisper_params) : whisper_params :=
  let 'mk_whisper_params a0 a1 a2 a3 a4 a5 a6 a7 a8 a9 _ a11 a12 a13 a14 a15 a16 a17 a18 a19 a20 a21 := p in
  mk_whisper_params a0 a1 a2 a3 a4 a5 a6 a7 a8 a9 v a11 a12 a13 a14 a15 a16 a17 a18 a19 a20 a21.
Definition translate (v : bool) (p : whisper_params) : whisper_params :=
  let 'mk_whisper_params a0 a1 a2 a3 a4 a5 a6 a7 a8 a9 a10 _ a12 a13 a14 a15 a16 a17 a18 a19 a20 a21 := p in
  mk_whisper_params a0 a1 a2 a3 a4 a5 a6 a7 a8 a9 a10 v a12 a13 a14 a15 a16 a17 a18 a19 a20 a21.
Definition no_fallback (v : bool) (p : whisper_params) : whisper_params :=
  let 'mk_whisper_params a0 a1 a2 a3 a4 a5 a6 a7 a8 a9 a10 a11 _ a13 a14 a15 a16 a17 a18 a19 a20 a21 := p in
  mk_whisper_params a0 a1 a2 a3 a4 a5 a6 a7 a8 a9 a10 a11 v a13 a14 a15 a16 a17 a18 a19 a20 a21.
Definition print_special (v : bool) (p : whisper_params) : whisper_params :=
  let 'mk_whisper_params a0 a1 a2 a3 a4 a5 a6 a7 a8 a9 a10 a11 a12 _ a14 a15 a16 a17 a18 a19 a20 a21 := p in
  mk_whisper_params a0 a1 a2 a3 a4 a5 a6 a7 a8 a9 a10 a11 a12 v a14 a15 a16 a17 a18 a19 a20 a21.
Definition no_context (v : bool) (p : whisper_params) : whisper_params :=
  let 'mk_whisper_params a0 a1 a2 a3 a4 a5 a6 a7 a8 a9 a10 a11 a12 a13 _ a15 a16 a17 a18 a19 a20 a21 := p in
  mk_whisper_params a0 a1 a2 a3 a4 a5 a6 a7 a8 a9 a10 a11 a12 a13 v a15 a16 a17 a18 a19 a20 a21.
Definition tinydiarize (v : bool) (p : whisper_params) : whisper_params :=
  let 'mk_whisper_params a0 a1 a2 a3 a4 a5 a6 a7 a8 a9 a10 a11 a12 a13 a14 a15 _ a17 a18 a19 a20 a21 := p in
  mk_whisper_params a0 a1 a2 a3 a4 a5 a6 a7 a8 a9 a10 a11 a12 a13 a14 a15 v a17 a18 a19 a20 a21.
Definition save_audio (v : bool) (p : whisper_params) : whisper_params :=
  let 'mk_whisper_params a0 a1 a2 a3 a4 a5 a6 a7 a8 a9 a10 a11 a12 a13 a14 a15 a16 _ a18 a19 a20 a21 := p in
  mk_whisper_params a0 a1 a2 a3 a4 a5 a6 a7 a8 a9 a10 a11 a12 a13 a14 a15 a16 v a18 a19 a20 a21.
Definition use_gpu (v : bool) (p : whisper_params) : whisper_params :=
  let 'mk_whisper_params a0 a1 a2 a3 a4 a5 a6 a7 a8 a9 a10 a11 a12 a13 a14 a15 a16 a17 _ a19 a20 a21 := p in
  mk_whisper_params a0 a1 a2 a3 a4 a5 a6 a7 a8 a9 a10 a11 a12 a13 a14 a15 a16 a17 v a19 a20 a21.
Definition language (v : string) (p : whisper_params) : whisper_params :=
  let 'mk_whisper_params a0 a1 a2 a3 a4 a5 a6 a7 a8 a9 a10 a11 a12 a13 a14 a15 a16 a17 a18 _ a20 a21 := p in
  mk_whisper_params a0 a1 a2 a3 a4 a5 a6 a7 a8 a9 a10 a11 a12 a13 a14 a15 a16 a17 a18 v a20 a21.
Definition model (v : string) (p : whisper_params) : whisper_params :=
  let 'mk_whisper_params a0 a1 a2 a3 a4 a5 a6 a7 a8 a9 a10 a11 a12 a13 a14 a15 a16 a17 a18 a19 _ a21 := p in
  mk_whisper_params a0 a1 a2 a3 a4 a5 a6 a7 a8 a9 a10 a11 a12 a13 a14 a15 a16 a17 a18 a19 v a21.
Definition fname_out (v : string) (p : whisper_params) : whisper_params :=
  let 'mk_whisper_params a0 a1 a2 a3 a4 a5 a6 a7 a8 a9 a10 a11 a12 a13 a14 a15 a16 a17 a18 a19 a20 _ := p in
  mk_whisper_params a0 a1 a2 a3 a4 a5 a6 a7 a8 a9 a10 a11 a12 a13 a14 a15 a16 a17 a18 a19 a20 v.
End Set_.

Definition nl : string := String (ascii_of_nat 10) EmptyString.

(** [os << text << std::endl] *)
Definition endl (s : string) : string := (s ++ nl)%string.

(** The member initialisers of [whisper_params]; [hc] is the value of
    [std::thread::hardware_concurrency()] converted to [int32_t]. *)
Definition default_params (hc : Z) : whisper_params :=
  {| n_threads := Z.min 4 hc;
     step_ms := 3000;
     length_ms := 10000;
     keep_ms := 200;
     capture_id := -1;
     max_tokens := 32;
     audio_ctx := 0;
     vad_thold := Float32.lit_0_6f;
     freq_thold := Float32.lit_100f;
     speed_up := false;
     from_wav_file := false;
     translate := false;
     no_fallback := false;
     print_special := false;
     no_context := true;
     no_timestamps := false;
     tinydiarize := false;
     save_audio := false;
     use_gpu := true;
     language := "en";
     model := "models/ggml-base.en.bin";
     fname_out := "" |}.

(** ** [std::stoi] *)

Inductive stox (A : Type) : Type :=
| Parsed (a : A)
| Invalid_argument
| Out_of_range.
Arguments Parsed {A} a.
Arguments Invalid_argument {A}.
Arguments Out_of_range {A}.

Definition isspace (c : ascii) : bool :=
  let n := nat_of_ascii c in
  ((n =? 32) || ((9 <=? n) && (n <=? 13)))%nat.

Definition digit_of (c : ascii) : option Z :=
  let n := nat_of_ascii c in
  if ((48 <=? n) && (n <=? 57))%nat then Some (Z.of_nat n - 48) else None.

Fixpoint skip_space (s : string) : string :=
  match s with
  | String c r => if isspace c then skip_space r else s
  | EmptyString => s
  end.

(** The longest prefix of decimal digits: its value, and whether it is
    non-empty. *)
Fixpoint leading_digits (s : string) (acc : Z) (seen : bool) : Z * bool :=
  match s with
  | String c r =>
      match digit_of c with
      | Some d => leading_digits r (10 * acc + d) true
      | None => (acc, seen)
      end
  | EmptyString => (acc, seen)
  end.

(** [std::stoi(str)]: [strtol] in base 10 (leading white space, an optional
    sign, digits; trailing characters are ignored), [std::invalid_argument]
    when there is no digit, [std::out_of_range] when the value is not an
    [int]. *)
Definition stoi (str : string) : stox Z :=
  let s := skip_space str in
  let '(neg, body) :=
    match s with
    | String "-"%char r => (true, r)
    | String "+"%char r => (false, r)
    | _ => (false, s)
    end in
  let '(v, seen) := leading_digits body 0 false in
  if seen then
    let z := if neg then - v else v in
    if in_int z then Parsed z else Out_of_range
  else Invalid_argument.

(** ** The whisper API, as the program consumes it

    [whisper.h] is not part of the program.  The members of
    [whisper_full_params] that [main] assigns are kept; the other members
    keep the values of [whisper_full_default_params] and are not modelled. *)

Module WFull.
Record params : Type := mk {
  print_progress : bool;
  print_special : bool;
  print_realtime : bool;
  print_timestamps : bool;
  translate : bool;
  single_segment : bool;
  max_tokens : Z;
  language : string;
  n_threads : Z;
  audio_ctx : Z;
  speed_up : bool;
  tdrz_enable : bool;
  temperature_inc : Float32.t
}.
End WFull.

(** One segment of a result: what [whisper_full_get_segment_text],
    [.._t0] and [.._t1] return for one index. *)
Record segment : Type := mk_segment {
  seg_text : string;
  seg_t0 : Z;
  seg_t1 : Z
}.

(** The interface.  [whisper_full] returns its [int] status and the
    context as the call leaves it; [whisper_full_segments ctx] lists the
    segments for the indices [0 .. whisper_full_n_segments(ctx) - 1]. *)
Class WhisperAPI : Type := {
  WHISPER_SAMPLE_RATE : Z;
  whisper_context : Type;
  whisper_init_from_file_with_params : string -> bool -> option whisper_context;
  whisper_full_default_params_greedy : WFull.params;
  whisper_full : whisper_context -> WFull.params -> list Float32.t -> Z * whisper_context;
  whisper_full_segments : whisper_context -> list segment
}.

(** ** Observable events *)

Inductive event : Type :=
| Stdout (s : string)                    (* std::cout and printf *)
| Stderr (s : string)                    (* std::cerr and fprintf(stderr, ..) *)
| UsageText (argv0 : string) (p : whisper_params)
                                         (* the text of whisper_print_usage, on stderr *)
| InitCtx (path : string) (use_gpu ok : bool)
| OpenOut (fname : string) (ok : bool)   (* fout.open *)
| WriteOut (s : string)                  (* fout << .. *)
| CloseOut                               (* fout.close *)
| CinIgnore (n got : nat)                (* std::cin.ignore(n) *)
| CinRead (n got : nat)                  (* std::cin.read(.., n) *)
| WhisperFull (wp : WFull.params) (samples : list Float32.t) (ret : Z)
| WhisperFree.

(** How a process ends. *)
Inductive outcome : Type :=
| Exit (code : Z)             (* return from main, or exit(code) *)
| Terminate (what : string)   (* an exception nobody catches: std::terminate *)
| Undefined.                  (* undefined behaviour *)

(** ** [whisper_params_parse], lines 99-203 *)

Inductive parse_result : Type :=
| ParseReturn (b : bool) (p : whisper_params)  (* return b *)
| ParseExit (out : list event) (code : Z)      (* exit(code) inside the parser *)
| ParseThrow (what : string)                   (* std::stoi or std::stof threw *)
| ParseUndefined.                              (* argv[++i] is argv[argc], a null pointer *)

Definition what_of {A : Type} (r : stox A) : string :=
  match r with
  | Invalid_argument => "std::invalid_argument"
  | _ => "std::out_of_range"
  end.

Section Parser.

(** [std::stof], a function of the C++ library. *)
Variable stof : string -> stox Float32.t.

Variable argv0 : string.

Definition arg_is (arg a b : string) : bool := String.eqb arg a || String.eqb arg b.

(** One [else if] arm that consumes [argv[++i]] through a conversion. *)
Definition take {A : Type} (conv : string -> stox A) (rest : list string)
    (k : A -> list string -> parse_result) : parse_result :=
  match rest with
  | [] => ParseUndefined
  | v :: rest' =>
      match conv v with
      | Parsed a => k a rest'
      | e => ParseThrow (what_of e)
      end
  end.

Fixpoint parse_from (args : list string) (params : whisper_params) : parse_result :=
  match args with
  | [] => ParseReturn true params
  | arg :: rest =>
      if arg_is arg "-h" "--help" then
        ParseExit [UsageText argv0 params] 0
      else if arg_is arg "-t" "--threads" then
        take stoi rest (fun v r => parse_from r (Set_.n_threads v params))
      else if String.eqb arg "--step" then
        take stoi rest (fun v r => parse_from r (Set_.step_ms v params))
      else if String.eqb arg "--length" then
        take stoi rest (fun v r => parse_from r (Set_.length_ms v params))
      else if String.eqb arg "--keep" then
        take stoi rest (fun v r => parse_from r (Set_.keep_ms v params))
      else if arg_is arg "-c" "--capture" then
        take stoi rest (fun v r => parse_from r (Set_.capture_id v params))
      else if arg_is arg "-mt" "--max-tokens" then
        take stoi rest (fun v r => parse_from r (Set_.max_tokens v params))
      else if arg_is arg "-ac" "--audio-ctx" then
        take stoi rest (fun v r => parse_from r (Set_.audio_ctx v params))
      else if arg_is arg "-vth" "--vad-thold" then
        take stof rest (fun v r => parse_from r (Set_.vad_thold v params))
      else if arg_is arg "-fth" "--freq-thold" then
        take stof rest (fun v r => parse_from r (Set_.freq_thold v params))
      else if arg_is arg "-su" "--speed-up" then
        parse_from rest (Set_.speed_up true params)
      else if arg_is arg "-tr" "--translate" then
        parse_from rest (Set_.translate true params)
      else if arg_is arg "-nf" "--no-fallback" then
        parse_from rest (Set_.no_fallback true params)
      else if arg_is arg "-ps" "--print-special" then
        parse_from rest (Set_.print_special true params)
      else if arg_is arg "-kc" "--keep-context" then
        parse_from rest (Set_.no_context false params)
      else if arg_is arg "-l" "--language" then
        take Parsed rest (fun v r => parse_from r (Set_.language v params))
      else if arg_is arg "-m" "--model" then
        take Parsed rest (fun v r => parse_from r (Set_.model v params))
      else if arg_is arg "-f" "--file" then
        take Parsed rest (fun v r => parse_from r (Set_.fname_out v params))
      else if arg_is arg "-tdrz" "--tinydiarize" then
        parse_from rest (Set_.tinydiarize true params)
      else if arg_is arg "-sa" "--save-audio" then
        parse_from rest (Set_.save_audio true params)
      else if arg_is arg "-ng" "--no-gpu" then
        parse_from rest (Set_.use_gpu false params)
      else if String.eqb arg "--from-wav-file" then
        parse_from rest (Set_.from_wav_file true params)
      else
        ParseExit [Stderr ("error: unknown argument: " ++ arg ++ nl)%string;
                   UsageText argv0 params] 0
  end.

(** [whisper_params_parse(argc, argv, params)]: the arguments after
    [argv[0]], from the member initialisers. *)
Definition whisper_params_parse (args : list string) (params : whisper_params)
    : parse_result :=
  parse_from args params.

End Parser.

(** ** [std::cin] *)

Module Istream.

(** The unread bytes of standard input up to its end, the two state flags
    the program can observe, and the count of the last unformatted
    input.  [badbit] (a failing device) is not modelled. *)
Record t : Type := mk {
  unread : list byte;
  eofbit : bool;
  failbit : bool;
  gcount : nat
}.

Definition of_bytes (bs : list byte) : t :=
  {| unread := bs; eofbit := false; failbit := false; gcount := 0 |}.

Definition good (s : t) : bool := negb (eofbit s) && negb (failbit s).

Definition eof (s : t) : bool := eofbit s.

(** [ignore(n)]: extracts and discards up to [n] characters; meeting the
    end of the input before that sets [eofbit].  On a stream that is not
    good the sentry sets [failbit] and nothing is extracted. *)
Definition ignore (n : nat) (s : t) : t :=
  if good s then
    {| unread := skipn n (unread s);
       eofbit := (List.length (unread s) <? n)%nat;
       failbit := false;
       gcount := Nat.min n (List.length (unread s)) |}
  else
    {| unread := unread s; eofbit := eofbit s; failbit := true; gcount := 0 |}.

(** [read(buf, n)]: extracts up to [n] characters; when fewer than [n] are
    left, [eofbit] and [failbit] are both set.  Returns the characters
    stored at the start of [buf]. *)
Definition read (n : nat) (s : t) : list byte * t :=
  if good s then
    let short := (List.length (unread s) <? n)%nat in
    (firstn n (unread s),
     {| unread := skipn n (unread s);
        eofbit := short;
        failbit := short;
        gcount := Nat.min n (List.length (unread s)) |})
  else
    ([], {| unread := unread s; eofbit := eofbit s; failbit := true; gcount := 0 |}).

End Istream.

(** ** Object representations (little endian) *)

Definition byte_val (b : byte) : Z := Z.of_N (Byte.to_N b).

Definition byte_of (z : Z) : byte :=
  match Byte.of_N (Z.to_N (z mod 256)) with
  | Some b => b
  | None => x00
  end.

Definition float_bytes (x : Float32.t) : list byte :=
  [byte_of x; byte_of (x / 2 ^ 8); byte_of (x / 2 ^ 16); byte_of (x / 2 ^ 24)].

Definition bytes_of_floats (l : list Float32.t) : list byte :=
  flat_map float_bytes l.

Fixpoint floats_of_bytes (bs : list byte) : list Float32.t :=
  match bs with
  | b0 :: b1 :: b2 :: b3 :: r =>
      (byte_val b0 + 2 ^ 8 * byte_val b1 + 2 ^ 16 * byte_val b2 + 2 ^ 24 * byte_val b3)
        :: floats_of_bytes r
  | _ => []
  end.

Definition to_int16 (z : Z) : Z := (z + 2 ^ 15) mod 2 ^ 16 - 2 ^ 15.

Fixpoint int16s_of_bytes (bs : list byte) : list Z :=
  match bs with
  | b0 :: b1 :: r => to_int16 (byte_val b0 + 2 ^ 8 * byte_val b1) :: int16s_of_bytes r
  | _ => []
  end.

(** The bytes of a buffer after [read] stored [got] at its start. *)
Definition overwrite (got old : list byte) : list byte :=
  got ++ skipn (List.length got) old.

(** [sample / 32768.0f]: the sample is converted to [float] (exactly) and
    divided in binary32. *)
Definition sample_to_float (sample : Z) : Float32.t :=
  Float32.bits_of (Float32.div (Float32.of_int sample) (Float32.of_int 32768)).

Definition dec_of_Z (z : Z) : string :=
  let sign : string := if z <? 0 then "-"%string else ""%string in
  (sign ++ dec_of_N (Z.abs_N z))%string.

(** ** The program *)

(** What an execution is given: the command line, the platform's thread
    count, the whole of standard input, and which paths [fout.open] can
    open. *)
Record world : Type := mk_world {
  argv0 : string;
  args : list string;
  hardware_concurrency : Z;
  stdin : list byte;
  can_open : string -> bool
}.

(** How control leaves a loop body or the loop. *)
Inductive control : Type :=
| Next                  (* back to the loop condition: end of body, or continue *)
| Break
| Throw (what : string)
| UB.

Section Program.

Context {API : WhisperAPI}.
Variable stof : string -> stox Float32.t.

(** The locals of [main] that live across iterations, standard input, and
    the events so far. *)
Record loop_state : Type := mk_loop_state {
  cin : Istream.t;
  ctx : whisper_context;
  pcmf32 : list Float32.t;
  pcmf32_old : list Float32.t;
  fout_is_open : bool;
  is_running : bool;
  n_iter : Z;
  log : list event
}.

Definition say (e : event) (st : loop_state) : loop_state :=
  let 'mk_loop_state c x p o f r n l := st in mk_loop_state c x p o f r n (l ++ [e]).

Definition says (es : list event) (st : loop_state) : loop_state :=
  let 'mk_loop_state c x p o f r n l := st in mk_loop_state c x p o f r n (l ++ es).

Definition set_cin (c : Istream.t) (st : loop_state) : loop_state :=
  let 'mk_loop_state _ x p o f r n l := st in mk_loop_state c x p o f r n l.

Definition set_ctx (x : whisper_context) (st : loop_state) : loop_state :=
  let 'mk_loop_state c _ p o f r n l := st in mk_loop_state c x p o f r n l.

Definition set_pcmf32 (p : list Float32.t) (st : loop_state) : loop_state :=
  let 'mk_loop_state c x _ o f r n l := st in mk_loop_state c x p o f r n l.

Definition set_is_running (r : bool) (st : loop_state) : loop_state :=
  let 'mk_loop_state c x p o f _ n l := st in mk_loop_state c x p o f r n l.

Definition set_n_iter (n : Z) (st : loop_state) : loop_state :=
  let 'mk_loop_state c x p o f r _ l := st in mk_loop_state c x p o f r n l.

(** *** [readWavStreamAsFloats], lines 75-97 *)

Inductive wav_read : Type :=
| WavReturn (pcmf32 : list Float32.t)
| WavThrow (what : string)
| WavUndefined.

Definition wav_error : string :=
  "std::runtime_error: Error reading WAV data from standard input.".

Definition readWavStreamAsFloats (c : Istream.t)
    : wav_read * Istream.t * list event :=
  let c1 := Istream.ignore 44 c in
  let ev1 := CinIgnore 44 (Istream.gcount c1) in
  match n_samples_wav WHISPER_SAMPLE_RATE with
  | None => (WavUndefined, c1, [ev1])
  | Some n =>
      let size := (Z.to_nat n * 2)%nat in
      let '(got, c2) := Istream.read size c1 in
      let ev2 := CinRead size (Istream.gcount c2) in
      let buffer16 := int16s_of_bytes (overwrite got (repeat x00 size)) in
      if (Istream.gcount c2 =? 0)%nat then (WavThrow wav_error, c2, [ev1; ev2])
      else (WavReturn (map sample_to_float buffer16), c2, [ev1; ev2])
  end.

(** *** The body of the [while] loop, lines 270-346 *)

Variable params : whisper_params.
Variable prog : string.     (* argv[0] *)

Definition end_of_stream : event :=
  Stdout (endl "End of audio stream detected.").

(** Lines 270-289: fill [pcmf32] from standard input. *)
Definition read_window (st : loop_state) : control * loop_state :=
  let st := say (Stdout (endl "Reading audio data from standard input...")) st in
  let '(c, st) :=
    if from_wav_file params then
      let '(r, c', evs) := readWavStreamAsFloats (cin st) in
      let st := says evs (set_cin c' st) in
      match r with
      | WavReturn pcm => (Next, set_pcmf32 pcm st)
      | WavThrow what => (Throw what, st)
      | WavUndefined => (UB, st)
      end
    else
      let size := (List.length (pcmf32 st) * 4)%nat in
      let '(got, c') := Istream.read size (cin st) in
      let buf := overwrite got (bytes_of_floats (pcmf32 st)) in
      let st := say (CinRead size (Istream.gcount c'))
                    (set_pcmf32 (floats_of_bytes buf) (set_cin c' st)) in
      if Istream.eof c' then (Break, say end_of_stream st) else (Next, st)
  in
  match c with
  | Next => if Istream.eof (cin st) then (Break, say end_of_stream st) else (Next, st)
  | _ => (c, st)
  end.

(** Lines 299-312. *)
Definition wparams : WFull.params :=
  let d := whisper_full_default_params_greedy in
  {| WFull.print_progress := false;
     WFull.print_special := print_special params;
     WFull.print_realtime := false;
     WFull.print_timestamps := negb (no_timestamps params);
     WFull.translate := translate params;
     WFull.single_segment := true;
     WFull.max_tokens := max_tokens params;
     WFull.language := language params;
     WFull.n_threads := n_threads params;
     WFull.audio_ctx := audio_ctx params;
     WFull.speed_up := speed_up params;
     WFull.tdrz_enable := tinydiarize params;
     WFull.temperature_inc :=
       if no_fallback params then Float32.zero else WFull.temperature_inc d |}.

(** Lines 325-343: one segment, to the console and to the file sink when
    it is open. *)
Definition emit_segment (st : loop_state) (sg : segment) : loop_state :=
  let text := seg_text sg in
  if no_timestamps params then
    let st := say (Stdout text) st in
    if fout_is_open st then say (WriteOut text) st else st
  else
    let line := ("[" ++ to_timestamp (seg_t0 sg) ++ " --> "
                     ++ to_timestamp (seg_t1 sg) ++ "] " ++ text)%string in
    let st := say (Stdout (line ++ nl)%string) st in
    if fout_is_open st then say (WriteOut (endl line)) st else st.

(** Lines 291-346: recognise the window and print the result.
    [n_iter + 1] overflows when [n_iter] is [INT_MAX]. *)
Definition process_window (st : loop_state) : control * loop_state :=
  if n_iter st =? INT_MAX then (UB, st)
  else
    let st := say (Stdout (endl ("Processing audio data, iteration "
                                   ++ dec_of_Z (n_iter st + 1) ++ "..."))%string) st in
    let st := if Istream.eof (cin st) then say end_of_stream st else st in
    let '(ret, ctx') := whisper_full (ctx st) wparams (pcmf32 st) in
    let st := say (WhisperFull wparams (pcmf32 st) ret) (set_ctx ctx' st) in
    if negb (ret =? 0) then
      let st := say (Stderr (prog ++ ": failed to process audio" ++ nl)%string) st in
      (Next, set_is_running false st)
    else
      let st := say (Stdout (endl "Audio processed successfully.")) st in
      let st := fold_left emit_segment (whisper_full_segments (ctx st)) st in
      (Next, set_n_iter (n_iter st + 1) st).

Definition iteration (st : loop_state) : control * loop_state :=
  match read_window st with
  | (Next, st') => process_window st'
  | r => r
  end.

(** [while (is_running) { .. }]: [None] when [fuel] iterations do not
    reach the end of the loop. *)
Fixpoint main_loop (fuel : nat) (st : loop_state) : option (control * loop_state) :=
  if is_running st then
    match fuel with
    | O => None
    | S fuel' =>
        match iteration st with
        | (Next, st') => main_loop fuel' st'
        | r => Some r
        end
    end
  else Some (Next, st).

End Program.

(** *** [main], lines 221-361 *)

(** An execution: how the process ended, what it did, and standard input as
    it left it. *)
Record run : Type := mk_run {
  result : outcome;
  trace : list event;
  cin_end : Istream.t
}.

Section Main.

Context {API : WhisperAPI}.
Variable stof : string -> stox Float32.t.

(** Lines 251-262: [None] is [return 3]. *)
Definition open_sink (w : world) (params : whisper_params) : option bool * list event :=
  let name := fname_out params in
  if String.eqb name "" then (Some false, [])
  else
    let ev := Stdout (endl ("Opening output file: " ++ name)%string) in
    if can_open w name then
      (Some true, [ev; OpenOut name true; Stdout (endl "Output file opened successfully.")])
    else
      (None, [ev; OpenOut name false;
              Stderr (endl ("Failed to open output file: " ++ name)%string)]).

(** Lines 349-360. *)
Definition epilogue (st : loop_state) : list event :=
  (if fout_is_open st then [Stdout (endl "Closing output file."); CloseOut] else [])
  ++ [Stdout (endl "Freeing Whisper context."); WhisperFree;
      Stdout (endl "Whisper RT Service terminated successfully.")].

Definition after_loop (r : control * loop_state) : run :=
  let '(c, st) := r in
  match c with
  | Next | Break => mk_run (Exit 0) (log st ++ epilogue st) (cin st)
  | Throw what => mk_run (Terminate what) (log st) (cin st)
  | UB => mk_run Undefined (log st) (cin st)
  end.

(** The state in which the loop is entered, line 268. *)
Definition loop_entry (c : Istream.t) (x : whisper_context) (n_samples_step : Z)
    (sink_open : bool) (l : list event) : loop_state :=
  {| cin := c;
     ctx := x;
     pcmf32 := repeat Float32.zero (Z.to_nat n_samples_step);
     pcmf32_old := [];
     fout_is_open := sink_open;
     is_running := true;
     n_iter := 0;
     log := l ++ [Stdout (endl "Starting main audio processing loop...")] |}.

(** Lines 221-267: everything before the loop.  Either the process has
    ended, or the loop is entered with the parsed configuration. *)
Definition startup (w : world) : run + whisper_params * loop_state :=
  let c0 := Istream.of_bytes (stdin w) in
  let l0 := [Stdout (endl "Initializing Whisper RT Service...")] in
  match whisper_params_parse stof (argv0 w) (args w)
                             (default_params (hardware_concurrency w)) with
  | ParseExit out code => inl (mk_run (Exit code) (l0 ++ out) c0)
  | ParseThrow what => inl (mk_run (Terminate what) l0 c0)
  | ParseUndefined => inl (mk_run Undefined l0 c0)
  | ParseReturn false _ =>
      inl (mk_run (Exit 1) (l0 ++ [Stderr (endl "Error: Failed to parse parameters.")]) c0)
  | ParseReturn true params =>
      let l1 := l0 ++ [Stdout (endl "Parsed parameters successfully.")] in
      match n_samples_step_of WHISPER_SAMPLE_RATE (step_ms params) with
      | None => inl (mk_run Undefined l1 c0)
      | Some n_samples_step =>
          let l2 := l1 ++ [Stdout (endl "Initializing Whisper context...")] in
          match whisper_init_from_file_with_params (model params) (use_gpu params) with
          | None =>
              inl (mk_run (Exit 2)
                     (l2 ++ [InitCtx (model params) (use_gpu params) false;
                             Stderr (endl "Failed to initialize whisper context.")]) c0)
          | Some x =>
              let l3 := l2 ++ [InitCtx (model params) (use_gpu params) true;
                               Stdout (endl "Whisper context initialized successfully.")] in
              if n_samples_step <? 0 then
                (* the size converts to a value above max_size() *)
                inl (mk_run (Terminate "std::length_error") l3 c0)
              else
                match open_sink w params with
                | (None, evs) => inl (mk_run (Exit 3) (l3 ++ evs) c0)
                | (Some is_open, evs) =>
                    inr (params, loop_entry c0 x n_samples_step is_open (l3 ++ evs))
                end
          end
      end
  end.

(** [main]: [None] when the loop needs more than [fuel] iterations. *)
Definition main (w : world) (fuel : nat) : option run :=
  match startup w with
  | inl r => Some r
  | inr (params, st) => option_map after_loop (main_loop params (argv0 w) fuel st)
  end.

End Main.

(** ** Observations on executions *)

(** The windows handed to [whisper_full], in order. *)
Fixpoint engine_windows (l : list event) : list (list Float32.t) :=
  match l with
  | [] => []
  | WhisperFull _ samples _ :: r => samples :: engine_windows r
  | _ :: r => engine_windows r
  end.

(** The statuses [whisper_full] returned, in order. *)
Fixpoint engine_statuses (l : list event) : list Z :=
  match l with
  | [] => []
  | WhisperFull _ _ ret :: r => ret :: engine_statuses r
  | _ :: r => engine_statuses r
  end.

(** What was written to the standard error stream, message by message. *)
Fixpoint stderr_of (l : list event) : list string :=
  match l with
  | [] => []
  | Stderr s :: r => s :: stderr_of r
  | _ :: r => stderr_of r
  end.

(** The records [[MM:SS.mmm --> MM:SS.mmm] text] written to the console. *)
Fixpoint records_of (l : list event) : list string :=
  match l with
  | [] => []
  | Stdout s :: r => if prefix "[" s then s :: records_of r else records_of r
  | _ :: r => records_of r
  end.

Definition is_input (e : event) : bool :=
  match e with
  | CinIgnore _ _ | CinRead _ _ => true
  | _ => false
  end.

(** Whether standard input was touched. *)
Definition reads_input (l : list event) : bool := existsb is_input l.

Definition is_sink_open (e : event) : bool :=
  match e with
  | OpenOut _ _ | InitCtx _ _ _ => true
  | _ => false
  end.

(** What [emit_segment] writes for one segment. *)
Definition segment_events (params : whisper_params) (sink_open : bool) (sg : segment)
    : list event :=
  let text := seg_text sg in
  if no_timestamps params then
    Stdout text :: (if sink_open then [WriteOut text] else [])
  else
    let line := ("[" ++ to_timestamp (seg_t0 sg) ++ " --> "
                     ++ to_timestamp (seg_t1 sg) ++ "] " ++ text)%string in
    Stdout (line ++ nl)%string :: (if sink_open then [WriteOut (endl line)] else []).

Section Observations.

Context {API : WhisperAPI}.
Variable params : whisper_params.
Variable prog : string.

(** The state in which iteration [k] (from 0) starts, when there is one:
    [k] iterations ran to the end of the body with [is_running] set. *)
Fixpoint after_iterations (k : nat) (st : loop_state) : option loop_state :=
  match k with
  | O => Some st
  | S k' =>
      if is_running st then
        match iteration params prog st with
        | (Next, st') => after_iterations k' st'
        | _ => None
        end
      else None
  end.

(** The size of the buffer [whisper_full] is given: the step size of line
    236, or the fixed buffer of line 81. *)
Definition window_length : option nat :=
  option_map Z.to_nat
    (if from_wav_file params then n_samples_wav WHISPER_SAMPLE_RATE
     else n_samples_step_of WHISPER_SAMPLE_RATE (step_ms params)).

(** The bytes one iteration asks standard input for. *)
Definition bytes_wanted (st : loop_state) : option nat :=
  if from_wav_file params then
    option_map (fun n => (Z.to_nat n * 2)%nat) (n_samples_wav WHISPER_SAMPLE_RATE)
  else Some (List.length (pcmf32 st) * 4)%nat.

(** The bytes the [read] of this iteration finds. *)
Definition bytes_available (st : loop_state) : nat :=
  if from_wav_file params then List.length (skipn 44 (Istream.unread (cin st)))
  else List.length (Istream.unread (cin st)).

(** The events of the recognition step up to and including the call. *)
Definition call_events (st : loop_state) (ret : Z) : list event :=
  [Stdout (endl ("Processing audio data, iteration "
                   ++ dec_of_Z (n_iter st + 1) ++ "..."))%string]
  ++ (if Istream.eof (cin st) then [end_of_stream] else [])
  ++ [WhisperFull (wparams params) (pcmf32 st) ret].

(** Every window the engine was given has the size of the buffer, and in
    raw mode [pcmf32] keeps that size. *)
Definition windows_ok (st : loop_state) : Prop :=
  Forall (fun win => window_length = Some (List.length win)) (engine_windows (log st))
  /\ (from_wav_file params = false -> window_length = Some (List.length (pcmf32 st))).

Definition reading : event :=
  Stdout (endl "Reading audio data from standard input...").

End Observations.

(** ** A test double of the engine

    The context counts the calls; call number [fail_at] (from 0) returns a
    non-zero status, every other call succeeds and yields one segment whose
    text gives the number of samples of the window. *)

Module Fake.

Definition segments_of (last : option (nat * Z)) : list segment :=
  match last with
  | Some (calls, n) =>
      [ {| seg_text := (" window of " ++ dec_of_Z n)%string;
           seg_t0 := 0; seg_t1 := 6134 |} ]
  | None => []
  end.

Definition defaults : WFull.params :=
  {| WFull.print_progress := true; WFull.print_special := false;
     WFull.print_realtime := false; WFull.print_timestamps := true;
     WFull.translate := false; WFull.single_segment := false;
     WFull.max_tokens := 0; WFull.language := "en"; WFull.n_threads := 4;
     WFull.audio_ctx := 0; WFull.speed_up := false; WFull.tdrz_enable := false;
     WFull.temperature_inc := 1045220557 |}.

(** The context: calls made so far, and the last successful result. *)
Definition api (rate : Z) (fail_at : option nat) (loads : bool) : WhisperAPI :=
  {| WHISPER_SAMPLE_RATE := rate;
     whisper_context := nat * option (nat * Z);
     whisper_init_from_file_with_params := fun _ _ => if loads then Some (O, None) else None;
     whisper_full_default_params_greedy := defaults;
     whisper_full := fun c _ samples =>
       let calls := fst c in
       if match fail_at with Some k => Nat.eqb k calls | None => false end
       then (-1, (S calls, snd c))
       else (0, (S calls, Some (calls, Z.of_nat (List.length samples))));
     whisper_full_segments := fun c => segments_of (snd c) |}.

Definition stof (s : string) : stox Float32.t :=
  if String.eqb s "0.6" then Parsed Float32.lit_0_6f else Invalid_argument.

End Fake.

(** ** The statements of the specification that the program is compared with *)

Section SpecStatements.

Context {API : WhisperAPI}.
Variable stof : string -> stox Float32.t.

(** "Retained Context length equals [keep_ms * sampleRate / 1000] samples
    whenever keep-context is enabled, and is empty on the very first
    iteration and whenever keep-context is disabled." *)
Definition spec_retained_context (w : world) : Prop :=
  forall params entry k st,
    startup stof w = inr (params, entry) ->
    after_iterations params (argv0 w) k entry = Some st ->
    Z.of_nat (List.length (pcmf32_old st)) =
      if (0 <? k)%nat && negb (no_context params)
      then keep_ms params * WHISPER_SAMPLE_RATE / 1000
      else 0.

(** "never a shorter window reaches the Recognition Engine", with
    [windowCapacity = length_ms * sampleRate / 1000]. *)
Definition spec_window_capacity (w : world) : Prop :=
  forall params entry fuel r,
    startup stof w = inr (params, entry) ->
    main stof w fuel = Some r ->
    Forall (fun win => Z.of_nat (List.length win)
                       = length_ms params * WHISPER_SAMPLE_RATE / 1000)
           (engine_windows (trace r)).

(** A threshold is positive when its pattern is that of a positive finite
    number or of plus infinity. *)
Definition positive_threshold (x : Float32.t) : bool :=
  (0 <? x) && (x <=? 255 * 2 ^ 23).

(** "a window of all-zero samples with a positive energy threshold is
    classified inactive and produces no recognition call or emitted
    segments, yet the loop still advances to the next step." *)
Definition spec_activity_gate (params : whisper_params) (prog : string)
    (st : loop_state) : Prop :=
  forallb Float32.is_zero (pcmf32 st) = true ->
  positive_threshold (vad_thold params) = true ->
  let '(c, st') := process_window params prog st in
  c = Next
  /\ engine_windows (log st') = engine_windows (log st)
  /\ n_iter st' = n_iter st + 1.

(** "For every run where an output file path is configured but the output
    sink cannot be opened, the process exits with exit code 3 before
    reading any audio from the sample source." *)
Definition spec_sink_open_failure (w : world) : Prop :=
  forall params fuel,
    whisper_params_parse stof (argv0 w) (args w)
      (default_params (hardware_concurrency w)) = ParseReturn true params ->
    fname_out params <> ""%string ->
    can_open w (fname_out params) = false ->
    exists r,
      main stof w fuel = Some r
      /\ result r = Exit 3
      /\ reads_input (trace r) = false.

End SpecStatements.

(** ** Concrete executions

    Inputs for the examples below: the program is started as [stream-rt] on
    a machine with 8 hardware threads, every path can be opened unless said
    otherwise, the engine is the test double at 16 kHz, and the audio is
    silence. *)

Module Run.

Definition silence (n : nat) : list byte := repeat x00 n.

Definition world_of (arguments : list string) (input : list byte) : world :=
  mk_world "stream-rt" arguments 8 input (fun _ => true).

Definition engine : WhisperAPI := Fake.api SAMPLE_RATE_16K None true.

(** The engine whose call number [k] fails. *)
Definition failing_engine (k : nat) : WhisperAPI := Fake.api SAMPLE_RATE_16K (Some k) true.

(** What is printed before the sink is opened when nothing goes wrong. *)
Definition banner (p : whisper_params) : list event :=
  [Stdout (endl "Initializing Whisper RT Service...");
   Stdout (endl "Parsed parameters successfully.");
   Stdout (endl "Initializing Whisper context...");
   InitCtx (model p) (use_gpu p) true;
   Stdout (endl "Whisper context initialized successfully.")].

(** The loop entry of an execution without a file sink. *)
Definition entry (p : whisper_params) (n_samples_step : Z) (input : list byte)
    : @loop_state engine :=
  @loop_entry engine (Istream.of_bytes input) (O, None) n_samples_step false (banner p).

(** [stream-rt -kc --step 2 --keep 1] on 300 bytes of raw audio: the
    keep-context flag is set, a step is 32 floats (128 bytes), the context
    to keep is 16 samples. *)
Definition kc_world : world :=
  world_of ["-kc"; "--step"; "2"; "--keep"; "1"]%string (silence 300).
Definition kc_params : whisper_params :=
  Set_.keep_ms 1 (Set_.step_ms 2 (Set_.no_context false (default_params 8))).

(** [stream-rt --step 2] on the same audio; the window length keeps its
    default of 10000 ms. *)
Definition step2_world : world := world_of ["--step"; "2"]%string (silence 300).
Definition step2_params : whisper_params := Set_.step_ms 2 (default_params 8).

(** [stream-rt] without arguments on five whole windows of the default
    step: 5 * 48000 floats. *)
Definition five_windows : world := world_of [] (silence 960000).

(** [stream-rt --bogus]. *)
Definition bogus_world : world := world_of ["--bogus"%string] (silence 300).

(** [stream-rt -f /nonexistent/out.txt] where no path can be opened. *)
Definition unwritable_world : world :=
  mk_world "stream-rt" ["-f"; "/nonexistent/out.txt"]%string 8 (silence 300)
           (fun _ => false).
Definition unwritable_params : whisper_params :=
  Set_.fname_out "/nonexistent/out.txt" (default_params 8).

(** [stream-rt --step 4007] on 300000 bytes of raw audio. *)
Definition step4007_world : world :=
  world_of ["--step"; "4007"]%string (silence 300000).

(** Wav mode.  At 16 kHz one buffer is 320000 bytes; the test double at
    8 Hz has buffers of 80 samples, 160 bytes. *)
Definition wav_params : whisper_params := Set_.from_wav_file true (default_params 8).

Definition slow_engine : WhisperAPI := Fake.api 8 None true.

Definition slow_wav_entry (input : list byte) : @loop_state slow_engine :=
  @loop_entry slow_engine (Istream.of_bytes input) (O, None) 24 false (banner wav_params).

(** [stream-rt --from-wav-file] on an empty standard input. *)
Definition empty_wav_world : world := world_of ["--from-wav-file"%string] [].

Definition empty_wav_entry : @loop_state engine :=
  @loop_entry engine (Istream.of_bytes []) (O, None) 48000 false (banner wav_params).

(** [stream-rt --from-wav-file] on a header and exactly one buffer. *)
Definition one_buffer_wav_world : world :=
  world_of ["--from-wav-file"%string] (silence 320044).

(** [stream-rt --from-wav-file] on a header and two buffers' worth of
    payload and 44 bytes more.  The payload is silence but for two samples:
    the sample at payload offset 320000, where the second buffer would start
    if only the header were skipped, is 1; the sample 44 bytes later is 2. *)
Definition marked_payload : list byte :=
  silence 320000 ++ [x01; x00] ++ silence 42 ++ [x02; x00] ++ silence 319998.
Definition two_buffers_wav_world : world :=
  world_of ["--from-wav-file"%string] (silence 44 ++ marked_payload).

End Run.

(** ** Further observations *)

(** What was written to the output file, write by write. *)
Fixpoint file_of (l : list event) : list string :=
  match l with
  | [] => []
  | WriteOut s :: r => s :: file_of r
  | _ :: r => file_of r
  end.

(** The parameters [whisper_full] was called with, in order. *)
Fixpoint engine_params (l : list event) : list WFull.params :=
  match l with
  | [] => []
  | WhisperFull wp _ _ :: r => wp :: engine_params r
  | _ :: r => engine_params r
  end.

Definition is_open_out (e : event) : bool :=
  match e with
  | OpenOut _ _ => true
  | _ => false
  end.

Definition is_init (e : event) : bool :=
  match e with
  | InitCtx _ _ _ => true
  | _ => false
  end.

(** The record [emit_segment] prints for one segment when timestamps are
    on. *)
Definition record_of (sg : segment) : string :=
  let line := ("[" ++ to_timestamp (seg_t0 sg) ++ " --> " ++ to_timestamp (seg_t1 sg)
                   ++ "] " ++ seg_text sg)%string in
  (line ++ nl)%string.

(** [k] consecutive windows of [size] bytes, each after [skip] bytes. *)
Fixpoint windows_of (k size skip : nat) (bs : list byte) : list (list byte) :=
  match k with
  | O => []
  | S k' => firstn size (skipn skip bs) :: windows_of k' size skip (skipn (skip + size) bs)
  end.

(** An engine none of whose calls fails. *)
Definition always_succeeds (API : WhisperAPI) : Prop :=
  forall c wp samples, fst (whisper_full c wp samples) = 0.

(** The options of the parser that take a value, and those among them whose
    value goes through [std::stoi]. *)
Definition int_options : list string :=
  ["-t"; "--threads"; "--step"; "--length"; "--keep"; "-c"; "--capture";
   "-mt"; "--max-tokens"; "-ac"; "--audio-ctx"]%string.

Definition value_options : list string :=
  int_options ++ ["-vth"; "--vad-thold"; "-fth"; "--freq-thold";
                  "-l"; "--language"; "-m"; "--model"; "-f"; "--file"]%string.

(** The integers [lo, lo + 1, .., lo + n - 1]. *)
Fixpoint Z_upto (lo : Z) (n : nat) : list Z :=
  match n with
  | O => []
  | S k => lo :: Z_upto (lo + 1) k
  end.

Definition Z_range (lo n : Z) : list Z := Z_upto lo (Z.to_nat n).

(** Decoding of a binary32 pattern. *)
Definition decode_float32 (x : Float32.t) : spec_float :=
  let s := 2 ^ 31 <=? x in
  let e := (x / 2 ^ 23) mod 2 ^ 8 in
  let m := x mod 2 ^ 23 in
  if e =? 0 then
    match m with
    | Zpos p => S754_finite s p (-149)
    | _ => S754_zero s
    end
  else if e =? 255 then
    (if m =? 0 then S754_infinity s else S754_nan)
  else
    match m + 2 ^ 23 with
    | Zpos p => S754_finite s p (e - 150)
    | _ => S754_nan
    end.

(** The value of a [float] times [2^15], when that is an integer. *)
Definition times_2_15 (x : Float32.t) : option Z :=
  match decode_float32 x with
  | S754_zero _ => Some 0
  | S754_finite s m e =>
      let k := e + 15 in
      let a := if 0 <=? k then Some (Z.pos m * 2 ^ k)
               else if Z.pos m mod 2 ^ (- k) =? 0 then Some (Z.pos m / 2 ^ (- k))
               else None in
      option_map (fun v => if s then - v else v) a
  | _ => None
  end.

(** The character of a decimal digit. *)
Definition digit_char (d : Z) : ascii := ascii_of_N (48 + Z.to_N d).

(** ** Inputs and invariants for the further properties *)

(** The first line of every execution. *)
Definition hello : event := Stdout (endl "Initializing Whisper RT Service...").

(** The log of a loop state is in order when the file holds what the console
    holds as records (nothing when no file is open) and every call of the
    engine was made with [wparams]. *)
Definition log_ok {API : WhisperAPI} (params : whisper_params) (st : loop_state) : Prop :=
  file_of (log st) = (if fout_is_open st then records_of (log st) else [])
  /\ Forall (fun wp => wp = wparams params) (engine_params (log st)).

(** More inputs for examples. *)
Module More.

(** [stream-rt --step 2 -f out.txt] on 300 bytes of silence. *)
Definition sink_world : world :=
  Run.world_of ["--step"; "2"; "-f"; "out.txt"]%string (Run.silence 300).
Definition sink_params : whisper_params :=
  Set_.fname_out "out.txt" (Set_.step_ms 2 (default_params 8)).
Definition sink_entry : @loop_state Run.engine :=
  @loop_entry Run.engine (Istream.of_bytes (Run.silence 300)) (O, None) 32 true
    (Run.banner sink_params
       ++ [Stdout (endl "Opening output file: out.txt"); OpenOut "out.txt" true;
           Stdout (endl "Output file opened successfully.")]).

End More.

(** [stream-rt --from-wav-file] on 450 bytes, with the engine at 8 Hz
    (buffers of 160 bytes): two headers and buffers, and 42 bytes more. *)
Definition slow_wav_world : world :=
  Run.world_of ["--from-wav-file"%string] (Run.silence 450).


(** [stream-rt -kc --step] : the value of the last option is missing. *)
Definition missing_value_world : world :=
  Run.world_of ["-kc"; "--step"]%string (Run.silence 300).

(** [stream-rt --step 2 -h --bogus]. *)
Definition help_world : world :=
  Run.world_of ["--step"; "2"; "-h"; "--bogus"]%string (Run.silence 300).

(** [stream-rt -kc --step abc]. *)
Definition bad_step_world : world :=
  Run.world_of ["-kc"; "--step"; "abc"]%string (Run.silence 300).

(** [stream-rt --step -5] and [stream-rt --step 0]. *)
Definition negative_step_world : world :=
  Run.world_of ["--step"; "-5"]%string (Run.silence 300).
Definition negative_step_params : whisper_params := Set_.step_ms (-5) (default_params 8).

Definition zero_step_world : world :=
  Run.world_of ["--step"; "0"]%string (Run.silence 300).
Definition zero_step_params : whisper_params := Set_.step_ms 0 (default_params 8).

(** The engine whose model cannot be loaded. *)
Definition absent_engine : WhisperAPI := Fake.api SAMPLE_RATE_16K None false.


(** * Properties *)

(** ** Lists and object representations *)

Lemma engine_windows_app (l1 l2 : list event) :
  engine_windows (l1 ++ l2) = engine_windows l1 ++ engine_windows l2.
Proof.
  induction l1 as [|e l1 IH]; simpl; [reflexivity|].
  destruct e; simpl; rewrite ?IH; reflexivity.
Qed.

Lemma engine_statuses_app (l1 l2 : list event) :
  engine_statuses (l1 ++ l2) = engine_statuses l1 ++ engine_statuses l2.
Proof.
  induction l1 as [|e l1 IH]; simpl; [reflexivity|].
  destruct e; simpl; rewrite ?IH; reflexivity.
Qed.

Lemma reads_input_app (l1 l2 : list event) :
  reads_input (l1 ++ l2) = reads_input l1 || reads_input l2.
Proof. unfold reads_input. apply existsb_app. Qed.

Lemma float_bytes_length (x : Float32.t) : List.length (float_bytes x) = 4%nat.
Proof. reflexivity. Qed.

Lemma bytes_of_floats_length (l : list Float32.t) :
  List.length (bytes_of_floats l) = (List.length l * 4)%nat.
Proof.
  induction l as [|x l IH]; [reflexivity|].
  unfold bytes_of_floats in *. cbn [flat_map]. rewrite length_app, IH.
  rewrite float_bytes_length. cbn [List.length]. lia.
Qed.

(** A buffer of [4 * n] bytes is [n] floats. *)
Lemma floats_of_bytes_length (n : nat) :
  forall bs, List.length bs = (n * 4)%nat -> List.length (floats_of_bytes bs) = n.
Proof.
  induction n as [|n IH]; intros bs H.
  - destruct bs; [reflexivity | discriminate].
  - destruct bs as [|b0 [|b1 [|b2 [|b3 r]]]]; try discriminate.
    cbn [floats_of_bytes List.length]. f_equal. apply IH.
    cbn [List.length] in H. lia.
Qed.

Lemma int16s_of_bytes_length (n : nat) :
  forall bs, List.length bs = (n * 2)%nat -> List.length (int16s_of_bytes bs) = n.
Proof.
  induction n as [|n IH]; intros bs H.
  - destruct bs; [reflexivity | discriminate].
  - destruct bs as [|b0 [|b1 r]]; try discriminate.
    cbn [int16s_of_bytes List.length]. f_equal. apply IH.
    cbn [List.length] in H. lia.
Qed.

(** [read] never stores more than the buffer holds, so the buffer keeps its
    size. *)
Lemma overwrite_length (got old : list byte) :
  (List.length got <= List.length old)%nat ->
  List.length (overwrite got old) = List.length old.
Proof.
  intros H. unfold overwrite. rewrite length_app, length_skipn. lia.
Qed.

(** A read that fills the buffer replaces all of it. *)
Lemma overwrite_full (got old : list byte) :
  List.length got = List.length old -> overwrite got old = got.
Proof.
  intros H. unfold overwrite. rewrite H, skipn_all. apply app_nil_r.
Qed.

(** ** [std::cin] *)

Lemma read_got_length (n : nat) (s : Istream.t) :
  (List.length (fst (Istream.read n s)) <= n)%nat.
Proof.
  unfold Istream.read. destruct (Istream.good s); cbn [fst].
  - rewrite length_firstn. lia.
  - cbn. lia.
Qed.

(** After [read(buf, n)] the stream is at its end exactly when the stream
    was not good or held fewer than [n] bytes. *)
Lemma read_eof (n : nat) (s : Istream.t) :
  Istream.good s = true ->
  Istream.eof (snd (Istream.read n s)) = (List.length (Istream.unread s) <? n)%nat.
Proof. intros H. unfold Istream.read. rewrite H. reflexivity. Qed.

Lemma read_full (n : nat) (s : Istream.t) :
  Istream.good s = true ->
  (n <= List.length (Istream.unread s))%nat ->
  Istream.read n s =
    (firstn n (Istream.unread s),
     Istream.mk (skipn n (Istream.unread s)) false false n).
Proof.
  intros Hg Hn. unfold Istream.read. rewrite Hg.
  replace (List.length (Istream.unread s) <? n)%nat with false
    by (symmetry; apply Nat.ltb_ge; exact Hn).
  rewrite Nat.min_l by exact Hn. reflexivity.
Qed.

(** ** The loop body *)

Section LoopFacts.

Context {API : WhisperAPI}.
Variable params : whisper_params.
Variable prog : string.

Lemma emit_segments_says (segs : list segment) :
  forall st,
    fold_left (emit_segment params) segs st
    = says (flat_map (segment_events params (fout_is_open st)) segs) st.
Proof.
  induction segs as [|sg segs IH]; intros st.
  - destruct st; cbn. rewrite app_nil_r. reflexivity.
  - cbn [fold_left flat_map]. rewrite IH. clear IH.
    unfold emit_segment, segment_events. destruct st as [c x p o f r n l].
    destruct (no_timestamps params), f; cbn; rewrite <- ?app_assoc; reflexivity.
Qed.

(** What [process_window] does, in one equation: one call of the engine on
    the whole of [pcmf32]; on a non-zero status the loop is stopped, on
    zero every segment of the result is written and the counter moves. *)
Lemma process_window_eq (st : loop_state) :
  n_iter st <> INT_MAX ->
  process_window params prog st =
    let '(ret, ctx') := whisper_full (ctx st) (wparams params) (pcmf32 st) in
    if ret =? 0 then
      (Next,
       mk_loop_state (cin st) ctx' (pcmf32 st) (pcmf32_old st) (fout_is_open st)
         (is_running st) (n_iter st + 1)
         (log st ++ call_events params st ret
            ++ [Stdout (endl "Audio processed successfully.")]
            ++ flat_map (segment_events params (fout_is_open st))
                        (whisper_full_segments ctx')))
    else
      (Next,
       mk_loop_state (cin st) ctx' (pcmf32 st) (pcmf32_old st) (fout_is_open st)
         false (n_iter st)
         (log st ++ call_events params st ret
            ++ [Stderr (prog ++ ": failed to process audio" ++ nl)%string])).
Proof.
  intros Hn. unfold process_window, call_events.
  apply Z.eqb_neq in Hn. rewrite Hn.
  destruct st as [c x p o f r n l]. cbn [cin ctx pcmf32 pcmf32_old fout_is_open
    is_running n_iter log say].
  destruct (Istream.eof c);
    cbn [cin ctx pcmf32 pcmf32_old fout_is_open is_running n_iter log say];
    destruct (whisper_full x (wparams params) p) as [ret ctx'];
    cbn [cin ctx pcmf32 pcmf32_old fout_is_open is_running n_iter log say set_ctx];
    destruct (ret =? 0); cbn [negb];
    cbn [cin ctx pcmf32 pcmf32_old fout_is_open is_running n_iter log say
         set_is_running set_n_iter];
    rewrite ?emit_segments_says;
    cbn [cin ctx pcmf32 pcmf32_old fout_is_open is_running n_iter log says
         set_is_running set_n_iter app];
    rewrite <- ?app_assoc; reflexivity.
Qed.

Lemma process_window_overflow (st : loop_state) :
  n_iter st = INT_MAX -> process_window params prog st = (UB, st).
Proof. intros H. unfold process_window. rewrite H. reflexivity. Qed.

(** Lines 275-289, raw mode: one [read] of the size of [pcmf32]. *)
Lemma read_window_raw_eq (st : loop_state) :
  from_wav_file params = false ->
  read_window params st =
    let size := (List.length (pcmf32 st) * 4)%nat in
    let '(got, c') := Istream.read size (cin st) in
    let st' :=
      mk_loop_state c' (ctx st)
        (floats_of_bytes (overwrite got (bytes_of_floats (pcmf32 st))))
        (pcmf32_old st) (fout_is_open st) (is_running st) (n_iter st)
        (log st ++ [reading; CinRead size (Istream.gcount c')]) in
    if Istream.eof c' then (Break, say end_of_stream st') else (Next, st').
Proof.
  intros Hraw. unfold read_window, reading. rewrite Hraw.
  destruct st as [c x p o f r n l].
  cbn [cin ctx pcmf32 pcmf32_old fout_is_open is_running n_iter log say].
  destruct (Istream.read (List.length p * 4) c) as [got c'].
  cbn [cin ctx pcmf32 pcmf32_old fout_is_open is_running n_iter log say
       set_cin set_pcmf32].
  destruct (Istream.eof c') eqn:E;
    cbn [cin ctx pcmf32 pcmf32_old fout_is_open is_running n_iter log say];
    rewrite ?E, <- ?app_assoc; reflexivity.
Qed.

(** Lines 270-274 and 285-289, wav mode. *)
Lemma read_window_wav_eq (st : loop_state) :
  from_wav_file params = true ->
  read_window params st =
    let '(r, c', evs) := readWavStreamAsFloats (cin st) in
    let st' (pcm : list Float32.t) :=
      mk_loop_state c' (ctx st) pcm (pcmf32_old st) (fout_is_open st)
        (is_running st) (n_iter st) (log st ++ reading :: evs) in
    match r with
    | WavReturn pcm =>
        if Istream.eof c' then (Break, say end_of_stream (st' pcm)) else (Next, st' pcm)
    | WavThrow what => (Throw what, st' (pcmf32 st))
    | WavUndefined => (UB, st' (pcmf32 st))
    end.
Proof.
  intros Hwav. unfold read_window, reading. rewrite Hwav.
  destruct st as [c x p o f r n l].
  cbn [cin ctx pcmf32 pcmf32_old fout_is_open is_running n_iter log say].
  destruct (readWavStreamAsFloats c) as [[res c'] evs].
  destruct res;
    cbn [cin ctx pcmf32 pcmf32_old fout_is_open is_running n_iter log say says
         set_cin set_pcmf32];
    rewrite <- ?app_assoc; reflexivity.
Qed.

Lemma engine_windows_segments (b : bool) (segs : list segment) :
  engine_windows (flat_map (segment_events params b) segs) = [].
Proof.
  induction segs as [|sg segs IH]; [reflexivity|].
  cbn [flat_map]. rewrite engine_windows_app, IH, app_nil_r.
  unfold segment_events. destruct (no_timestamps params), b; reflexivity.
Qed.

Lemma engine_windows_call (st : loop_state) (ret : Z) :
  engine_windows (call_events params st ret) = [pcmf32 st].
Proof. unfold call_events. destruct (Istream.eof (cin st)); reflexivity. Qed.

Lemma engine_statuses_segments (b : bool) (segs : list segment) :
  engine_statuses (flat_map (segment_events params b) segs) = [].
Proof.
  induction segs as [|sg segs IH]; [reflexivity|].
  cbn [flat_map]. rewrite engine_statuses_app, IH, app_nil_r.
  unfold segment_events. destruct (no_timestamps params), b; reflexivity.
Qed.

Lemma engine_statuses_call (st : loop_state) (ret : Z) :
  engine_statuses (call_events params st ret) = [ret].
Proof. unfold call_events. destruct (Istream.eof (cin st)); reflexivity. Qed.

(** The recognition step calls the engine exactly once, on [pcmf32], and
    touches neither the buffers nor standard input. *)
Lemma process_window_frame (st : loop_state) :
  n_iter st <> INT_MAX ->
  let st' := snd (process_window params prog st) in
  fst (process_window params prog st) = Next
  /\ engine_windows (log st') = engine_windows (log st) ++ [pcmf32 st]
  /\ pcmf32 st' = pcmf32 st
  /\ pcmf32_old st' = pcmf32_old st
  /\ cin st' = cin st
  /\ fout_is_open st' = fout_is_open st.
Proof.
  intros Hn. rewrite (process_window_eq st Hn).
  destruct (whisper_full (ctx st) (wparams params) (pcmf32 st)) as [ret ctx'].
  destruct (ret =? 0); cbn [fst snd log pcmf32 pcmf32_old cin fout_is_open];
    rewrite !engine_windows_app, engine_windows_call, ?engine_windows_segments;
    cbn [engine_windows]; rewrite ?app_nil_r; repeat split; reflexivity.
Qed.

(** Reading calls no engine and leaves every other local as it was. *)
Lemma read_window_frame (st : loop_state) :
  let st' := snd (read_window params st) in
  engine_windows (log st') = engine_windows (log st)
  /\ engine_statuses (log st') = engine_statuses (log st)
  /\ pcmf32_old st' = pcmf32_old st
  /\ ctx st' = ctx st
  /\ fout_is_open st' = fout_is_open st
  /\ is_running st' = is_running st
  /\ n_iter st' = n_iter st.
Proof.
  destruct (from_wav_file params) eqn:Hmode.
  - rewrite (read_window_wav_eq st Hmode).
    unfold readWavStreamAsFloats.
    destruct (n_samples_wav WHISPER_SAMPLE_RATE) as [n|].
    + destruct (Istream.read (Z.to_nat n * 2) (Istream.ignore 44 (cin st))) as [got c2].
      destruct (Istream.gcount c2 =? 0)%nat; [|destruct (Istream.eof c2)];
        cbn [snd log pcmf32_old ctx fout_is_open is_running n_iter say];
        rewrite ?engine_windows_app, ?engine_statuses_app;
        cbn [engine_windows engine_statuses reading end_of_stream];
        rewrite ?app_nil_r; repeat split; reflexivity.
    + cbn [snd log pcmf32_old ctx fout_is_open is_running n_iter say].
      rewrite ?engine_windows_app, ?engine_statuses_app.
      cbn [engine_windows engine_statuses reading]. rewrite ?app_nil_r.
      repeat split; reflexivity.
  - rewrite (read_window_raw_eq st Hmode). cbv zeta.
    destruct (Istream.read (List.length (pcmf32 st) * 4) (cin st)) as [got c'].
    destruct (Istream.eof c');
      cbn [snd log pcmf32_old ctx fout_is_open is_running n_iter say];
      rewrite ?engine_windows_app, ?engine_statuses_app;
      cbn [engine_windows engine_statuses reading end_of_stream];
      rewrite ?app_nil_r; repeat split; reflexivity.
Qed.

(** The iteration never writes [pcmf32_old]. *)
Lemma iteration_pcmf32_old (st : loop_state) :
  pcmf32_old (snd (iteration params prog st)) = pcmf32_old st.
Proof.
  unfold iteration.
  pose proof (read_window_frame st) as F. cbv zeta in F.
  destruct (read_window params st) as [c st1]. cbn [snd] in F.
  destruct F as (_ & _ & Hold & _).
  destruct c; cbn [snd]; try exact Hold.
  destruct (Z.eq_dec (n_iter st1) INT_MAX) as [E|E].
  - rewrite (process_window_overflow st1 E). exact Hold.
  - pose proof (process_window_frame st1 E) as P. cbv zeta in P.
    destruct P as (_ & _ & _ & P & _). rewrite P. exact Hold.
Qed.

Lemma after_iterations_pcmf32_old (k : nat) :
  forall st st',
    after_iterations params prog k st = Some st' ->
    pcmf32_old st' = pcmf32_old st.
Proof.
  induction k as [|k IH]; intros st st' H; cbn [after_iterations] in H.
  - injection H as <-. reflexivity.
  - destruct (is_running st); [|discriminate].
    pose proof (iteration_pcmf32_old st) as Hold.
    destruct (iteration params prog st) as [c st1]. cbn [snd] in Hold.
    destruct c; try discriminate.
    rewrite (IH _ _ H). exact Hold.
Qed.

(** The size of [pcmf32] after reading: unchanged in raw mode, the fixed
    buffer of [readWavStreamAsFloats] in wav mode. *)
Lemma read_window_length (st : loop_state) :
  let r := read_window params st in
  (from_wav_file params = false ->
     List.length (pcmf32 (snd r)) = List.length (pcmf32 st))
  /\ (from_wav_file params = true -> fst r = Next ->
        option_map Z.to_nat (n_samples_wav WHISPER_SAMPLE_RATE)
        = Some (List.length (pcmf32 (snd r)))).
Proof.
  cbv zeta. split; intros Hmode.
  - rewrite (read_window_raw_eq st Hmode). cbv zeta.
    pose proof (read_got_length (List.length (pcmf32 st) * 4) (cin st)) as Hgot.
    destruct (Istream.read (List.length (pcmf32 st) * 4) (cin st)) as [got c'].
    cbn [fst] in Hgot.
    assert (List.length (floats_of_bytes (overwrite got (bytes_of_floats (pcmf32 st))))
            = List.length (pcmf32 st)) as L.
    { apply floats_of_bytes_length.
      rewrite overwrite_length; rewrite bytes_of_floats_length; auto. }
    destruct (Istream.eof c'); cbn [snd pcmf32 say]; exact L.
  - rewrite (read_window_wav_eq st Hmode). unfold readWavStreamAsFloats.
    destruct (n_samples_wav WHISPER_SAMPLE_RATE) as [n|]; [|discriminate].
    pose proof (read_got_length (Z.to_nat n * 2) (Istream.ignore 44 (cin st))) as Hgot.
    destruct (Istream.read (Z.to_nat n * 2) (Istream.ignore 44 (cin st))) as [got c2].
    cbn [fst] in Hgot.
    destruct (Istream.gcount c2 =? 0)%nat; [discriminate|].
    destruct (Istream.eof c2); [discriminate|].
    intros _. cbn [snd pcmf32 option_map]. rewrite length_map. f_equal. symmetry.
    apply int16s_of_bytes_length.
    rewrite overwrite_length; rewrite repeat_length; auto.
Qed.

Lemma iteration_windows_ok (st : loop_state) :
  windows_ok params st -> windows_ok params (snd (iteration params prog st)).
Proof.
  intros [Hlog Hbuf]. unfold iteration.
  pose proof (read_window_frame st) as F.
  pose proof (read_window_length st) as L. cbv zeta in F, L.
  destruct (read_window params st) as [c st1]. cbn [fst snd] in F, L.
  destruct F as (Hw & _). destruct L as [Lraw Lwav].
  assert (windows_ok params st1) as Hst1.
  { split; [rewrite Hw; exact Hlog|].
    intros Hmode. rewrite (Lraw Hmode). exact (Hbuf Hmode). }
  destruct c; cbn [snd]; try exact Hst1.
  destruct (Z.eq_dec (n_iter st1) INT_MAX) as [E|E].
  - rewrite (process_window_overflow st1 E). exact Hst1.
  - pose proof (process_window_frame st1 E) as P. cbv zeta in P.
    destruct P as (_ & Pw & Pp & _).
    destruct Hst1 as [H1 H2]. split.
    + rewrite Pw. apply Forall_app. split; [exact H1|].
      constructor; [|constructor].
      destruct (from_wav_file params) eqn:Hmode.
      * unfold window_length. rewrite Hmode. apply Lwav; reflexivity.
      * apply H2; reflexivity.
    + intros Hmode. rewrite Pp. exact (H2 Hmode).
Qed.

Lemma main_loop_windows_ok (fuel : nat) :
  forall st r,
    main_loop params prog fuel st = Some r ->
    windows_ok params st -> windows_ok params (snd r).
Proof.
  induction fuel as [|fuel IH]; intros st r H Hok; cbn [main_loop] in H.
  - destruct (is_running st); [discriminate|]. injection H as <-. exact Hok.
  - destruct (is_running st); [|injection H as <-; exact Hok].
    pose proof (iteration_windows_ok st Hok) as Hit.
    destruct (iteration params prog st) as [c st1]. cbn [snd] in Hit.
    destruct c; try (injection H as <-; exact Hit).
    exact (IH _ _ H Hit).
Qed.

Lemma after_iterations_windows_ok (k : nat) :
  forall st st',
    after_iterations params prog k st = Some st' ->
    windows_ok params st -> windows_ok params st'.
Proof.
  induction k as [|k IH]; intros st st' H Hok; cbn [after_iterations] in H.
  - injection H as <-. exact Hok.
  - destruct (is_running st); [|discriminate].
    pose proof (iteration_windows_ok st Hok) as Hit.
    destruct (iteration params prog st) as [c st1]. cbn [snd] in Hit.
    destruct c; try discriminate.
    exact (IH _ _ H Hit).
Qed.

End LoopFacts.

(** ** The parser *)

Section ParserFacts.

Variable stof : string -> stox Float32.t.
Variable argv0 : string.

(** Every way [whisper_params_parse] can end: it returns [true], it calls
    [exit(0)] after the usage text (asked for, or after the message for an
    unknown argument), a conversion throws, or it reads past the last
    argument.  It never returns [false]. *)
Lemma parse_from_cases (P : parse_result -> Prop) :
  (forall p, P (ParseReturn true p)) ->
  (forall p, P (ParseExit [UsageText argv0 p] 0)) ->
  (forall arg p,
      P (ParseExit [Stderr ("error: unknown argument: " ++ arg ++ nl)%string;
                    UsageText argv0 p] 0)) ->
  (forall what, P (ParseThrow what)) ->
  P ParseUndefined ->
  forall args p, P (parse_from stof argv0 args p).
Proof.
  intros Htrue Hhelp Hunknown Hthrow Hundef args.
  remember (List.length args) as n eqn:Hn.
  assert (List.length args <= n)%nat as Hle by lia. clear Hn.
  revert args Hle.
  induction n as [|n IH]; intros args Hle p.
  - destruct args; [apply Htrue | cbn in Hle; lia].
  - destruct args as [|arg rest]; [apply Htrue|].
    cbn [List.length] in Hle.
    assert (forall A (conv : string -> stox A) (k : A -> whisper_params),
               P (take conv rest (fun v r => parse_from stof argv0 r (k v)))) as Htake.
    { intros A conv k. unfold take. destruct rest as [|v rest']; [apply Hundef|].
      destruct (conv v); try apply Hthrow.
      apply IH. cbn [List.length] in Hle. lia. }
    assert (forall q, P (parse_from stof argv0 rest q)) as Hflag.
    { intros q. apply IH. lia. }
    cbn [parse_from].
    repeat match goal with
           | |- P (if ?b then _ else _) => destruct b
           end;
      first [ apply Hhelp | apply Hunknown | apply Hflag
            | apply (Htake _ _ (fun v => _ v p)) ].
Qed.

Lemma parse_never_false (args : list string) (p q : whisper_params) :
  whisper_params_parse stof argv0 args p <> ParseReturn false q.
Proof.
  unfold whisper_params_parse.
  apply (parse_from_cases (fun r => r <> ParseReturn false q)); intros; discriminate.
Qed.

Lemma parse_exit_code (args : list string) (p : whisper_params)
    (out : list event) (code : Z) :
  whisper_params_parse stof argv0 args p = ParseExit out code ->
  code = 0 /\ engine_windows out = [] /\ reads_input out = false
  /\ existsb is_sink_open out = false.
Proof.
  unfold whisper_params_parse.
  apply (parse_from_cases
           (fun r => r = ParseExit out code ->
                     code = 0 /\ engine_windows out = [] /\ reads_input out = false
                     /\ existsb is_sink_open out = false));
    intros; try discriminate;
    match goal with H : ParseExit _ _ = ParseExit _ _ |- _ => injection H as <- <- end;
    repeat split; reflexivity.
Qed.

End ParserFacts.

(** ** [main] *)

Section MainFacts.

Context {API : WhisperAPI}.
Variable stof : string -> stox Float32.t.

Lemma open_sink_quiet (w : world) (p : whisper_params) :
  engine_windows (snd (open_sink w p)) = []
  /\ reads_input (snd (open_sink w p)) = false.
Proof.
  unfold open_sink.
  destruct (String.eqb (fname_out p) ""), (can_open w (fname_out p)); split; reflexivity.
Qed.

(** When the loop is entered: the parser returned, the step size is a
    non-negative [int], the engine is initialised, the sink is open if one
    is configured, and nothing was read or recognised yet. *)
Lemma startup_inr (w : world) (p : whisper_params) (entry : loop_state) :
  startup stof w = inr (p, entry) ->
  whisper_params_parse stof (argv0 w) (args w)
    (default_params (hardware_concurrency w)) = ParseReturn true p
  /\ exists n x is_open l,
      n_samples_step_of WHISPER_SAMPLE_RATE (step_ms p) = Some n
      /\ 0 <= n
      /\ whisper_init_from_file_with_params (model p) (use_gpu p) = Some x
      /\ entry = loop_entry (Istream.of_bytes (stdin w)) x n is_open l
      /\ engine_windows l = []
      /\ reads_input l = false.
Proof.
  unfold startup.
  destruct (whisper_params_parse stof (argv0 w) (args w)
              (default_params (hardware_concurrency w))) as [[|] q| | |];
    try discriminate.
  destruct (n_samples_step_of WHISPER_SAMPLE_RATE (step_ms q)) as [n|] eqn:Hstep;
    [|discriminate].
  destruct (whisper_init_from_file_with_params (model q) (use_gpu q)) as [x|] eqn:Hinit;
    [|discriminate].
  destruct (n <? 0) eqn:Hneg; [discriminate|].
  pose proof (open_sink_quiet w q) as [Qw Qr].
  destruct (open_sink w q) as [[is_open|] evs]; [|discriminate].
  cbn [snd] in Qw, Qr.
  intros H. injection H as <- <-.
  split; [reflexivity|].
  exists n, x, is_open. eexists.
  split; [exact Hstep|].
  split; [apply Z.ltb_ge; exact Hneg|].
  split; [exact Hinit|].
  split; [reflexivity|].
  split.
  - cbn [engine_windows]. exact Qw.
  - cbn. exact Qr.
Qed.

(** When the process ends before the loop, it has read nothing and has
    called no engine, and its exit code is not 1. *)
Lemma startup_inl (w : world) (r : run) :
  startup stof w = inl r ->
  engine_windows (trace r) = []
  /\ reads_input (trace r) = false
  /\ cin_end r = Istream.of_bytes (stdin w)
  /\ result r <> Exit 1.
Proof.
  unfold startup.
  pose proof (parse_never_false stof (argv0 w) (args w)
                (default_params (hardware_concurrency w))) as Hnf.
  pose proof (parse_exit_code stof (argv0 w) (args w)
                (default_params (hardware_concurrency w))) as Hex.
  destruct (whisper_params_parse stof (argv0 w) (args w)
              (default_params (hardware_concurrency w))) as [[|] q|out code|what|].
  - destruct (n_samples_step_of WHISPER_SAMPLE_RATE (step_ms q)) as [n|].
    + destruct (whisper_init_from_file_with_params (model q) (use_gpu q)) as [x|].
      * destruct (n <? 0).
        -- intros H. injection H as <-. cbn. repeat split; discriminate.
        -- pose proof (open_sink_quiet w q) as [Qw Qr].
           destruct (open_sink w q) as [[is_open|] evs]; [discriminate|].
           cbn [snd] in Qw, Qr.
           intros H. injection H as <-. cbn [trace cin_end result].
           repeat split; [exact Qw | exact Qr | discriminate].
      * intros H. injection H as <-. cbn. repeat split; discriminate.
    + intros H. injection H as <-. cbn. repeat split; discriminate.
  - exfalso. exact (Hnf q eq_refl).
  - destruct (Hex out code eq_refl) as (-> & Hw & Hr & _).
    intros H. injection H as <-. cbn [trace cin_end result].
    repeat split; [exact Hw | exact Hr | discriminate].
  - intros H. injection H as <-. cbn. repeat split; discriminate.
  - intros H. injection H as <-. cbn. repeat split; discriminate.
Qed.

Lemma epilogue_quiet (st : loop_state) :
  engine_windows (epilogue st) = [] /\ reads_input (epilogue st) = false.
Proof. unfold epilogue. destruct (fout_is_open st); split; reflexivity. Qed.

Lemma after_loop_windows (r : control * loop_state) :
  engine_windows (trace (after_loop r)) = engine_windows (log (snd r)).
Proof.
  destruct r as [c st]. destruct c; cbn [after_loop trace snd]; try reflexivity;
    rewrite engine_windows_app, (proj1 (epilogue_quiet st)); apply app_nil_r.
Qed.

(** [return 1] is dead code: no execution exits with 1. *)
Lemma main_never_exits_1 (w : world) (fuel : nat) (r : run) :
  main stof w fuel = Some r -> result r <> Exit 1.
Proof.
  unfold main. destruct (startup stof w) as [r0|[p entry]] eqn:Hs.
  - intros H. injection H as <-. apply (startup_inl w r0 Hs).
  - destruct (main_loop p (argv0 w) fuel entry) as [[c st]|]; [|discriminate].
    intros H. injection H as <-. destruct c; cbn; discriminate.
Qed.

End MainFacts.

(** * The claims *)

Section RetainedContext.

Context {API : WhisperAPI}.
Variable stof : string -> stox Float32.t.

(** C1 (amended).  The Retained Context, [pcmf32_old], is empty at the
    start of every iteration of every execution, whatever the keep-context
    flag and [keep_ms] are: it is declared empty and no statement writes
    it. *)
Theorem retained_context_always_empty (w : world) (params : whisper_params)
    (entry : loop_state) (k : nat) (st : loop_state) :
  startup stof w = inr (params, entry) ->
  after_iterations params (argv0 w) k entry = Some st ->
  pcmf32_old st = [].
Proof.
  intros Hs Hk.
  destruct (startup_inr stof w params entry Hs)
    as (_ & n & x & is_open & l & _ & _ & _ & -> & _).
  rewrite (after_iterations_pcmf32_old params (argv0 w) k _ _ Hk).
  reflexivity.
Qed.

End RetainedContext.

Lemma kc_world_startup :
  @startup Run.engine Fake.stof Run.kc_world
  = inr (Run.kc_params, Run.entry Run.kc_params 32 (Run.silence 300)).
Proof. vm_compute. reflexivity. Qed.

Lemma kc_world_second_iteration :
  @after_iterations Run.engine Run.kc_params "stream-rt" 1
    (Run.entry Run.kc_params 32 (Run.silence 300))
  = Some (snd (@iteration Run.engine Run.kc_params "stream-rt"
                 (Run.entry Run.kc_params 32 (Run.silence 300)))).
Proof. vm_compute. reflexivity. Qed.

(** C1, counterexample.  [stream-rt -kc --step 2 --keep 1] (keep-context
    enabled, 16 samples to keep at 16 kHz): at the start of the second
    iteration the Retained Context holds no sample. *)
Lemma retained_context_not_kept :
  ~ @spec_retained_context Run.engine Fake.stof Run.kc_world.
Proof.
  intros H.
  pose proof (H Run.kc_params _ 1%nat _ kc_world_startup kc_world_second_iteration) as E.
  vm_compute in E. discriminate E.
Qed.

Lemma retained_context_always_empty_witness :
  @startup Run.engine Fake.stof Run.kc_world
  = inr (Run.kc_params, Run.entry Run.kc_params 32 (Run.silence 300))
  /\ @after_iterations Run.engine Run.kc_params "stream-rt" 1
       (Run.entry Run.kc_params 32 (Run.silence 300))
     = Some (snd (@iteration Run.engine Run.kc_params "stream-rt"
                    (Run.entry Run.kc_params 32 (Run.silence 300))))
  /\ pcmf32_old (snd (@iteration Run.engine Run.kc_params "stream-rt"
                        (Run.entry Run.kc_params 32 (Run.silence 300)))) = [].
Proof.
  assert (@startup Run.engine Fake.stof Run.kc_world
          = inr (Run.kc_params, Run.entry Run.kc_params 32 (Run.silence 300)))
    as H1 by (vm_compute; reflexivity).
  assert (@after_iterations Run.engine Run.kc_params "stream-rt" 1
            (Run.entry Run.kc_params 32 (Run.silence 300))
          = Some (snd (@iteration Run.engine Run.kc_params "stream-rt"
                         (Run.entry Run.kc_params 32 (Run.silence 300)))))
    as H2 by (vm_compute; reflexivity).
  split; [exact H1|]. split; [exact H2|].
  exact (@retained_context_always_empty Run.engine Fake.stof Run.kc_world
           Run.kc_params _ 1%nat _ H1 H2).
Defined.

Section WindowLength.

Context {API : WhisperAPI}.
Variable stof : string -> stox Float32.t.

(** A read that finds fewer bytes than it asks for does not reach the
    recognition step. *)
Lemma short_read_not_next (params : whisper_params) (st : loop_state) (n : nat) :
  Istream.good (cin st) = true ->
  bytes_wanted params st = Some n ->
  (bytes_available params st < n)%nat ->
  fst (read_window params st) <> Next.
Proof.
  unfold bytes_wanted, bytes_available. intros Hgood Hwant Hshort.
  destruct (from_wav_file params) eqn:Hmode.
  - rewrite (read_window_wav_eq params st Hmode). unfold readWavStreamAsFloats.
    destruct (n_samples_wav WHISPER_SAMPLE_RATE) as [z|]; [|discriminate].
    injection Hwant as <-. set (m := Z.to_nat z) in *.
    unfold Istream.ignore. rewrite Hgood.
    destruct (List.length (Istream.unread (cin st)) <? 44)%nat eqn:H44.
    + unfold Istream.read, Istream.good. cbn. discriminate.
    + unfold Istream.read, Istream.good. cbn [Istream.eofbit Istream.failbit
        Istream.unread negb andb].
      apply Nat.ltb_lt in Hshort. rewrite Hshort.
      cbn [Istream.gcount Istream.eof Istream.eofbit].
      destruct (Nat.min (m * 2) (List.length (skipn 44 (Istream.unread (cin st)))) =? 0)%nat;
        cbn; discriminate.
  - rewrite (read_window_raw_eq params st Hmode). cbv zeta.
    injection Hwant as <-.
    unfold Istream.read. rewrite Hgood.
    apply Nat.ltb_lt in Hshort. rewrite Hshort.
    cbn. discriminate.
Qed.

(** Then the loop ends in this iteration, and the engine is not called. *)
Lemma short_read_stops (params : whisper_params) (prog : string)
    (st : loop_state) (n fuel : nat) :
  is_running st = true ->
  Istream.good (cin st) = true ->
  bytes_wanted params st = Some n ->
  (bytes_available params st < n)%nat ->
  exists c st',
    main_loop params prog (S fuel) st = Some (c, st')
    /\ c <> Next
    /\ engine_windows (log st') = engine_windows (log st).
Proof.
  intros Hrun Hgood Hwant Hshort.
  pose proof (short_read_not_next params st n Hgood Hwant Hshort) as Hc.
  pose proof (read_window_frame params st) as F. cbv zeta in F.
  destruct F as (Hw & _).
  cbn [main_loop]. rewrite Hrun. unfold iteration.
  destruct (read_window params st) as [c st1]. cbn [fst snd] in Hc, Hw.
  exists c, st1. destruct c; try (exfalso; apply Hc; reflexivity);
    (split; [reflexivity | split; [exact Hc | exact Hw]]).
Qed.

Lemma window_length_ignores_length_ms (params : whisper_params) (v : Z) :
  window_length (Set_.length_ms v params) = window_length params.
Proof. destruct params. reflexivity. Qed.

(** C2 (amended).  In every execution, finished or still running, every
    window given to the engine has exactly the size of the buffer: the step
    size [n_samples_step] of line 236 in raw mode, the fixed buffer of
    [readWavStreamAsFloats] in wav mode.  That size does not depend on
    [length_ms].  A read that
    finds fewer bytes than the buffer holds ends the loop in that
    iteration without a call of the engine: no partial window is
    forwarded. *)
Theorem window_is_step_buffer (w : world) (params : whisper_params)
    (entry : loop_state) (fuel : nat) (r : run) :
  startup stof w = inr (params, entry) ->
  main stof w fuel = Some r ->
  Forall (fun win => window_length params = Some (List.length win))
         (engine_windows (trace r))
  /\ (forall k st,
         after_iterations params (argv0 w) k entry = Some st ->
         Forall (fun win => window_length params = Some (List.length win))
                (engine_windows (log st)))
  /\ (forall v, window_length (Set_.length_ms v params) = window_length params)
  /\ (forall st n fuel',
         is_running st = true ->
         Istream.good (cin st) = true ->
         bytes_wanted params st = Some n ->
         (bytes_available params st < n)%nat ->
         exists c st',
           main_loop params (argv0 w) (S fuel') st = Some (c, st')
           /\ c <> Next
           /\ engine_windows (log st') = engine_windows (log st)).
Proof.
  intros Hs Hmain.
  destruct (startup_inr stof w params entry Hs)
    as (_ & ns & x & is_open & l & Hn & Hpos & _ & -> & Hl & _).
  assert (windows_ok params (loop_entry (Istream.of_bytes (stdin w)) x ns is_open l))
    as Hentry.
  { split.
    - cbn [loop_entry log]. rewrite engine_windows_app, Hl. constructor.
    - intros Hmode. cbn [loop_entry pcmf32]. rewrite repeat_length.
      unfold window_length. rewrite Hmode, Hn. reflexivity. }
  split; [|split; [|split]].
  - unfold main in Hmain. rewrite Hs in Hmain.
    destruct (main_loop params (argv0 w) fuel (loop_entry _ x ns is_open l))
      as [res|] eqn:Hloop; [|discriminate].
    injection Hmain as <-. rewrite after_loop_windows.
    apply (main_loop_windows_ok params (argv0 w) fuel _ _ Hloop Hentry).
  - intros k st Hk.
    apply (after_iterations_windows_ok params (argv0 w) k _ _ Hk Hentry).
  - apply window_length_ignores_length_ms.
  - intros st n fuel'. apply short_read_stops.
Qed.

End WindowLength.

Lemma step2_world_startup :
  @startup Run.engine Fake.stof Run.step2_world
  = inr (Run.step2_params, Run.entry Run.step2_params 32 (Run.silence 300)).
Proof. vm_compute. reflexivity. Qed.

(** C2, counterexample.  [stream-rt --step 2] with the default window length
    of 10000 ms, 160000 samples at 16 kHz: the engine is given windows of 32
    samples. *)
Lemma window_is_not_length_ms :
  ~ @spec_window_capacity Run.engine Fake.stof Run.step2_world.
Proof.
  intros H.
  destruct (@main Run.engine Fake.stof Run.step2_world 5) as [r|] eqn:Hr;
    [|vm_compute in Hr; discriminate Hr].
  pose proof (H Run.step2_params _ 5%nat r step2_world_startup Hr) as F.
  assert (option_map (fun r => map (@List.length _) (engine_windows (trace r)))
            (@main Run.engine Fake.stof Run.step2_world 5) = Some [32; 32]%nat) as E
    by (vm_compute; reflexivity).
  rewrite Hr in E. cbn [option_map] in E. injection E as E.
  destruct (engine_windows (trace r)) as [|win rest]; [discriminate E|].
  cbn [map] in E. injection E as E _.
  apply Forall_inv in F. rewrite E in F. vm_compute in F. discriminate F.
Qed.

Lemma window_is_step_buffer_witness :
  exists r,
    @startup Run.engine Fake.stof Run.step2_world
    = inr (Run.step2_params, Run.entry Run.step2_params 32 (Run.silence 300))
    /\ @main Run.engine Fake.stof Run.step2_world 5 = Some r
    /\ Forall (fun win => @window_length Run.engine Run.step2_params
                          = Some (List.length win))
              (engine_windows (trace r)).
Proof.
  eexists.
  assert (@startup Run.engine Fake.stof Run.step2_world
          = inr (Run.step2_params, Run.entry Run.step2_params 32 (Run.silence 300)))
    as H1 by (vm_compute; reflexivity).
  split; [exact H1|].
  split; [vm_compute; reflexivity|].
  refine (proj1 (@window_is_step_buffer Run.engine Fake.stof Run.step2_world
                   Run.step2_params _ 5%nat _ H1 _)).
  vm_compute. reflexivity.
Defined.

Section NoActivityGate.

Context {API : WhisperAPI}.
Variable params : whisper_params.
Variable prog : string.

(** The recognition step reads neither threshold. *)
Lemma process_window_ignores_thresholds (v f : Float32.t) (st : loop_state) :
  process_window (Set_.freq_thold f (Set_.vad_thold v params)) prog st
  = process_window params prog st.
Proof. destruct params. reflexivity. Qed.

(** C3 (amended).  There is no activity gate.  For every window, windows
    of zero samples included, and whatever the thresholds are, the
    iteration calls the engine exactly once on the whole window; when the
    call succeeds every segment of the result is written and the
    iteration counter moves on by one. *)
Theorem every_window_is_recognised (st : loop_state) :
  n_iter st <> INT_MAX ->
  exists st',
    process_window params prog st = (Next, st')
    /\ engine_windows (log st') = engine_windows (log st) ++ [pcmf32 st]
    /\ (forall v f,
           process_window (Set_.freq_thold f (Set_.vad_thold v params)) prog st
           = (Next, st'))
    /\ (fst (whisper_full (ctx st) (wparams params) (pcmf32 st)) = 0 ->
        n_iter st' = n_iter st + 1
        /\ log st' =
             log st ++ call_events params st 0
               ++ [Stdout (endl "Audio processed successfully.")]
               ++ flat_map (segment_events params (fout_is_open st))
                    (whisper_full_segments
                       (snd (whisper_full (ctx st) (wparams params) (pcmf32 st))))).
Proof.
  intros Hn.
  pose proof (process_window_frame params prog st Hn) as F. cbv zeta in F.
  destruct F as (Hc & Hw & _).
  pose proof (process_window_eq params prog st Hn) as E.
  destruct (process_window params prog st) as [c st'] eqn:Hp.
  cbn [fst snd] in Hc, Hw. subst c.
  exists st'. split; [reflexivity|]. split; [exact Hw|]. split.
  - intros v f. rewrite process_window_ignores_thresholds. exact Hp.
  - destruct (whisper_full (ctx st) (wparams params) (pcmf32 st)) as [ret ctx'].
    cbn [fst snd]. intros ->. cbn [Z.eqb] in E.
    injection E as ->. split; reflexivity.
Qed.

End NoActivityGate.

(** C3, counterexample.  The first window of [stream-rt --step 2] on
    silence is 32 zero samples and the threshold has its default, 0.6: the
    engine is called on the window all the same. *)
Lemma silent_window_is_recognised :
  ~ @spec_activity_gate Run.engine Run.step2_params "stream-rt"
      (snd (@read_window Run.engine Run.step2_params
              (Run.entry Run.step2_params 32 (Run.silence 300)))).
Proof.
  unfold spec_activity_gate. intros H.
  assert (forallb Float32.is_zero
            (pcmf32 (snd (@read_window Run.engine Run.step2_params
                            (Run.entry Run.step2_params 32 (Run.silence 300)))))
          = true) as Hz by (vm_compute; reflexivity).
  assert (positive_threshold (vad_thold Run.step2_params) = true) as Hp
    by (vm_compute; reflexivity).
  specialize (H Hz Hp). vm_compute in H.
  destruct H as (_ & E & _). discriminate E.
Qed.

Lemma every_window_is_recognised_witness :
  n_iter (snd (@read_window Run.engine Run.step2_params
                 (Run.entry Run.step2_params 32 (Run.silence 300)))) <> INT_MAX
  /\ exists st',
      @process_window Run.engine Run.step2_params "stream-rt"
        (snd (@read_window Run.engine Run.step2_params
                (Run.entry Run.step2_params 32 (Run.silence 300))))
      = (Next, st')
      /\ engine_windows (log st') = [repeat 0 32].
Proof.
  assert (n_iter (snd (@read_window Run.engine Run.step2_params
                         (Run.entry Run.step2_params 32 (Run.silence 300))))
          <> INT_MAX) as Hn by (vm_compute; discriminate).
  split; [exact Hn|].
  destruct (@every_window_is_recognised Run.engine Run.step2_params "stream-rt" _ Hn)
    as (st' & Hp & Hw & _).
  exists st'. split; [exact Hp|].
  rewrite Hw. vm_compute. reflexivity.
Defined.

Section EngineFailure.

Context {API : WhisperAPI}.
Variable params : whisper_params.
Variable prog : string.

(** When the call of the engine fails the loop ends with that iteration,
    whatever is left on standard input, and [main] runs to its
    [return 0]. *)
Lemma engine_failure_returns_0 (st st1 : loop_state) (fuel : nat) :
  is_running st = true ->
  read_window params st = (Next, st1) ->
  n_iter st1 <> INT_MAX ->
  fst (whisper_full (ctx st1) (wparams params) (pcmf32 st1)) <> 0 ->
  exists st',
    main_loop params prog (S fuel) st = Some (Next, st')
    /\ is_running st' = false
    /\ engine_windows (log st') = engine_windows (log st1) ++ [pcmf32 st1]
    /\ result (after_loop (Next, st')) = Exit 0.
Proof.
  intros Hrun Hread Hn Hret.
  pose proof (process_window_eq params prog st1 Hn) as E.
  pose proof (process_window_frame params prog st1 Hn) as F. cbv zeta in F.
  destruct F as (_ & Hw & _).
  destruct (whisper_full (ctx st1) (wparams params) (pcmf32 st1)) as [ret ctx'].
  cbn [fst] in Hret. apply Z.eqb_neq in Hret. rewrite Hret in E.
  rewrite E in Hw. cbn [snd] in Hw.
  eexists. split; [|split; [|split; [exact Hw|]]].
  - cbn [main_loop]. rewrite Hrun. unfold iteration. rewrite Hread, E.
    destruct fuel; reflexivity.
  - reflexivity.
  - reflexivity.
Qed.

End EngineFailure.

(** C4, the code at the failing input.  Five windows of the default step
    and an engine whose third call fails: the first two iterations print
    their records, the loop stops at the third call, nothing more is read,
    and the process reports the failure on the error stream and then
    returns 0 where the claim has a non-zero exit code. *)
Theorem engine_failure_exit_code :
  option_map
    (fun r => (result r, engine_statuses (trace r), records_of (trace r),
               stderr_of (trace r), Z.of_nat (List.length (Istream.unread (cin_end r)))))
    (@main (Run.failing_engine 2) Fake.stof Run.five_windows 10)
  = Some (Exit 0,
          [0; 0; -1],
          [("[00:00.000 --> 01:01.034]  window of 48000" ++ nl)%string;
           ("[00:00.000 --> 01:01.034]  window of 48000" ++ nl)%string],
          [("stream-rt: failed to process audio" ++ nl)%string],
          2 * 192000).
Proof. vm_compute. reflexivity. Qed.

(** ** Timestamps *)

(** For a tick count that is not negative the three fields are the minutes
    [t / 6000], the seconds [(t / 100) mod 60] and the hundredths
    [t mod 100], the last one printed in three digits as it is. *)
Lemma to_timestamp_fields (t : Z) :
  0 <= t < 6000 * 2 ^ 31 ->
  to_timestamp t
  = snprintf 32 (fmt_0d 2 (t / 6000) ++ ":" ++ fmt_0d 2 ((t / 100) mod 60)
                   ++ "." ++ fmt_0d 3 (t mod 100))%string.
Proof.
  intros Ht. unfold to_timestamp.
  assert (forall z, 0 <= z < 2 ^ 31 -> to_int32 z = z) as Hid.
  { intros z Hz. unfold to_int32. rewrite Z.mod_small; lia. }
  assert (0 <= t / 100) as H100 by (apply Z.div_pos; lia).
  rewrite (Z.quot_div_nonneg t 100) by lia.
  rewrite (Z.quot_div_nonneg (t / 100) 60) by lia.
  replace (t / 6000) with (t / 100 / 60)
    by (rewrite Z.div_div by lia; reflexivity).
  replace (t / 100 - t / 100 / 60 * 60) with ((t / 100) mod 60)
    by (rewrite (Z.mod_eq (t / 100) 60) by lia; lia).
  replace (t - t / 100 * 100) with (t mod 100)
    by (rewrite (Z.mod_eq t 100) by lia; lia).
  rewrite !Hid; try reflexivity.
  - pose proof (Z.mod_pos_bound t 100). lia.
  - pose proof (Z.mod_pos_bound (t / 100) 60). lia.
  - split; [apply Z.div_pos; lia|].
    apply Z.div_lt_upper_bound; [lia|].
    apply Z.div_lt_upper_bound; lia.
Qed.

(** C5, the code at the failing input.  Tick 6134 is 61.34 s; the code
    prints the hundredths, 34, in the three-digit field, where the claim has
    the milliseconds, 340.  Tick 0 is printed as the claim says. *)
Theorem to_timestamp_6134 :
  to_timestamp 6134 = "01:01.034"%string
  /\ to_timestamp 6134 <> "01:01.340"%string
  /\ to_timestamp 0 = "00:00.000"%string.
Proof. repeat split; try reflexivity. vm_compute. discriminate. Qed.

(** ** Exit codes *)

(** C6, the code at the failing input.  [stream-rt --bogus]: the parser
    reports the unknown argument on the error stream, prints the usage text
    and calls [exit(0)], before the engine is initialised and before any
    sink or input is touched; the claim has exit code 1. *)
Theorem unknown_argument_exit_code :
  @main Run.engine Fake.stof Run.bogus_world 10
  = Some {| result := Exit 0;
            trace := [Stdout (endl "Initializing Whisper RT Service...");
                      Stderr ("error: unknown argument: --bogus" ++ nl)%string;
                      UsageText "stream-rt" (default_params 8)];
            cin_end := Istream.of_bytes (Run.silence 300) |}.
Proof. vm_compute. reflexivity. Qed.

Section SinkFailure.

Context {API : WhisperAPI}.
Variable stof : string -> stox Float32.t.

(** With a sink that is configured and cannot be opened the process ends
    before the loop, whatever else happens: standard input is never
    touched and the engine is never called. *)
Lemma unopenable_sink_reads_nothing (w : world) (p : whisper_params) (fuel : nat) :
  whisper_params_parse stof (argv0 w) (args w)
    (default_params (hardware_concurrency w)) = ParseReturn true p ->
  fname_out p <> ""%string ->
  can_open w (fname_out p) = false ->
  exists r,
    main stof w fuel = Some r
    /\ reads_input (trace r) = false
    /\ engine_windows (trace r) = []
    /\ cin_end r = Istream.of_bytes (stdin w).
Proof.
  intros Hparse Hname Hopen. unfold main.
  destruct (startup stof w) as [r|[q entry]] eqn:Hs.
  - exists r. destruct (startup_inl stof w r Hs) as (Hw & Hr & Hc & _).
    repeat split; assumption.
  - exfalso. revert Hs. unfold startup. rewrite Hparse.
    destruct (n_samples_step_of WHISPER_SAMPLE_RATE (step_ms p)); [|discriminate].
    destruct (whisper_init_from_file_with_params (model p) (use_gpu p)); [|discriminate].
    destruct (z <? 0); [discriminate|].
    unfold open_sink. apply String.eqb_neq in Hname. rewrite Hname, Hopen.
    discriminate.
Qed.

(** C7.  In every execution whose arguments parse and configure an output
    sink that cannot be opened, the process ends before the loop: nothing
    has been read from standard input and the engine has not been called.
    It ends with exit code 3 when it comes to open the sink, that is when
    the step size is a buffer size that is not negative and the engine is
    initialised.  The engine is initialised before the sink is opened
    (lines 239-244 against 251-262), so the exit code is 2 when the model
    does not load; the buffer is constructed at line 248, so a negative
    step size ends the process by [std::length_error]; and a step size
    out of the range of [int] at line 236 has no defined behaviour. *)
Theorem unopenable_sink_outcome (w : world) (p : whisper_params) (fuel : nat) :
  whisper_params_parse stof (argv0 w) (args w)
    (default_params (hardware_concurrency w)) = ParseReturn true p ->
  fname_out p <> ""%string ->
  can_open w (fname_out p) = false ->
  exists r,
    main stof w fuel = Some r
    /\ result r
       = match n_samples_step_of WHISPER_SAMPLE_RATE (step_ms p) with
         | None => Undefined
         | Some n =>
             match whisper_init_from_file_with_params (model p) (use_gpu p) with
             | None => Exit 2
             | Some _ => if n <? 0 then Terminate "std::length_error" else Exit 3
             end
         end
    /\ reads_input (trace r) = false
    /\ engine_windows (trace r) = []
    /\ cin_end r = Istream.of_bytes (stdin w).
Proof.
  intros Hparse Hname Hopen.
  destruct (unopenable_sink_reads_nothing w p fuel Hparse Hname Hopen)
    as (r & Hmain & Hr & Hw & Hc).
  exists r. repeat split; try assumption.
  revert Hmain. unfold main, startup. rewrite Hparse.
  destruct (n_samples_step_of WHISPER_SAMPLE_RATE (step_ms p)) as [n|];
    [|intros H; injection H as <-; reflexivity].
  destruct (whisper_init_from_file_with_params (model p) (use_gpu p)) as [x|];
    [|intros H; injection H as <-; reflexivity].
  destruct (n <? 0); [intros H; injection H as <-; reflexivity|].
  unfold open_sink. apply String.eqb_neq in Hname. rewrite Hname, Hopen.
  intros H. injection H as <-. reflexivity.
Qed.

End SinkFailure.

Lemma unopenable_sink_outcome_witness :
  whisper_params_parse Fake.stof "stream-rt" ["-f"; "/nonexistent/out.txt"]%string
    (default_params 8) = ParseReturn true Run.unwritable_params
  /\ fname_out Run.unwritable_params <> ""%string
  /\ can_open Run.unwritable_world (fname_out Run.unwritable_params) = false
  /\ exists r,
      @main Run.engine Fake.stof Run.unwritable_world 10 = Some r
      /\ result r = Exit 3
      /\ reads_input (trace r) = false.
Proof.
  assert (whisper_params_parse Fake.stof "stream-rt" ["-f"; "/nonexistent/out.txt"]%string
            (default_params 8) = ParseReturn true Run.unwritable_params) as H1
    by (vm_compute; reflexivity).
  assert (fname_out Run.unwritable_params <> ""%string) as H2
    by (vm_compute; discriminate).
  split; [exact H1|]. split; [exact H2|]. split; [reflexivity|].
  destruct (@unopenable_sink_outcome Run.engine Fake.stof Run.unwritable_world
              Run.unwritable_params 10%nat H1 H2 eq_refl)
    as (r & Hmain & Hres & Hreads & _).
  exists r. split; [exact Hmain|]. split; [|exact Hreads].
  rewrite Hres. vm_compute. reflexivity.
Defined.

(** C7, counterexample.  [stream-rt -f /nonexistent/out.txt] where the
    file cannot be opened and the model cannot be loaded either: an output
    file path is configured and the sink cannot be opened, and the process
    exits with code 2, not 3, without having tried to open the sink. *)
Lemma unopenable_sink_exits_2_without_model :
  ~ @spec_sink_open_failure absent_engine Fake.stof Run.unwritable_world
  /\ option_map result (@main absent_engine Fake.stof Run.unwritable_world 10)
     = Some (Exit 2)
  /\ option_map (fun r => existsb is_open_out (trace r))
       (@main absent_engine Fake.stof Run.unwritable_world 10) = Some false.
Proof.
  split; [|split; vm_compute; reflexivity].
  intros H.
  destruct (H Run.unwritable_params 10%nat) as (r & Hmain & Hres & _).
  - vm_compute. reflexivity.
  - vm_compute. discriminate.
  - reflexivity.
  - vm_compute in Hmain. injection Hmain as <-. cbn in Hres. discriminate Hres.
Qed.

(** ** The size of the buffer in samples *)

(** At 16 kHz the default step of 3000 ms is 48000 samples and the buffer of
    wav mode is 160000 samples, 10000 ms. *)
Lemma sample_counts_at_16k :
  n_samples_step_of SAMPLE_RATE_16K 3000 = Some (3000 * SAMPLE_RATE_16K / 1000)
  /\ n_samples_wav SAMPLE_RATE_16K = Some (10000 * SAMPLE_RATE_16K / 1000).
Proof. split; vm_compute; reflexivity. Qed.

(** The binary64 model against the machine: on the two products of line 236
    [SpecFloat]'s multiplication gives what the processor's floating-point
    unit gives, for the default step and for a step of 4007 ms. *)
Lemma double_products_on_hardware :
  let product (step_ms : Z) :=
    PrimFloat.mul
      (PrimFloat.mul (FloatOps.SF2Prim Double.lit_1e_3)
                     (FloatOps.SF2Prim (Double.of_int step_ms)))
      (FloatOps.SF2Prim (Double.of_int SAMPLE_RATE_16K)) in
  let model (step_ms : Z) :=
    Double.mul (Double.mul Double.lit_1e_3 (Double.of_int step_ms))
               (Double.of_int SAMPLE_RATE_16K) in
  FloatOps.Prim2SF (product 3000) = model 3000
  /\ FloatOps.Prim2SF (product 4007) = model 4007
  /\ model 3000 = S754_finite false 6597069766656000 (-37)
  /\ model 4007 = S754_finite false 8811486184996863 (-37).
Proof. repeat split; vm_compute; reflexivity. Qed.

(** C8, the code at the failing input.  [stream-rt --step 4007]: in
    binary64 [1e-3 * 4007] rounds below 4.007 and the product with 16000
    rounds to the double just below 64112, so the conversion to [int] gives
    64111.  The engine is given 64111 samples where the claim has
    [4007 * 16000 / 1000], 64112. *)
Theorem step_4007_window :
  n_samples_step_of SAMPLE_RATE_16K 4007 = Some 64111
  /\ 4007 * SAMPLE_RATE_16K / 1000 = 64112
  /\ option_map
       (fun r => (result r, map (fun win => Z.of_nat (List.length win))
                                (engine_windows (trace r))))
       (@main Run.engine Fake.stof Run.step4007_world 10)
     = Some (Exit 0, [64111]).
Proof. repeat split; vm_compute; reflexivity. Qed.

(** ** Wav mode *)

Section WavMode.

Context {API : WhisperAPI}.
Variable params : whisper_params.
Variable prog : string.
Variable n_samples : Z.

Hypothesis wav_mode : from_wav_file params = true.
Hypothesis wav_buffer : n_samples_wav WHISPER_SAMPLE_RATE = Some n_samples.

(** The number of samples of a buffer. *)
Let n : nat := Z.to_nat n_samples.

(** An iteration that reaches its end: the 44 bytes in front were
    discarded, the window is made of the [2 * n] bytes after them, and
    that window is what the engine was given. *)
Lemma wav_iteration_next (st : loop_state) :
  Istream.good (cin st) = true ->
  fst (iteration params prog st) = Next ->
  let st' := snd (iteration params prog st) in
  Istream.good (cin st') = true
  /\ (0 < n * 2 /\ 44 + n * 2 <= List.length (Istream.unread (cin st)))%nat
  /\ Istream.unread (cin st') = skipn (n * 2) (skipn 44 (Istream.unread (cin st)))
  /\ pcmf32 st' = map sample_to_float
                    (int16s_of_bytes (firstn (n * 2) (skipn 44 (Istream.unread (cin st)))))
  /\ engine_windows (log st') = engine_windows (log st) ++ [pcmf32 st'].
Proof.
  intros Hgood. cbv zeta. unfold iteration.
  pose proof (read_window_frame params st) as F. cbv zeta in F.
  destruct F as (Hw & _). revert Hw.
  rewrite (read_window_wav_eq params st wav_mode). unfold readWavStreamAsFloats.
  rewrite wav_buffer. fold n. unfold Istream.ignore. rewrite Hgood.
  destruct (List.length (Istream.unread (cin st)) <? 44)%nat eqn:H44.
  { unfold Istream.read, Istream.good. cbn. discriminate. }
  unfold Istream.read, Istream.good.
  cbn [Istream.eofbit Istream.failbit Istream.unread negb andb].
  destruct (List.length (skipn 44 (Istream.unread (cin st))) <? n * 2)%nat eqn:Hshort.
  { cbn [Istream.gcount Istream.eof Istream.eofbit].
    destruct (Nat.min (n * 2) (List.length (skipn 44 (Istream.unread (cin st)))) =? 0)%nat;
      cbn; discriminate. }
  apply Nat.ltb_ge in Hshort.
  cbn [Istream.gcount Istream.eof Istream.eofbit].
  rewrite Nat.min_l by exact Hshort.
  destruct (n * 2 =? 0)%nat eqn:Hzero; [cbn; discriminate|].
  rewrite overwrite_full
    by (rewrite length_firstn, repeat_length; apply Nat.min_l; exact Hshort).
  cbn [Istream.eof Istream.eofbit].
  match goal with
  | |- context [process_window params prog ?s] => set (st1 := s)
  end.
  intros Hw.
  destruct (Z.eq_dec (n_iter st1) INT_MAX) as [E|E].
  { rewrite (process_window_overflow params prog st1 E). cbn. discriminate. }
  pose proof (process_window_frame params prog st1 E) as P. cbv zeta in P.
  destruct P as (_ & Pw & Pp & _ & Pc & _).
  intros _. rewrite Pc, Pp, Pw. cbn [snd] in Hw.
  subst st1. cbn [cin pcmf32 log Istream.eofbit Istream.failbit Istream.unread negb andb].
  cbn [log] in Hw. rewrite Hw.
  apply Nat.ltb_ge in H44. apply Nat.eqb_neq in Hzero.
  rewrite length_skipn in Hshort.
  repeat split; try reflexivity; lia.
Qed.

(** After [k] whole iterations the stream has advanced by [k] times the
    header size plus the buffer size. *)
Lemma wav_position (k : nat) :
  forall st0 st,
    Istream.good (cin st0) = true ->
    after_iterations params prog k st0 = Some st ->
    Istream.good (cin st) = true
    /\ Istream.unread (cin st) = skipn (k * (44 + n * 2)) (Istream.unread (cin st0)).
Proof.
  induction k as [|k IH]; intros st0 st Hgood H; cbn [after_iterations] in H.
  - injection H as <-. split; [exact Hgood | reflexivity].
  - destruct (is_running st0); [|discriminate].
    pose proof (wav_iteration_next st0 Hgood) as W. cbv zeta in W.
    destruct (iteration params prog st0) as [c st1]. cbn [fst snd] in W.
    destruct c; try discriminate.
    destruct (W eq_refl) as (Hg1 & _ & Hu1 & _).
    destruct (IH st1 st Hg1 H) as (Hg & Hu).
    split; [exact Hg|].
    rewrite Hu, Hu1, !skipn_skipn. f_equal. lia.
Qed.

(** C9.  In wav mode every window is read after a skip of 44 bytes of what
    is left of standard input: the window of iteration [k] (from 0) is made
    of the bytes from offset [k * (44 + 2 n) + 44], and the iteration
    leaves the stream at offset [(k + 1) * (44 + 2 n)].  From the second
    iteration on, the 44 bytes skipped are bytes of the payload. *)
Theorem wav_read_skips_44_each_time (bs : list byte) (entry st : loop_state) (k : nat) :
  cin entry = Istream.of_bytes bs ->
  after_iterations params prog k entry = Some st ->
  fst (iteration params prog st) = Next ->
  let st' := snd (iteration params prog st) in
  Istream.unread (cin st) = skipn (k * (44 + n * 2)) bs
  /\ engine_windows (log st')
     = engine_windows (log st)
       ++ [map sample_to_float
             (int16s_of_bytes (firstn (n * 2) (skipn (k * (44 + n * 2) + 44) bs)))]
  /\ Istream.unread (cin st') = skipn (S k * (44 + n * 2)) bs.
Proof.
  intros Hcin Hk Hnext. cbv zeta.
  assert (Istream.good (cin entry) = true) as Hgood by (rewrite Hcin; reflexivity).
  destruct (wav_position k entry st Hgood Hk) as (Hg & Hu).
  rewrite Hcin in Hu. cbn [Istream.of_bytes Istream.unread] in Hu.
  destruct (wav_iteration_next st Hg Hnext) as (_ & _ & Hu' & Hp & Hw).
  split; [exact Hu|]. split.
  - rewrite Hw, Hp, Hu, skipn_skipn.
    replace (k * (44 + n * 2) + 44)%nat with (44 + k * (44 + n * 2))%nat by lia.
    reflexivity.
  - rewrite Hu', Hu, !skipn_skipn. f_equal. lia.
Qed.

(** When at most 44 bytes are left the read after the skip finds
    nothing. *)
Lemma nothing_after_header (c : Istream.t) :
  (List.length (Istream.unread c) <= 44)%nat ->
  Istream.gcount (snd (Istream.read (n * 2) (Istream.ignore 44 c))) = 0%nat.
Proof.
  intros H. unfold Istream.ignore, Istream.read.
  destruct (Istream.good c); unfold Istream.good;
    cbn [Istream.eofbit Istream.failbit Istream.unread negb andb].
  - destruct (List.length (Istream.unread c) <? 44)%nat;
      cbn [negb andb snd Istream.gcount]; [reflexivity|].
    rewrite length_skipn.
    replace (List.length (Istream.unread c) - 44)%nat with 0%nat by lia.
    apply Nat.min_0_r.
  - rewrite andb_false_r. reflexivity.
Qed.

(** C10.  In wav mode, when the read after the 44-byte skip yields no
    byte, [readWavStreamAsFloats] throws; [main] has no handler, so the
    loop is left by the exception and the process is terminated instead of
    draining and returning 0.  The engine is not called. *)
Theorem wav_zero_read_terminates (st : loop_state) (fuel : nat) :
  is_running st = true ->
  Istream.gcount (snd (Istream.read (n * 2) (Istream.ignore 44 (cin st)))) = 0%nat ->
  exists st',
    main_loop params prog (S fuel) st = Some (Throw wav_error, st')
    /\ after_loop (Throw wav_error, st')
       = mk_run (Terminate wav_error) (log st') (cin st')
    /\ result (after_loop (Throw wav_error, st')) <> Exit 0
    /\ engine_windows (log st') = engine_windows (log st).
Proof.
  intros Hrun Hzero.
  pose proof (read_window_frame params st) as F. cbv zeta in F.
  destruct F as (Hw & _). revert Hw.
  cbn [main_loop]. rewrite Hrun. unfold iteration.
  rewrite (read_window_wav_eq params st wav_mode). unfold readWavStreamAsFloats.
  rewrite wav_buffer. fold n.
  destruct (Istream.read (n * 2) (Istream.ignore 44 (cin st))) as [got c2].
  cbn [snd] in Hzero. rewrite Hzero. cbn [Nat.eqb snd].
  intros Hw. eexists. split; [reflexivity|].
  split; [reflexivity|]. split; [discriminate | exact Hw].
Qed.

End WavMode.

(** ** Termination *)

Section Termination.

Context {API : WhisperAPI}.
Variable params : whisper_params.
Variable prog : string.

(** An iteration that reaches its end has taken bytes from standard input,
    provided the buffer of raw mode is not empty. *)
Lemma iteration_consumes (st : loop_state) :
  Istream.good (cin st) = true ->
  (from_wav_file params = false -> (0 < List.length (pcmf32 st))%nat) ->
  fst (iteration params prog st) = Next ->
  let st' := snd (iteration params prog st) in
  Istream.good (cin st') = true
  /\ (List.length (Istream.unread (cin st')) < List.length (Istream.unread (cin st)))%nat
  /\ (from_wav_file params = false -> List.length (pcmf32 st') = List.length (pcmf32 st)).
Proof.
  intros Hgood Hbuf. cbv zeta.
  destruct (from_wav_file params) eqn:Hmode.
  - destruct (n_samples_wav WHISPER_SAMPLE_RATE) as [ns|] eqn:Hb.
    + intros Hnext.
      destruct (wav_iteration_next params prog ns Hmode Hb st Hgood Hnext)
        as (Hg & (Hpos & Hlen) & Hu & _).
      split; [exact Hg|]. split; [|discriminate].
      rewrite Hu, !length_skipn. lia.
    + unfold iteration. rewrite (read_window_wav_eq params st Hmode).
      unfold readWavStreamAsFloats. rewrite Hb. cbn. discriminate.
  - specialize (Hbuf eq_refl).
    pose proof (read_window_length params st) as L. cbv zeta in L.
    destruct L as [Lraw _]. specialize (Lraw Hmode). revert Lraw.
    unfold iteration. rewrite (read_window_raw_eq params st Hmode). cbv zeta.
    unfold Istream.read. rewrite Hgood.
    destruct (List.length (Istream.unread (cin st)) <? List.length (pcmf32 st) * 4)%nat
      eqn:Hshort; cbn [Istream.eof Istream.eofbit]; [cbn; discriminate|].
    apply Nat.ltb_ge in Hshort.
    match goal with
    | |- context [process_window params prog ?s] => set (st1 := s)
    end.
    cbn [snd]. intros Lraw.
    destruct (Z.eq_dec (n_iter st1) INT_MAX) as [E|E].
    { rewrite (process_window_overflow params prog st1 E). cbn. discriminate. }
    pose proof (process_window_frame params prog st1 E) as P. cbv zeta in P.
    destruct P as (_ & _ & Pp & _ & Pc & _).
    intros _. rewrite Pc, Pp.
    split; [reflexivity|]. split; [|intros _; exact Lraw].
    subst st1. cbn [cin Istream.unread]. rewrite length_skipn. lia.
Qed.

(** The loop ends within as many iterations as standard input has bytes,
    and one more. *)
Lemma main_loop_returns (fuel : nat) :
  forall st,
    Istream.good (cin st) = true ->
    (from_wav_file params = false -> (0 < List.length (pcmf32 st))%nat) ->
    (List.length (Istream.unread (cin st)) < fuel)%nat ->
    exists r, main_loop params prog fuel st = Some r.
Proof.
  induction fuel as [|fuel IH]; intros st Hgood Hbuf Hlen; [lia|].
  cbn [main_loop]. destruct (is_running st); [|eexists; reflexivity].
  pose proof (iteration_consumes st Hgood Hbuf) as C. cbv zeta in C.
  destruct (iteration params prog st) as [c st1]. cbn [fst snd] in C.
  destruct c; try (eexists; reflexivity).
  destruct (C eq_refl) as (Hg1 & Hlt & Hb1).
  apply IH; [exact Hg1 | | lia].
  intros Hmode. rewrite (Hb1 Hmode). exact (Hbuf Hmode).
Qed.

End Termination.

(** Every execution in wav mode, and every execution in raw mode whose step
    is at least one sample, ends: [main] returns a run when it is given as
    many iterations as standard input has bytes, and one more. *)
Lemma main_returns {API : WhisperAPI} (stof : string -> stox Float32.t)
    (w : world) :
  match startup stof w with
  | inl _ => True
  | inr (params, _) =>
      from_wav_file params = true
      \/ exists n, n_samples_step_of WHISPER_SAMPLE_RATE (step_ms params) = Some n /\ 0 < n
  end ->
  exists r, main stof w (S (List.length (stdin w))) = Some r.
Proof.
  unfold main. destruct (startup stof w) as [r|[params entry]] eqn:Hs.
  - intros _. exists r. reflexivity.
  - intros Hstep.
    destruct (startup_inr stof w params entry Hs)
      as (_ & n & x & is_open & l & Hn & Hpos & _ & -> & _).
    destruct (main_loop_returns params (argv0 w) (S (List.length (stdin w)))
                (loop_entry (Istream.of_bytes (stdin w)) x n is_open l)) as [res Hres].
    + reflexivity.
    + intros Hmode. cbn [loop_entry pcmf32]. rewrite repeat_length.
      destruct Hstep as [Hwav|(n' & Hn' & Hpos')]; [congruence|].
      rewrite Hn in Hn'. injection Hn' as <-. lia.
    + cbn. lia.
    + rewrite Hres. eexists. reflexivity.
Qed.

Lemma wav_read_skips_44_each_time_witness :
  from_wav_file Run.wav_params = true
  /\ n_samples_wav 8 = Some 80
  /\ cin (Run.slow_wav_entry (Run.silence 450)) = Istream.of_bytes (Run.silence 450)
  /\ @after_iterations Run.slow_engine Run.wav_params "stream-rt" 1
       (Run.slow_wav_entry (Run.silence 450))
     = Some (snd (@iteration Run.slow_engine Run.wav_params "stream-rt"
                    (Run.slow_wav_entry (Run.silence 450))))
  /\ fst (@iteration Run.slow_engine Run.wav_params "stream-rt"
            (snd (@iteration Run.slow_engine Run.wav_params "stream-rt"
                    (Run.slow_wav_entry (Run.silence 450))))) = Next
  /\ Istream.unread
       (cin (snd (@iteration Run.slow_engine Run.wav_params "stream-rt"
                    (snd (@iteration Run.slow_engine Run.wav_params "stream-rt"
                            (Run.slow_wav_entry (Run.silence 450)))))))
     = skipn (2 * (44 + 80 * 2)) (Run.silence 450).
Proof.
  assert (from_wav_file Run.wav_params = true) as H1 by reflexivity.
  assert (n_samples_wav 8 = Some 80) as H2 by (vm_compute; reflexivity).
  assert (cin (Run.slow_wav_entry (Run.silence 450))
          = Istream.of_bytes (Run.silence 450)) as H3 by reflexivity.
  assert (@after_iterations Run.slow_engine Run.wav_params "stream-rt" 1
            (Run.slow_wav_entry (Run.silence 450))
          = Some (snd (@iteration Run.slow_engine Run.wav_params "stream-rt"
                         (Run.slow_wav_entry (Run.silence 450))))) as H4
    by (vm_compute; reflexivity).
  assert (fst (@iteration Run.slow_engine Run.wav_params "stream-rt"
                 (snd (@iteration Run.slow_engine Run.wav_params "stream-rt"
                         (Run.slow_wav_entry (Run.silence 450))))) = Next) as H5
    by (vm_compute; reflexivity).
  repeat (split; [assumption|]).
  exact (proj2 (proj2 (@wav_read_skips_44_each_time Run.slow_engine Run.wav_params
                         "stream-rt" 80 H1 H2 _ _ _ 1%nat H3 H4 H5))).
Defined.

Lemma wav_zero_read_terminates_witness :
  from_wav_file Run.wav_params = true
  /\ n_samples_wav SAMPLE_RATE_16K = Some 160000
  /\ is_running Run.empty_wav_entry = true
  /\ Istream.gcount
       (snd (Istream.read (Z.to_nat 160000 * 2)
               (Istream.ignore 44 (cin Run.empty_wav_entry))))
     = 0%nat
  /\ exists st',
      @main_loop Run.engine Run.wav_params "stream-rt" 1 Run.empty_wav_entry
      = Some (Throw wav_error, st').
Proof.
  assert (from_wav_file Run.wav_params = true) as H1 by reflexivity.
  assert (n_samples_wav SAMPLE_RATE_16K = Some 160000) as H2
    by (vm_compute; reflexivity).
  assert (is_running Run.empty_wav_entry = true) as H3 by reflexivity.
  assert (Istream.gcount
            (snd (Istream.read (Z.to_nat 160000 * 2)
                    (Istream.ignore 44 (cin Run.empty_wav_entry))))
          = 0%nat) as H4 by reflexivity.
  repeat (split; [assumption|]).
  destruct (@wav_zero_read_terminates Run.engine Run.wav_params "stream-rt" 160000
              H1 H2 Run.empty_wav_entry 0%nat H3 H4)
    as (st' & Hloop & _).
  exists st'. exact Hloop.
Defined.

(** Whole executions in wav mode at 16 kHz: on an empty standard input, and
    on a header followed by exactly one buffer (one window is recognised,
    then the next read finds nothing), the process is terminated by the
    exception. *)
Lemma wav_runs_end_by_exception :
  option_map result (@main Run.engine Fake.stof Run.empty_wav_world 10)
  = Some (Terminate wav_error)
  /\ option_map
       (fun r => (result r, map (fun win => Z.of_nat (List.length win))
                                (engine_windows (trace r))))
       (@main Run.engine Fake.stof Run.one_buffer_wav_world 10)
     = Some (Terminate wav_error, [160000]).
Proof. split; vm_compute; reflexivity. Qed.

(** A whole execution in wav mode at 16 kHz on a marked payload: the second
    window starts with the sample 44 bytes into what the first read left,
    not with the sample that follows the first buffer. *)
Lemma wav_second_window_starts_44_bytes_late :
  option_map
    (fun r => map (fun win => (Z.of_nat (List.length win), hd Float32.zero win))
                  (engine_windows (trace r)))
    (@main Run.engine Fake.stof Run.two_buffers_wav_world 10)
  = Some [(160000, sample_to_float 0); (160000, sample_to_float 2)].
Proof. vm_compute. reflexivity. Qed.

(** * Further properties of the program *)

(** ** The parser, argument by argument *)

Section ParserOrder.

Variable stof : string -> stox Float32.t.
Variable argv0 : string.

(** Arguments are consumed from left to right: when a list of arguments is
    parsed to the end, what follows it is parsed from the configuration it
    left. *)
Lemma parse_from_app (a : list string) :
  forall p p' b,
    parse_from stof argv0 a p = ParseReturn true p' ->
    parse_from stof argv0 (a ++ b) p = parse_from stof argv0 b p'.
Proof.
  remember (List.length a) as n eqn:Hn.
  assert (List.length a <= n)%nat as Hle by lia. clear Hn.
  revert a Hle.
  induction n as [|n IH]; intros a Hle p p' b H.
  - destruct a; [|cbn in Hle; lia]. cbn in H. injection H as <-. reflexivity.
  - destruct a as [|arg rest]; [cbn in H; injection H as <-; reflexivity|].
    cbn [List.length] in Hle.
    assert (forall A (conv : string -> stox A) (k : A -> whisper_params),
               take conv rest (fun v r => parse_from stof argv0 r (k v))
               = ParseReturn true p' ->
               take conv (rest ++ b) (fun v r => parse_from stof argv0 r (k v))
               = parse_from stof argv0 b p') as Htake.
    { intros A conv k. unfold take. destruct rest as [|v rest']; [discriminate|].
      cbn [app]. destruct (conv v); try discriminate.
      apply IH. cbn [List.length] in Hle. lia. }
    assert (forall q, parse_from stof argv0 rest q = ParseReturn true p' ->
                      parse_from stof argv0 (rest ++ b) q = parse_from stof argv0 b p')
      as Hflag.
    { intros q. apply IH. lia. }
    revert H. cbn [parse_from app].
    repeat match goal with
           | |- (if ?c then _ else _) = _ -> _ => destruct c
           end;
      first [ discriminate | apply Hflag | apply (Htake _ _ (fun v => _ v p)) ].
Qed.

(** The parser never assigns [no_timestamps]. *)
Lemma parse_from_no_timestamps (a : list string) :
  forall p b p',
    parse_from stof argv0 a p = ParseReturn b p' ->
    no_timestamps p' = no_timestamps p.
Proof.
  remember (List.length a) as n eqn:Hn.
  assert (List.length a <= n)%nat as Hle by lia. clear Hn.
  revert a Hle.
  induction n as [|n IH]; intros a Hle p b p' H.
  - destruct a; [|cbn in Hle; lia]. cbn in H. injection H as _ <-. reflexivity.
  - destruct a as [|arg rest]; [cbn in H; injection H as _ <-; reflexivity|].
    cbn [List.length] in Hle.
    assert (forall A (conv : string -> stox A) (k : A -> whisper_params),
               (forall v, no_timestamps (k v) = no_timestamps p) ->
               take conv rest (fun v r => parse_from stof argv0 r (k v))
               = ParseReturn b p' ->
               no_timestamps p' = no_timestamps p) as Htake.
    { intros A conv k Hk. unfold take. destruct rest as [|v rest']; [discriminate|].
      destruct (conv v) as [x| |]; try discriminate.
      intros H'. rewrite <- (Hk x). apply (IH rest') with (b := b); [|exact H'].
      cbn [List.length] in Hle. lia. }
    assert (forall q, no_timestamps q = no_timestamps p ->
                      parse_from stof argv0 rest q = ParseReturn b p' ->
                      no_timestamps p' = no_timestamps p) as Hflag.
    { intros q Hq H'. rewrite <- Hq. apply (IH rest) with (b := b); [lia | exact H']. }
    revert H. cbn [parse_from].
    repeat match goal with
           | |- (if ?c then _ else _) = _ -> _ => destruct c
           end;
      first [ discriminate
            | apply Hflag; destruct p; reflexivity
            | apply (Htake _ _ (fun v => _ v p)); intros v; destruct p; reflexivity ].
Qed.

End ParserOrder.

Section ParserVerdicts.

Context {API : WhisperAPI}.
Variable stof : string -> stox Float32.t.

(** X2.  The parser works from left to right.  When the arguments [a] are
    parsed to the end, the arguments [a ++ b] are parsed as [b] from the
    configuration [a] left; so a later [--step] replaces an earlier one and
    leaves every other member as the earlier arguments set it. *)
Theorem parser_is_left_to_right (argv0 : string) (a b : list string)
    (p p' : whisper_params) :
  whisper_params_parse stof argv0 a p = ParseReturn true p' ->
  whisper_params_parse stof argv0 (a ++ b) p = whisper_params_parse stof argv0 b p'
  /\ (forall v n, stoi v = Parsed n ->
        whisper_params_parse stof argv0 (a ++ ["--step"; v]%string) p
        = ParseReturn true (Set_.step_ms n p')).
Proof.
  unfold whisper_params_parse. intros H. split.
  - apply parse_from_app. exact H.
  - intros v n Hv. rewrite (parse_from_app stof argv0 a p p' _ H).
    cbn. rewrite Hv. reflexivity.
Qed.

(** X3.  An option that takes a value and stands last on the command line
    makes the parser read [argv[argc]], a null pointer: the behaviour is
    undefined, and nothing was initialised, opened or read before. *)
Theorem missing_value_is_undefined (w : world) (a : list string) (opt : string)
    (p' : whisper_params) (fuel : nat) :
  whisper_params_parse stof (argv0 w) a (default_params (hardware_concurrency w))
  = ParseReturn true p' ->
  In opt value_options ->
  args w = a ++ [opt] ->
  main stof w fuel
  = Some (mk_run Undefined [hello] (Istream.of_bytes (stdin w))).
Proof.
  unfold whisper_params_parse. intros H Hopt Hargs.
  unfold main, startup, whisper_params_parse. rewrite Hargs.
  rewrite (parse_from_app stof (argv0 w) a _ p' _ H).
  unfold value_options, int_options in Hopt. cbn [app In] in Hopt.
  repeat (destruct Hopt as [<-|Hopt]; [reflexivity|]).
  contradiction.
Qed.

(** X4.  [-h] or [--help] ends the process with exit code 0 after the usage
    text, which shows the values the arguments before it have set; whatever
    follows on the command line is not looked at. *)
Theorem help_stops_parsing (w : world) (a b : list string) (h : string)
    (p' : whisper_params) (fuel : nat) :
  whisper_params_parse stof (argv0 w) a (default_params (hardware_concurrency w))
  = ParseReturn true p' ->
  h = "-h"%string \/ h = "--help"%string ->
  args w = a ++ h :: b ->
  main stof w fuel
  = Some (mk_run (Exit 0) [hello; UsageText (argv0 w) p'] (Istream.of_bytes (stdin w))).
Proof.
  unfold whisper_params_parse. intros H Hh Hargs.
  unfold main, startup, whisper_params_parse. rewrite Hargs.
  rewrite (parse_from_app stof (argv0 w) a _ p' _ H).
  destruct Hh as [-> | ->]; reflexivity.
Qed.

(** X5.  A value that [std::stoi] rejects, given to an option that expects
    an integer, ends the process by the uncaught exception
    ([std::invalid_argument] or [std::out_of_range]) before anything is
    initialised, opened or read. *)
Theorem bad_integer_terminates (w : world) (a b : list string) (opt v : string)
    (p' : whisper_params) (fuel : nat) :
  whisper_params_parse stof (argv0 w) a (default_params (hardware_concurrency w))
  = ParseReturn true p' ->
  In opt int_options ->
  (forall n, stoi v <> Parsed n) ->
  args w = a ++ opt :: v :: b ->
  main stof w fuel
  = Some (mk_run (Terminate (what_of (stoi v))) [hello] (Istream.of_bytes (stdin w))).
Proof.
  unfold whisper_params_parse. intros H Hopt Hv Hargs.
  unfold main, startup, whisper_params_parse. rewrite Hargs.
  rewrite (parse_from_app stof (argv0 w) a _ p' _ H).
  unfold int_options in Hopt. cbn [In] in Hopt.
  repeat (destruct Hopt as [<-|Hopt];
          [cbn [parse_from arg_is String.eqb Ascii.eqb Bool.eqb orb take];
           destruct (stoi v) as [n| |]; [exfalso; exact (Hv n eq_refl) | reflexivity..]|]).
  contradiction.
Qed.

End ParserVerdicts.

(** ** Exit codes and the order of the start-up *)

Section StartUp.

Context {API : WhisperAPI}.
Variable stof : string -> stox Float32.t.

(** X1.  The exit codes of the process are 0, 2 and 3 and no other: an
    execution that ends by [return] or [exit] ends with one of them.  (Exit
    code 1 in particular never occurs.) *)
Theorem exit_codes_are_0_2_3 (w : world) (fuel : nat) (c : Z) :
  option_map result (main stof w fuel) = Some (Exit c) ->
  c = 0 \/ c = 2 \/ c = 3.
Proof.
  unfold main. destruct (startup stof w) as [r|[p entry]] eqn:Hs.
  - cbn [option_map]. revert Hs. unfold startup.
    pose proof (parse_never_false stof (argv0 w) (args w)
                  (default_params (hardware_concurrency w))) as Hnf.
    pose proof (parse_exit_code stof (argv0 w) (args w)
                  (default_params (hardware_concurrency w))) as Hex.
    destruct (whisper_params_parse stof (argv0 w) (args w)
                (default_params (hardware_concurrency w))) as [[|] q|out code|what|].
    + destruct (n_samples_step_of WHISPER_SAMPLE_RATE (step_ms q)) as [n|].
      * destruct (whisper_init_from_file_with_params (model q) (use_gpu q)) as [x|].
        -- destruct (n <? 0).
           ++ intros H. injection H as <-. discriminate.
           ++ destruct (open_sink w q) as [[is_open|] evs]; [discriminate|].
              intros H. injection H as <-. cbn. intros E. injection E as <-. auto.
        -- intros H. injection H as <-. cbn. intros E. injection E as <-. auto.
      * intros H. injection H as <-. discriminate.
    + exfalso. exact (Hnf q eq_refl).
    + destruct (Hex out code eq_refl) as (-> & _).
      intros H. injection H as <-. cbn. intros E. injection E as <-. auto.
    + intros H. injection H as <-. discriminate.
    + intros H. injection H as <-. discriminate.
  - destruct (main_loop p (argv0 w) fuel entry) as [[ctl st]|]; [|discriminate].
    destruct ctl; cbn; intros E; try discriminate; injection E as <-; auto.
Qed.

(** The two lines between parsing and the initialisation of the engine. *)
Lemma init_failure_run (w : world) (p : whisper_params) (n : Z) (fuel : nat) :
  whisper_params_parse stof (argv0 w) (args w)
    (default_params (hardware_concurrency w)) = ParseReturn true p ->
  n_samples_step_of WHISPER_SAMPLE_RATE (step_ms p) = Some n ->
  whisper_init_from_file_with_params (model p) (use_gpu p) = None ->
  main stof w fuel
  = Some (mk_run (Exit 2)
            [hello;
             Stdout (endl "Parsed parameters successfully.");
             Stdout (endl "Initializing Whisper context...");
             InitCtx (model p) (use_gpu p) false;
             Stderr (endl "Failed to initialize whisper context.")]
            (Istream.of_bytes (stdin w))).
Proof.
  intros Hp Hn Hi. unfold main, startup. rewrite Hp, Hn, Hi. reflexivity.
Qed.

(** X13.  When the model cannot be loaded the process returns 2 without
    having opened the output file, whatever [-f] names, and without having
    read from standard input. *)
Theorem engine_init_failure_exits_2 (w : world) (p : whisper_params) (n : Z)
    (fuel : nat) :
  whisper_params_parse stof (argv0 w) (args w)
    (default_params (hardware_concurrency w)) = ParseReturn true p ->
  n_samples_step_of WHISPER_SAMPLE_RATE (step_ms p) = Some n ->
  whisper_init_from_file_with_params (model p) (use_gpu p) = None ->
  exists r,
    main stof w fuel = Some r
    /\ result r = Exit 2
    /\ existsb is_open_out (trace r) = false
    /\ reads_input (trace r) = false
    /\ stderr_of (trace r) = [endl "Failed to initialize whisper context."].
Proof.
  intros Hp Hn Hi. eexists. split; [apply (init_failure_run w p n fuel Hp Hn Hi)|].
  repeat split; reflexivity.
Qed.

(** What the loop starts from. *)
Lemma startup_entry (w : world) (p : whisper_params) (entry : loop_state) :
  startup stof w = inr (p, entry) ->
  no_timestamps p = false
  /\ file_of (log entry) = []
  /\ records_of (log entry) = []
  /\ engine_params (log entry) = []
  /\ is_running entry = true
  /\ n_iter entry = 0
  /\ cin entry = Istream.of_bytes (stdin w)
  /\ fout_is_open entry = negb (String.eqb (fname_out p) "").
Proof.
  unfold startup.
  pose proof (parse_from_no_timestamps stof (argv0 w) (args w)
                (default_params (hardware_concurrency w))) as Hts.
  unfold whisper_params_parse.
  destruct (parse_from stof (argv0 w) (args w)
              (default_params (hardware_concurrency w))) as [[|] q| | |];
    try discriminate.
  specialize (Hts true q eq_refl). cbn in Hts.
  destruct (n_samples_step_of WHISPER_SAMPLE_RATE (step_ms q)) as [n|]; [|discriminate].
  destruct (whisper_init_from_file_with_params (model q) (use_gpu q)) as [x|];
    [|discriminate].
  destruct (n <? 0); [discriminate|].
  unfold open_sink.
  destruct (String.eqb (fname_out q) "") eqn:Hname.
  - intros H. injection H as <- <-. rewrite Hname. repeat split; try reflexivity. exact Hts.
  - destruct (can_open w (fname_out q)); [|discriminate].
    intros H. injection H as <- <-. rewrite Hname.
    repeat split; try reflexivity. exact Hts.
Qed.

End StartUp.

(** ** What the loop writes *)

Lemma file_of_app (l1 l2 : list event) : file_of (l1 ++ l2) = file_of l1 ++ file_of l2.
Proof.
  induction l1 as [|e l1 IH]; [reflexivity|].
  destruct e; cbn [app file_of]; rewrite ?IH; reflexivity.
Qed.

Lemma engine_params_app (l1 l2 : list event) :
  engine_params (l1 ++ l2) = engine_params l1 ++ engine_params l2.
Proof.
  induction l1 as [|e l1 IH]; [reflexivity|].
  destruct e; cbn [app engine_params]; rewrite ?IH; reflexivity.
Qed.

Lemma records_of_app (l1 l2 : list event) :
  records_of (l1 ++ l2) = records_of l1 ++ records_of l2.
Proof.
  induction l1 as [|e l1 IH]; [reflexivity|].
  destruct e; cbn [app records_of]; rewrite ?IH; try reflexivity.
  destruct (prefix "[" s); rewrite ?IH; reflexivity.
Qed.

Section LoopLog.

Context {API : WhisperAPI}.
Variable params : whisper_params.
Variable prog : string.

Hypothesis timestamps_on : no_timestamps params = false.

(** Whatever a property of the loop state is, if every iteration keeps it
    the loop keeps it. *)
Lemma main_loop_invariant (I : loop_state -> Prop) :
  (forall st, I st -> I (snd (iteration params prog st))) ->
  forall fuel st r, main_loop params prog fuel st = Some r -> I st -> I (snd r).
Proof.
  intros Hstep fuel.
  induction fuel as [|fuel IH]; intros st r H Hst; cbn [main_loop] in H.
  - destruct (is_running st); [discriminate|]. injection H as <-. exact Hst.
  - destruct (is_running st); [|injection H as <-; exact Hst].
    pose proof (Hstep st Hst) as Hit.
    destruct (iteration params prog st) as [c st1]. cbn [snd] in Hit.
    destruct c; try (injection H as <-; exact Hit).
    exact (IH _ _ H Hit).
Qed.

(** Reading writes progress lines only. *)
Lemma read_window_silent (st : loop_state) :
  let st' := snd (read_window params st) in
  file_of (log st') = file_of (log st)
  /\ records_of (log st') = records_of (log st)
  /\ engine_params (log st') = engine_params (log st).
Proof.
  destruct (from_wav_file params) eqn:Hmode.
  - rewrite (read_window_wav_eq params st Hmode).
    unfold readWavStreamAsFloats.
    destruct (n_samples_wav WHISPER_SAMPLE_RATE) as [n|].
    + destruct (Istream.read (Z.to_nat n * 2) (Istream.ignore 44 (cin st))) as [got c2].
      destruct (Istream.gcount c2 =? 0)%nat; [|destruct (Istream.eof c2)];
        cbn [snd log say];
        rewrite ?file_of_app, ?records_of_app, ?engine_params_app;
        cbn; rewrite ?app_nil_r; repeat split; reflexivity.
    + cbn [snd log say].
      rewrite ?file_of_app, ?records_of_app, ?engine_params_app.
      cbn. rewrite ?app_nil_r. repeat split; reflexivity.
  - rewrite (read_window_raw_eq params st Hmode). cbv zeta.
    destruct (Istream.read (List.length (pcmf32 st) * 4) (cin st)) as [got c'].
    destruct (Istream.eof c');
      cbn [snd log say];
      rewrite ?file_of_app, ?records_of_app, ?engine_params_app;
      cbn; rewrite ?app_nil_r; repeat split; reflexivity.
Qed.

Lemma segments_written (is_open : bool) (segs : list segment) :
  records_of (flat_map (segment_events params is_open) segs) = map record_of segs
  /\ file_of (flat_map (segment_events params is_open) segs)
     = (if is_open then map record_of segs else [])
  /\ engine_params (flat_map (segment_events params is_open) segs) = [].
Proof.
  induction segs as [|sg segs (IH1 & IH2 & IH3)]; [destruct is_open; repeat split; reflexivity|].
  cbn [flat_map map]. rewrite records_of_app, file_of_app, engine_params_app, IH1, IH2, IH3.
  unfold segment_events, record_of, endl. rewrite timestamps_on.
  assert (forall x : string, prefix "[" (("[" ++ x) ++ nl) = true) as Hp
    by (intros x; cbn; destruct (ascii_dec "[" "[");
        [destruct (x ++ nl)%string; reflexivity | contradiction]).
  destruct is_open; cbn [records_of file_of engine_params app]; rewrite ?Hp;
    repeat split; reflexivity.
Qed.

Lemma call_events_written (st : loop_state) (ret : Z) :
  records_of (call_events params st ret) = []
  /\ file_of (call_events params st ret) = []
  /\ engine_params (call_events params st ret) = [wparams params].
Proof.
  unfold call_events. destruct (Istream.eof (cin st)); repeat split; reflexivity.
Qed.

(** The recognition step: the parameters of the call are [wparams]; what
    goes to the file is what goes to the console as records. *)
Lemma process_window_written (st : loop_state) :
  let st' := snd (process_window params prog st) in
  exists recs,
    records_of (log st') = records_of (log st) ++ recs
    /\ file_of (log st') = file_of (log st) ++ (if fout_is_open st then recs else [])
    /\ Forall (fun wp => wp = wparams params)
              (skipn (List.length (engine_params (log st))) (engine_params (log st')))
    /\ firstn (List.length (engine_params (log st))) (engine_params (log st'))
       = engine_params (log st)
    /\ fout_is_open st' = fout_is_open st.
Proof.
  cbv zeta.
  destruct (Z.eq_dec (n_iter st) INT_MAX) as [E|E].
  - rewrite (process_window_overflow params prog st E). cbn [snd].
    exists []. rewrite skipn_all, firstn_all.
    destruct (fout_is_open st); rewrite !app_nil_r; repeat split; constructor.
  - rewrite (process_window_eq params prog st E).
    destruct (whisper_full (ctx st) (wparams params) (pcmf32 st)) as [ret ctx'].
    destruct (call_events_written st ret) as (C1 & C2 & C3).
    destruct (ret =? 0); cbn [snd log fout_is_open].
    + destruct (segments_written (fout_is_open st) (whisper_full_segments ctx'))
        as (S1 & S2 & S3).
      exists (map record_of (whisper_full_segments ctx')).
      rewrite !records_of_app, !file_of_app, !engine_params_app, C1, C2, C3, S1, S2, S3.
      cbn [records_of file_of engine_params app prefix].
      rewrite skipn_app, skipn_all, Nat.sub_diag, firstn_app, firstn_all, Nat.sub_diag.
      cbn [skipn firstn app]. rewrite app_nil_r.
      repeat split; try reflexivity. constructor; [reflexivity | constructor].
    + exists [].
      rewrite !records_of_app, !file_of_app, !engine_params_app, C1, C2, C3.
      cbn [records_of file_of engine_params app prefix].
      rewrite skipn_app, skipn_all, Nat.sub_diag, firstn_app, firstn_all, Nat.sub_diag.
      cbn [skipn firstn app].
      destruct (fout_is_open st); rewrite !app_nil_r; repeat split; try reflexivity;
        (constructor; [reflexivity | constructor]).
Qed.

End LoopLog.

Section LogInvariant.

Context {API : WhisperAPI}.
Variable params : whisper_params.
Variable prog : string.

Hypothesis timestamps_on : no_timestamps params = false.

Lemma iteration_log_ok (st : loop_state) :
  log_ok params st -> log_ok params (snd (iteration params prog st)).
Proof.
  intros [Hfile Hwp]. unfold iteration.
  pose proof (read_window_silent params st) as S.
  pose proof (read_window_frame params st) as F. cbv zeta in S, F.
  destruct (read_window params st) as [c st1]. cbn [snd] in S, F.
  destruct S as (S1 & S2 & S3). destruct F as (_ & _ & _ & _ & Fo & _).
  assert (log_ok params st1) as H1.
  { split; [rewrite S1, S2, Fo; exact Hfile | rewrite S3; exact Hwp]. }
  destruct c; cbn [snd]; try exact H1.
  destruct H1 as [Hfile1 Hwp1].
  destruct (process_window_written params prog timestamps_on st1)
    as (recs & P1 & P2 & P3 & P4 & P5).
  split.
  - rewrite P2, P1, P5, Hfile1. destruct (fout_is_open st1); reflexivity.
  - rewrite <- (firstn_skipn (List.length (engine_params (log st1)))
                  (engine_params (log (snd (process_window params prog st1))))).
    apply Forall_app. split; [rewrite P4; exact Hwp1 | exact P3].
Qed.

End LogInvariant.

Section Output.

Context {API : WhisperAPI}.
Variable stof : string -> stox Float32.t.

Lemma epilogue_silent (st : loop_state) :
  file_of (epilogue st) = [] /\ records_of (epilogue st) = []
  /\ engine_params (epilogue st) = [].
Proof. unfold epilogue. destruct (fout_is_open st); repeat split; reflexivity. Qed.

(** The log of a finished execution that entered the loop. *)
Lemma main_log_ok (w : world) (p : whisper_params) (entry : loop_state)
    (fuel : nat) (r : run) :
  startup stof w = inr (p, entry) ->
  main stof w fuel = Some r ->
  file_of (trace r)
  = (if String.eqb (fname_out p) "" then [] else records_of (trace r))
  /\ Forall (fun wp => wp = wparams p) (engine_params (trace r)).
Proof.
  intros Hs Hmain. unfold main in Hmain. rewrite Hs in Hmain.
  destruct (startup_entry stof w p entry Hs)
    as (Hts & E1 & E2 & E3 & _ & _ & _ & E4).
  destruct (main_loop p (argv0 w) fuel entry) as [[c st]|] eqn:Hloop; [|discriminate].
  injection Hmain as <-.
  assert (fout_is_open st = fout_is_open entry /\ log_ok p st) as [Ho [Hf Hw]].
  { apply (main_loop_invariant p (argv0 w)
             (fun s => fout_is_open s = fout_is_open entry /\ log_ok p s))
      with (fuel := fuel) (st := entry) (r := (c, st)); [|exact Hloop|].
    - intros s [Hso Hsl]. split; [|apply iteration_log_ok; assumption].
      rewrite <- Hso. unfold iteration.
      pose proof (read_window_frame p s) as F. cbv zeta in F.
      destruct (read_window p s) as [c1 s1]. cbn [snd] in F.
      destruct F as (_ & _ & _ & _ & Fo & _).
      destruct c1; cbn [snd]; try exact Fo.
      destruct (process_window_written p (argv0 w) Hts s1) as (_ & _ & _ & _ & _ & P5).
      rewrite P5. exact Fo.
    - split; [reflexivity|]. split.
      + rewrite E1, E2. destruct (fout_is_open entry); reflexivity.
      + rewrite E3. constructor. }
  rewrite Ho, E4 in Hf.
  destruct (epilogue_silent st) as (P1 & P2 & P3).
  destruct c; cbn [after_loop trace];
    rewrite ?file_of_app, ?records_of_app, ?engine_params_app, ?P1, ?P2, ?P3, ?app_nil_r;
    (split; [|exact Hw]);
    rewrite Hf; destruct (String.eqb (fname_out p) ""); reflexivity.
Qed.

(** X6.  Every call of the engine in an execution is made with the same
    parameters, those of lines 299-312, and no command line changes three
    of them: timestamps are on (no option assigns [no_timestamps]), the
    result is a single segment, progress printing by the engine is off. *)
Theorem engine_parameters_are_fixed (w : world) (p : whisper_params)
    (entry : loop_state) (fuel : nat) (r : run) :
  startup stof w = inr (p, entry) ->
  main stof w fuel = Some r ->
  Forall (fun wp => wp = wparams p) (engine_params (trace r))
  /\ WFull.print_timestamps (wparams p) = true
  /\ WFull.single_segment (wparams p) = true
  /\ WFull.print_progress (wparams p) = false
  /\ WFull.print_realtime (wparams p) = false.
Proof.
  intros Hs Hmain.
  destruct (main_log_ok w p entry fuel r Hs Hmain) as [_ Hw].
  destruct (startup_entry stof w p entry Hs) as (Hts & _).
  split; [exact Hw|]. cbn. rewrite Hts. repeat split; reflexivity.
Qed.

(** X7.  The output file mirrors the console: when [-f] names a file, what
    is written to it is, write by write, the sequence of records
    [[MM:SS.mmm --> MM:SS.mmm] text] printed on standard output (the progress
    lines are not copied); without [-f] nothing is written to any file. *)
Theorem file_mirrors_console_records (w : world) (p : whisper_params)
    (entry : loop_state) (fuel : nat) (r : run) :
  startup stof w = inr (p, entry) ->
  main stof w fuel = Some r ->
  file_of (trace r)
  = (if String.eqb (fname_out p) "" then [] else records_of (trace r)).
Proof.
  intros Hs Hmain. exact (proj1 (main_log_ok w p entry fuel r Hs Hmain)).
Qed.

End Output.

Lemma engine_parameters_are_fixed_witness :
  exists r,
    @startup Run.engine Fake.stof Run.step2_world
    = inr (Run.step2_params, Run.entry Run.step2_params 32 (Run.silence 300))
    /\ @main Run.engine Fake.stof Run.step2_world 5 = Some r
    /\ Forall (fun wp => wp = @wparams Run.engine Run.step2_params)
              (engine_params (trace r)).
Proof.
  eexists.
  assert (@startup Run.engine Fake.stof Run.step2_world
          = inr (Run.step2_params, Run.entry Run.step2_params 32 (Run.silence 300)))
    as H1 by (vm_compute; reflexivity).
  split; [exact H1|].
  split; [vm_compute; reflexivity|].
  refine (proj1 (@engine_parameters_are_fixed Run.engine Fake.stof Run.step2_world
                   Run.step2_params _ 5%nat _ H1 _)).
  vm_compute. reflexivity.
Defined.

Lemma file_mirrors_console_records_witness :
  exists r,
    @startup Run.engine Fake.stof More.sink_world = inr (More.sink_params, More.sink_entry)
    /\ @main Run.engine Fake.stof More.sink_world 5 = Some r
    /\ file_of (trace r) = records_of (trace r)
    /\ List.length (file_of (trace r)) = 2%nat.
Proof.
  eexists.
  assert (@startup Run.engine Fake.stof More.sink_world
          = inr (More.sink_params, More.sink_entry)) as H1 by (vm_compute; reflexivity).
  split; [exact H1|].
  split; [vm_compute; reflexivity|].
  split; [|vm_compute; reflexivity].
  refine (@file_mirrors_console_records Run.engine Fake.stof More.sink_world
            More.sink_params _ 5%nat _ H1 _).
  vm_compute. reflexivity.
Defined.

(** ** Whole executions in raw mode *)

Section RawRuns.

Context {API : WhisperAPI}.
Variable params : whisper_params.
Variable prog : string.

Hypothesis raw_mode : from_wav_file params = false.
Hypothesis engine_ok : always_succeeds API.

(** An iteration that finds a whole buffer on standard input. *)
Lemma raw_iteration_full (st : loop_state) :
  Istream.good (cin st) = true ->
  (List.length (pcmf32 st) * 4 <= List.length (Istream.unread (cin st)))%nat ->
  n_iter st <> INT_MAX ->
  exists st',
    iteration params prog st = (Next, st')
    /\ Istream.good (cin st') = true
    /\ Istream.unread (cin st')
       = skipn (List.length (pcmf32 st) * 4) (Istream.unread (cin st))
    /\ pcmf32 st'
       = floats_of_bytes (firstn (List.length (pcmf32 st) * 4) (Istream.unread (cin st)))
    /\ List.length (pcmf32 st') = List.length (pcmf32 st)
    /\ n_iter st' = n_iter st + 1
    /\ is_running st' = is_running st
    /\ engine_windows (log st') = engine_windows (log st) ++ [pcmf32 st'].
Proof.
  intros Hgood Hlen Hn.
  pose proof (read_window_length params st) as L. cbv zeta in L.
  destruct L as [Lraw _]. specialize (Lraw raw_mode).
  pose proof (read_window_frame params st) as F. cbv zeta in F.
  destruct F as (Fw & _ & _ & _ & _ & Fr & Fn).
  revert Lraw Fw Fr Fn.
  unfold iteration. rewrite (read_window_raw_eq params st raw_mode). cbv zeta.
  rewrite (read_full _ _ Hgood Hlen). cbn [Istream.eof Istream.eofbit snd].
  rewrite overwrite_full
    by (rewrite length_firstn, bytes_of_floats_length; apply Nat.min_l; exact Hlen).
  match goal with
  | |- context [process_window params prog ?s] => set (st1 := s)
  end.
  intros Lraw Fw Fr Fn.
  assert (n_iter st1 <> INT_MAX) as Hn1 by (rewrite Fn; exact Hn).
  rewrite (process_window_eq params prog st1 Hn1).
  pose proof (engine_ok (ctx st1) (wparams params) (pcmf32 st1)) as Hret.
  destruct (whisper_full (ctx st1) (wparams params) (pcmf32 st1)) as [ret ctx'].
  cbn [fst] in Hret. subst ret. cbn [Z.eqb].
  eexists. split; [reflexivity|].
  cbn [cin pcmf32 n_iter is_running log].
  split; [reflexivity|]. split; [reflexivity|]. split; [reflexivity|].
  split; [exact Lraw|]. split; [rewrite Fn; reflexivity|]. split; [exact Fr|].
  rewrite !engine_windows_app, engine_windows_call, engine_windows_segments.
  cbn [engine_windows]. rewrite app_nil_r, Fw. reflexivity.
Qed.

(** An iteration that finds less than a buffer. *)
Lemma raw_iteration_short (st : loop_state) :
  Istream.good (cin st) = true ->
  (List.length (Istream.unread (cin st)) < List.length (pcmf32 st) * 4)%nat ->
  exists st',
    iteration params prog st = (Break, st')
    /\ engine_windows (log st') = engine_windows (log st).
Proof.
  intros Hgood Hshort.
  pose proof (read_window_frame params st) as F. cbv zeta in F.
  destruct F as (Fw & _). revert Fw.
  unfold iteration. rewrite (read_window_raw_eq params st raw_mode). cbv zeta.
  unfold Istream.read. rewrite Hgood.
  apply Nat.ltb_lt in Hshort. rewrite Hshort.
  cbn [Istream.eof Istream.eofbit snd].
  intros Fw. eexists. split; [reflexivity | exact Fw].
Qed.

(** The loop on an input of [q] whole buffers and a shorter rest. *)
Lemma raw_loop (n : nat) (q : nat) :
  forall fuel st,
    (q < fuel)%nat ->
    Istream.good (cin st) = true ->
    is_running st = true ->
    List.length (pcmf32 st) = n ->
    (q * (n * 4) <= List.length (Istream.unread (cin st)) < S q * (n * 4))%nat ->
    n_iter st + Z.of_nat q <= INT_MAX ->
    exists st',
      main_loop params prog fuel st = Some (Break, st')
      /\ engine_windows (log st')
         = engine_windows (log st)
           ++ map floats_of_bytes (windows_of q (n * 4) 0 (Istream.unread (cin st))).
Proof.
  induction q as [|q IH]; intros fuel st Hfuel Hgood Hrun Hbuf Hlen Hn;
    (destruct fuel as [|fuel]; [lia|]); cbn [main_loop]; rewrite Hrun.
  - destruct (raw_iteration_short st Hgood) as (st' & Hit & Hw); [rewrite Hbuf; lia|].
    rewrite Hit. exists st'. split; [reflexivity|].
    cbn [windows_of map]. rewrite app_nil_r. exact Hw.
  - destruct (raw_iteration_full st Hgood) as (st1 & Hit & Hg1 & Hu1 & Hp1 & Hl1 & Hn1 & Hr1 & Hw1);
      [rewrite Hbuf; lia | lia |].
    rewrite Hit.
    assert (is_running st1 = true) as A1 by (rewrite Hr1; exact Hrun).
    assert (List.length (pcmf32 st1) = n) as A2 by (rewrite Hl1; exact Hbuf).
    assert (q * (n * 4) <= List.length (Istream.unread (cin st1)) < S q * (n * 4))%nat
      as A3 by (rewrite Hu1, length_skipn, Hbuf; lia).
    assert (n_iter st1 + Z.of_nat q <= INT_MAX) as A4 by lia.
    destruct (IH fuel st1 ltac:(lia) Hg1 A1 A2 A3 A4) as (st' & Hloop & Hw).
    exists st'. split; [exact Hloop|].
    rewrite Hw, Hw1, Hu1, Hp1, Hbuf, <- app_assoc. reflexivity.
Qed.

End RawRuns.

(** X8.  In raw mode, with a step of at least one sample and an engine none
    of whose calls fails, an execution recognises exactly the consecutive
    whole buffers of standard input, each of [4 * n_samples_step] bytes, in
    order, without gap or overlap; the rest that is shorter than a buffer is
    dropped, and [main] returns 0.  The number of whole buffers is at most
    [INT_MAX], the largest value of the iteration counter [n_iter]; the
    length of standard input is not bounded otherwise. *)
Theorem raw_run_recognises_whole_buffers {API : WhisperAPI}
    (stof : string -> stox Float32.t) (w : world) (p : whisper_params)
    (entry : loop_state) (n : Z) (fuel : nat) :
  startup stof w = inr (p, entry) ->
  from_wav_file p = false ->
  n_samples_step_of WHISPER_SAMPLE_RATE (step_ms p) = Some n ->
  0 < n ->
  always_succeeds API ->
  Z.of_nat (List.length (stdin w) / (Z.to_nat n * 4)) <= INT_MAX ->
  (List.length (stdin w) / (Z.to_nat n * 4) < fuel)%nat ->
  exists r,
    main stof w fuel = Some r
    /\ result r = Exit 0
    /\ engine_windows (trace r)
       = map floats_of_bytes
           (windows_of (List.length (stdin w) / (Z.to_nat n * 4)) (Z.to_nat n * 4) 0
                       (stdin w)).
Proof.
  intros Hs Hraw Hn Hpos Hok Hsmall Hfuel.
  destruct (startup_inr stof w p entry Hs)
    as (_ & n' & x & is_open & l & Hn' & _ & _ & -> & Hl & _).
  rewrite Hn in Hn'. injection Hn' as <-.
  set (size := (Z.to_nat n * 4)%nat) in *.
  assert (size <> 0)%nat as Hsize by (unfold size; lia).
  pose proof (Nat.div_mod (List.length (stdin w)) size Hsize) as Hdm.
  pose proof (Nat.mod_upper_bound (List.length (stdin w)) size Hsize) as Hmod.
  destruct (raw_loop p (argv0 w) Hraw Hok (Z.to_nat n) (List.length (stdin w) / size)
              fuel (loop_entry (Istream.of_bytes (stdin w)) x n is_open l))
    as (st' & Hloop & Hw); try reflexivity.
  - exact Hfuel.
  - cbn [loop_entry pcmf32]. apply repeat_length.
  - cbn [loop_entry cin Istream.of_bytes Istream.unread]. fold size. nia.
  - cbn [loop_entry n_iter]. lia.
  - unfold main. rewrite Hs, Hloop. eexists. split; [reflexivity|].
    split; [reflexivity|].
    rewrite after_loop_windows. cbn [snd]. rewrite Hw.
    cbn [loop_entry log cin Istream.of_bytes Istream.unread].
    rewrite engine_windows_app, Hl. reflexivity.
Qed.

Lemma run_engine_always_succeeds : always_succeeds Run.engine.
Proof. intros c wp samples. reflexivity. Qed.

Lemma raw_run_recognises_whole_buffers_witness :
  exists r,
    @main Run.engine Fake.stof Run.step2_world 5 = Some r
    /\ result r = Exit 0
    /\ engine_windows (trace r) = [repeat 0 32; repeat 0 32].
Proof.
  assert (@startup Run.engine Fake.stof Run.step2_world
          = inr (Run.step2_params, Run.entry Run.step2_params 32 (Run.silence 300)))
    as H1 by (vm_compute; reflexivity).
  assert (from_wav_file Run.step2_params = false) as H2 by reflexivity.
  assert (n_samples_step_of SAMPLE_RATE_16K (step_ms Run.step2_params) = Some 32) as H3
    by (vm_compute; reflexivity).
  assert (0 < 32) as H4 by lia.
  assert (Z.of_nat (List.length (stdin Run.step2_world) / (Z.to_nat 32 * 4)) <= INT_MAX)
    as H5 by (vm_compute; discriminate).
  assert (List.length (stdin Run.step2_world) / (Z.to_nat 32 * 4) < 5)%nat as H6
    by (vm_compute; lia).
  destruct (@raw_run_recognises_whole_buffers Run.engine Fake.stof Run.step2_world
              Run.step2_params _ 32 5%nat H1 H2 H3 H4 run_engine_always_succeeds H5 H6)
    as (r & Hmain & Hres & Hw).
  exists r. split; [exact Hmain|]. split; [exact Hres|].
  rewrite Hw. vm_compute. reflexivity.
Defined.

(** ** Whole executions in wav mode *)

Section WavRuns.

Context {API : WhisperAPI}.
Variable params : whisper_params.
Variable prog : string.
Variable n_samples : Z.

Hypothesis wav_mode : from_wav_file params = true.
Hypothesis wav_buffer : n_samples_wav WHISPER_SAMPLE_RATE = Some n_samples.
Hypothesis buffer_not_empty : 0 < n_samples.
Hypothesis engine_ok : always_succeeds API.

Let n : nat := Z.to_nat n_samples.

(** An iteration that finds 44 bytes and a whole buffer. *)
Lemma wav_iteration_full (st : loop_state) :
  Istream.good (cin st) = true ->
  (44 + n * 2 <= List.length (Istream.unread (cin st)))%nat ->
  n_iter st <> INT_MAX ->
  exists st',
    iteration params prog st = (Next, st')
    /\ Istream.good (cin st') = true
    /\ Istream.unread (cin st') = skipn (44 + n * 2) (Istream.unread (cin st))
    /\ n_iter st' = n_iter st + 1
    /\ is_running st' = is_running st
    /\ engine_windows (log st')
       = engine_windows (log st)
         ++ [map sample_to_float
               (int16s_of_bytes (firstn (n * 2) (skipn 44 (Istream.unread (cin st)))))].
Proof.
  intros Hgood Hlen Hn.
  pose proof (read_window_frame params st) as F. cbv zeta in F.
  destruct F as (Fw & _ & _ & _ & _ & Fr & Fn). revert Fw Fr Fn.
  unfold iteration.
  rewrite (read_window_wav_eq params st wav_mode). unfold readWavStreamAsFloats.
  rewrite wav_buffer. fold n. unfold Istream.ignore. rewrite Hgood.
  replace (List.length (Istream.unread (cin st)) <? 44)%nat with false
    by (symmetry; apply Nat.ltb_ge; lia).
  rewrite read_full; [|reflexivity | cbn [Istream.unread]; rewrite length_skipn; lia].
  cbn [Istream.unread Istream.gcount Istream.eof Istream.eofbit].
  replace (n * 2 =? 0)%nat with false by (symmetry; apply Nat.eqb_neq; unfold n; lia).
  rewrite overwrite_full
    by (rewrite length_firstn, repeat_length, length_skipn; apply Nat.min_l; lia).
  cbn [Istream.eof Istream.eofbit].
  match goal with
  | |- context [process_window params prog ?s] => set (st1 := s)
  end.
  cbn [snd]. intros Fw Fr Fn.
  assert (n_iter st1 <> INT_MAX) as Hn1 by (rewrite Fn; exact Hn).
  rewrite (process_window_eq params prog st1 Hn1).
  pose proof (engine_ok (ctx st1) (wparams params) (pcmf32 st1)) as Hret.
  destruct (whisper_full (ctx st1) (wparams params) (pcmf32 st1)) as [ret ctx'].
  cbn [fst] in Hret. subst ret. cbn [Z.eqb].
  eexists. split; [reflexivity|].
  cbn [cin pcmf32 n_iter is_running log].
  split; [reflexivity|].
  split; [subst st1; cbn [cin Istream.unread]; rewrite skipn_skipn; f_equal; lia|].
  split; [rewrite Fn; reflexivity|]. split; [exact Fr|].
  rewrite !engine_windows_app, engine_windows_call, engine_windows_segments.
  cbn [engine_windows]. rewrite app_nil_r, Fw. reflexivity.
Qed.

(** An iteration that finds more than 44 bytes and less than a buffer after
    them. *)
Lemma wav_iteration_short (st : loop_state) :
  Istream.good (cin st) = true ->
  (44 < List.length (Istream.unread (cin st)) < 44 + n * 2)%nat ->
  exists st',
    iteration params prog st = (Break, st')
    /\ engine_windows (log st') = engine_windows (log st).
Proof.
  intros Hgood Hlen.
  pose proof (read_window_frame params st) as F. cbv zeta in F.
  destruct F as (Fw & _). revert Fw.
  unfold iteration.
  rewrite (read_window_wav_eq params st wav_mode). unfold readWavStreamAsFloats.
  rewrite wav_buffer. fold n. unfold Istream.ignore. rewrite Hgood.
  replace (List.length (Istream.unread (cin st)) <? 44)%nat with false
    by (symmetry; apply Nat.ltb_ge; lia).
  unfold Istream.read, Istream.good.
  cbn [Istream.eofbit Istream.failbit Istream.unread negb andb].
  rewrite length_skipn.
  replace (List.length (Istream.unread (cin st)) - 44 <? n * 2)%nat with true
    by (symmetry; apply Nat.ltb_lt; lia).
  cbn [Istream.gcount Istream.eof Istream.eofbit].
  replace (Nat.min (n * 2) (List.length (Istream.unread (cin st)) - 44) =? 0)%nat
    with false by (symmetry; apply Nat.eqb_neq; lia).
  cbn [snd]. intros Fw. eexists. split; [reflexivity | exact Fw].
Qed.

(** An iteration that finds no byte after the 44 it skips. *)
Lemma wav_iteration_empty (st : loop_state) :
  (List.length (Istream.unread (cin st)) <= 44)%nat ->
  exists st',
    iteration params prog st = (Throw wav_error, st')
    /\ engine_windows (log st') = engine_windows (log st).
Proof.
  intros Hlen.
  pose proof (nothing_after_header n_samples (cin st) Hlen) as Hzero.
  pose proof (read_window_frame params st) as F. cbv zeta in F.
  destruct F as (Fw & _). revert Fw.
  unfold iteration.
  rewrite (read_window_wav_eq params st wav_mode). unfold readWavStreamAsFloats.
  rewrite wav_buffer.
  destruct (Istream.read (Z.to_nat n_samples * 2) (Istream.ignore 44 (cin st)))
    as [got c2].
  cbn [snd] in Hzero. rewrite Hzero. cbn [Nat.eqb snd].
  intros Fw. eexists. split; [reflexivity | exact Fw].
Qed.

(** The loop on an input of [q] headers and buffers and a shorter rest. *)
Lemma wav_loop (q : nat) :
  forall fuel st,
    (q < fuel)%nat ->
    Istream.good (cin st) = true ->
    is_running st = true ->
    (q * (44 + n * 2) <= List.length (Istream.unread (cin st)) < S q * (44 + n * 2))%nat ->
    n_iter st + Z.of_nat q <= INT_MAX ->
    exists st',
      main_loop params prog fuel st
      = Some (if (List.length (Istream.unread (cin st)) - q * (44 + n * 2) <=? 44)%nat
              then Throw wav_error else Break, st')
      /\ engine_windows (log st')
         = engine_windows (log st)
           ++ map (fun c => map sample_to_float (int16s_of_bytes c))
                  (windows_of q (n * 2) 44 (Istream.unread (cin st))).
Proof.
  induction q as [|q IH]; intros fuel st Hfuel Hgood Hrun Hlen Hn;
    (destruct fuel as [|fuel]; [lia|]).
  - rewrite Nat.sub_0_r. cbn [windows_of map]. rewrite app_nil_r.
    destruct (List.length (Istream.unread (cin st)) <=? 44)%nat eqn:E.
    + apply Nat.leb_le in E.
      destruct (wav_iteration_empty st E) as (st' & Hit & Hw).
      cbn [main_loop]. rewrite Hrun, Hit. exists st'. split; [reflexivity | exact Hw].
    + apply Nat.leb_gt in E.
      destruct (wav_iteration_short st Hgood) as (st' & Hit & Hw); [lia|].
      cbn [main_loop]. rewrite Hrun, Hit. exists st'. split; [reflexivity | exact Hw].
  - destruct (wav_iteration_full st Hgood) as (st1 & Hit & Hg1 & Hu1 & Hn1 & Hr1 & Hw1);
      [lia | lia |].
    cbn [main_loop]. rewrite Hrun, Hit.
    assert (is_running st1 = true) as A1 by (rewrite Hr1; exact Hrun).
    assert (q * (44 + n * 2) <= List.length (Istream.unread (cin st1))
            < S q * (44 + n * 2))%nat as A3 by (rewrite Hu1, length_skipn; lia).
    assert (n_iter st1 + Z.of_nat q <= INT_MAX) as A4 by lia.
    destruct (IH fuel st1 ltac:(lia) Hg1 A1 A3 A4) as (st' & Hloop & Hw).
    exists st'. split.
    + rewrite Hloop. rewrite Hu1, length_skipn.
      replace (List.length (Istream.unread (cin st)) - (44 + n * 2) - q * (44 + n * 2))%nat
        with (List.length (Istream.unread (cin st)) - S q * (44 + n * 2))%nat by lia.
      reflexivity.
    + rewrite Hw, Hw1, Hu1, <- app_assoc. reflexivity.
Qed.

End WavRuns.

(** X9.  In wav mode, with an engine none of whose calls fails, an
    execution recognises one window for every whole stride of
    [44 + 2 * n] bytes of standard input ([n] the buffer size in samples),
    made of the last [2 * n] bytes of the stride.  It returns 0 only when
    more than 44 bytes are left after the last whole stride; otherwise, and
    so on every input made of whole strides, it is terminated by the
    exception of [readWavStreamAsFloats].  The number of whole strides is
    at most [INT_MAX], the largest value of the iteration counter [n_iter];
    the length of standard input is not bounded otherwise. *)
Theorem wav_run_recognises_strides {API : WhisperAPI}
    (stof : string -> stox Float32.t) (w : world) (p : whisper_params)
    (entry : loop_state) (n : Z) (fuel : nat) :
  startup stof w = inr (p, entry) ->
  from_wav_file p = true ->
  n_samples_wav WHISPER_SAMPLE_RATE = Some n ->
  0 < n ->
  always_succeeds API ->
  Z.of_nat (List.length (stdin w) / (44 + Z.to_nat n * 2)) <= INT_MAX ->
  (List.length (stdin w) / (44 + Z.to_nat n * 2) < fuel)%nat ->
  exists r,
    main stof w fuel = Some r
    /\ result r
       = (if (List.length (stdin w) mod (44 + Z.to_nat n * 2) <=? 44)%nat
          then Terminate wav_error else Exit 0)
    /\ engine_windows (trace r)
       = map (fun c => map sample_to_float (int16s_of_bytes c))
           (windows_of (List.length (stdin w) / (44 + Z.to_nat n * 2))
                       (Z.to_nat n * 2) 44 (stdin w)).
Proof.
  intros Hs Hwav Hn Hpos Hok Hsmall Hfuel.
  destruct (startup_inr stof w p entry Hs)
    as (_ & n' & x & is_open & l & _ & _ & _ & -> & Hl & _).
  set (stride := (44 + Z.to_nat n * 2)%nat) in *.
  assert (stride <> 0)%nat as Hstride by (unfold stride; lia).
  pose proof (Nat.div_mod (List.length (stdin w)) stride Hstride) as Hdm.
  pose proof (Nat.mod_upper_bound (List.length (stdin w)) stride Hstride) as Hmod.
  destruct (wav_loop p (argv0 w) n Hwav Hn Hpos Hok (List.length (stdin w) / stride)
              fuel (loop_entry (Istream.of_bytes (stdin w)) x n' is_open l))
    as (st' & Hloop & Hw); try reflexivity.
  - exact Hfuel.
  - cbn [loop_entry cin Istream.of_bytes Istream.unread]. fold stride. nia.
  - cbn [loop_entry n_iter]. lia.
  - unfold main. rewrite Hs, Hloop. eexists. split; [reflexivity|].
    cbn [loop_entry cin Istream.of_bytes Istream.unread] in *. fold stride.
    replace (List.length (stdin w) - List.length (stdin w) / stride * stride)%nat
      with (List.length (stdin w) mod stride)%nat by nia.
    split.
    + destruct (List.length (stdin w) mod stride <=? 44)%nat; reflexivity.
    + rewrite after_loop_windows. cbn [snd]. rewrite Hw.
      cbn [loop_entry log]. rewrite engine_windows_app, Hl. reflexivity.
Qed.

Lemma slow_engine_always_succeeds : always_succeeds Run.slow_engine.
Proof. intros c wp samples. reflexivity. Qed.

Lemma wav_run_recognises_strides_witness :
  exists r,
    @main Run.slow_engine Fake.stof slow_wav_world 5 = Some r
    /\ result r = Terminate wav_error
    /\ List.length (engine_windows (trace r)) = 2%nat.
Proof.
  assert (@startup Run.slow_engine Fake.stof slow_wav_world
          = inr (Run.wav_params, Run.slow_wav_entry (Run.silence 450)))
    as H1 by (vm_compute; reflexivity).
  assert (from_wav_file Run.wav_params = true) as H2 by reflexivity.
  assert (n_samples_wav 8 = Some 80) as H3 by (vm_compute; reflexivity).
  assert (0 < 80) as H4 by lia.
  assert (Z.of_nat (List.length (stdin slow_wav_world) / (44 + Z.to_nat 80 * 2)) <= INT_MAX)
    as H5 by (vm_compute; discriminate).
  assert (List.length (stdin slow_wav_world) / (44 + Z.to_nat 80 * 2) < 5)%nat as H6
    by (vm_compute; lia).
  destruct (@wav_run_recognises_strides Run.slow_engine Fake.stof slow_wav_world
              Run.wav_params _ 80 5%nat H1 H2 H3 H4 slow_engine_always_succeeds H5 H6)
    as (r & Hmain & Hres & Hw).
  exists r. split; [exact Hmain|]. split.
  - rewrite Hres. vm_compute. reflexivity.
  - rewrite Hw. vm_compute. reflexivity.
Defined.

(** ** Numbers *)

(** A boolean test that holds on every element of a range holds on every
    integer of the interval. *)
Lemma Z_range_forallb (f : Z -> bool) (lo n : Z) :
  forallb f (Z_range lo n) = true ->
  forall z, lo <= z < lo + n -> f z = true.
Proof.
  intros H z Hz. rewrite forallb_forall in H. apply H. clear H.
  unfold Z_range.
  assert (forall k lo', lo' <= z < lo' + Z.of_nat k -> In z (Z_upto lo' k)) as Hin.
  { induction k as [|k IH]; intros lo' Hk; [lia|].
    cbn [Z_upto]. destruct (Z.eq_dec lo' z) as [->|Hne]; [left; reflexivity|].
    right. apply IH. lia. }
  apply Hin. lia.
Qed.

Lemma to_int16_range (z : Z) : - 32768 <= to_int16 z < 32768.
Proof.
  unfold to_int16. pose proof (Z.mod_pos_bound (z + 2 ^ 15) (2 ^ 16) ltac:(lia)). lia.
Qed.

Lemma int16s_of_bytes_range (n : nat) :
  forall bs, (List.length bs <= n)%nat ->
             Forall (fun s => - 32768 <= s < 32768) (int16s_of_bytes bs).
Proof.
  induction n as [|n IH]; intros bs Hn.
  - destruct bs; [constructor | cbn in Hn; lia].
  - destruct bs as [|b0 [|b1 r]]; try constructor.
    + apply to_int16_range.
    + apply IH. cbn [List.length] in Hn. lia.
Qed.

Lemma sample_to_float_exact (s : Z) :
  - 32768 <= s < 32768 -> times_2_15 (sample_to_float s) = Some s.
Proof.
  intros Hs.
  assert (forallb (fun s => match times_2_15 (sample_to_float s) with
                            | Some v => v =? s
                            | None => false
                            end) (Z_range (- 32768) 65536) = true) as H
    by (vm_compute; reflexivity).
  pose proof (Z_range_forallb _ _ _ H s ltac:(lia)) as E. cbv beta in E.
  destruct (times_2_15 (sample_to_float s)) as [v|]; [|discriminate].
  apply Z.eqb_eq in E. subst v. reflexivity.
Qed.

(** X10.  The conversion of [readWavStreamAsFloats] loses nothing: every
    float it produces from the 16-bit samples of its buffer is exactly the
    sample divided by 32768 (no rounding takes place), so it lies in
    [-1, 1), and distinct samples give distinct floats. *)
Theorem wav_samples_are_exact (bs : list byte) :
  map times_2_15 (map sample_to_float (int16s_of_bytes bs))
  = map Some (int16s_of_bytes bs)
  /\ Forall (fun s => - 32768 <= s < 32768) (int16s_of_bytes bs).
Proof.
  pose proof (int16s_of_bytes_range (List.length bs) bs (Nat.le_refl _)) as R.
  split; [|exact R].
  induction R as [|s l Hs _ IH]; [reflexivity|].
  cbn [map]. rewrite IH, (sample_to_float_exact s Hs). reflexivity.
Qed.

(** X11.  At 16 kHz the step size of line 236 is exactly 16 samples per
    millisecond for every step from 0 to 4006 ms, the default of 3000 ms
    included; for the steps up to 30 s it is that number or one sample
    less. *)
Theorem step_size_is_nearly_exact (step : Z) :
  0 <= step <= 30000 ->
  (step <= 4006 -> n_samples_step_of SAMPLE_RATE_16K step = Some (16 * step))
  /\ (n_samples_step_of SAMPLE_RATE_16K step = Some (16 * step)
      \/ n_samples_step_of SAMPLE_RATE_16K step = Some (16 * step - 1)).
Proof.
  intros Hs.
  assert (forallb (fun s => match n_samples_step_of SAMPLE_RATE_16K s with
                            | Some v => ((v =? 16 * s) || ((v =? 16 * s - 1) && (4006 <? s)))
                            | None => false
                            end) (Z_range 0 30001) = true) as H
    by (vm_compute; reflexivity).
  pose proof (Z_range_forallb _ _ _ H step ltac:(lia)) as E. cbv beta in E.
  destruct (n_samples_step_of SAMPLE_RATE_16K step) as [v|]; [|discriminate].
  apply orb_true_iff in E. destruct E as [E|E].
  - apply Z.eqb_eq in E. subst v. split; [reflexivity | left; reflexivity].
  - apply andb_true_iff in E. destruct E as [E1 E2].
    apply Z.eqb_eq in E1. apply Z.ltb_lt in E2. subst v.
    split; [lia | right; reflexivity].
Qed.

Lemma step_size_is_nearly_exact_witness :
  0 <= 3000 <= 30000
  /\ n_samples_step_of SAMPLE_RATE_16K 3000 = Some (16 * 3000).
Proof.
  assert (0 <= 3000 <= 30000) as H by lia.
  split; [exact H|].
  exact (proj1 (step_size_is_nearly_exact 3000 H) ltac:(lia)).
Defined.

(** ** The shape of a timestamp *)

Lemma two_digits (z : Z) :
  0 <= z < 100 ->
  fmt_0d 2 z = String (digit_char (z / 10)) (String (digit_char (z mod 10)) "").
Proof.
  intros Hz.
  assert (forallb (fun z => String.eqb (fmt_0d 2 z)
                              (String (digit_char (z / 10))
                                      (String (digit_char (z mod 10)) "")))
                  (Z_range 0 100) = true) as H by (vm_compute; reflexivity).
  apply String.eqb_eq. exact (Z_range_forallb _ _ _ H z ltac:(lia)).
Qed.

Lemma three_digits (z : Z) :
  0 <= z < 100 ->
  fmt_0d 3 z
  = String "0" (String (digit_char (z / 10)) (String (digit_char (z mod 10)) "")).
Proof.
  intros Hz.
  assert (forallb (fun z => String.eqb (fmt_0d 3 z)
                              (String "0" (String (digit_char (z / 10))
                                                  (String (digit_char (z mod 10)) ""))))
                  (Z_range 0 100) = true) as H by (vm_compute; reflexivity).
  apply String.eqb_eq. exact (Z_range_forallb _ _ _ H z ltac:(lia)).
Qed.

(** X12.  For the ticks of the first 100 minutes a timestamp has exactly
    nine characters, [MM:SS.0HH]: two digits of minutes, two of seconds,
    and, in the three-digit field after the point, a zero followed by the
    two digits of the hundredths of a second.  The field after the point
    therefore never shows more than [.099]. *)
Theorem timestamp_shape (t : Z) :
  0 <= t < 600000 ->
  let m := t / 6000 in
  let s := (t / 100) mod 60 in
  let h := t mod 100 in
  to_timestamp t
  = String (digit_char (m / 10)) (String (digit_char (m mod 10))
      (String ":"
        (String (digit_char (s / 10)) (String (digit_char (s mod 10))
          (String "."
            (String "0" (String (digit_char (h / 10)) (String (digit_char (h mod 10))
              "")))))))).
Proof.
  intros Ht. cbv zeta.
  rewrite to_timestamp_fields by lia.
  rewrite (two_digits (t / 6000))
    by (split; [apply Z.div_pos; lia | apply Z.div_lt_upper_bound; lia]).
  rewrite (two_digits ((t / 100) mod 60))
    by (pose proof (Z.mod_pos_bound (t / 100) 60); lia).
  rewrite (three_digits (t mod 100))
    by (pose proof (Z.mod_pos_bound t 100); lia).
  reflexivity.
Qed.

Lemma timestamp_shape_witness :
  0 <= 6134 < 600000 /\ to_timestamp 6134 = "01:01.034"%string.
Proof.
  assert (0 <= 6134 < 600000) as H by lia.
  split; [exact H|].
  exact (timestamp_shape 6134 H).
Defined.

(** ** Steps that are not positive *)

Lemma negative_step_size (step : Z) :
  - 4006 <= step < 0 -> n_samples_step_of SAMPLE_RATE_16K step = Some (16 * step).
Proof.
  intros Hs.
  assert (forallb (fun s => match n_samples_step_of SAMPLE_RATE_16K s with
                            | Some v => v =? 16 * s
                            | None => false
                            end) (Z_range (- 4006) 4006) = true) as H
    by (vm_compute; reflexivity).
  pose proof (Z_range_forallb _ _ _ H step ltac:(lia)) as E. cbv beta in E.
  destruct (n_samples_step_of SAMPLE_RATE_16K step) as [v|]; [|discriminate].
  apply Z.eqb_eq in E. subst v. reflexivity.
Qed.

(** X14.  At 16 kHz a negative step (down to -4006 ms) gives a negative
    buffer size: the process loads the model and is then terminated by
    [std::length_error] from the constructor of [pcmf32]; the engine is not
    freed, no sink is opened and nothing is read. *)
Theorem negative_step_terminates {API : WhisperAPI} (stof : string -> stox Float32.t)
    (w : world) (p : whisper_params) (x : whisper_context) (fuel : nat) :
  WHISPER_SAMPLE_RATE = SAMPLE_RATE_16K ->
  whisper_params_parse stof (argv0 w) (args w)
    (default_params (hardware_concurrency w)) = ParseReturn true p ->
  - 4006 <= step_ms p < 0 ->
  whisper_init_from_file_with_params (model p) (use_gpu p) = Some x ->
  main stof w fuel
  = Some (mk_run (Terminate "std::length_error")
            [hello;
             Stdout (endl "Parsed parameters successfully.");
             Stdout (endl "Initializing Whisper context...");
             InitCtx (model p) (use_gpu p) true;
             Stdout (endl "Whisper context initialized successfully.")]
            (Istream.of_bytes (stdin w))).
Proof.
  intros Hrate Hp Hstep Hinit.
  unfold main, startup. rewrite Hp, Hrate, (negative_step_size _ Hstep), Hinit.
  replace (16 * step_ms p <? 0) with true by (symmetry; apply Z.ltb_lt; lia).
  reflexivity.
Qed.

Lemma negative_step_terminates_witness :
  whisper_params_parse Fake.stof "stream-rt" ["--step"; "-5"]%string (default_params 8)
  = ParseReturn true negative_step_params
  /\ - 4006 <= step_ms negative_step_params < 0
  /\ option_map result (@main Run.engine Fake.stof negative_step_world 5)
     = Some (Terminate "std::length_error").
Proof.
  assert (whisper_params_parse Fake.stof "stream-rt" ["--step"; "-5"]%string
            (default_params 8) = ParseReturn true negative_step_params) as H1
    by (vm_compute; reflexivity).
  assert (- 4006 <= step_ms negative_step_params < 0) as H2 by (cbn; lia).
  split; [exact H1|]. split; [exact H2|].
  rewrite (@negative_step_terminates Run.engine Fake.stof negative_step_world
             negative_step_params (O, None) 5%nat eq_refl H1 H2 eq_refl).
  reflexivity.
Defined.

Section ZeroStep.

Context {API : WhisperAPI}.
Variable params : whisper_params.
Variable prog : string.

Hypothesis raw_mode : from_wav_file params = false.
Hypothesis engine_ok : always_succeeds API.

(** With an empty buffer every iteration reaches its end and takes nothing
    from standard input, so the loop is still running after any number of
    iterations the counter can count. *)
Lemma zero_step_loop (fuel : nat) :
  forall st,
    Istream.good (cin st) = true ->
    is_running st = true ->
    pcmf32 st = [] ->
    n_iter st + Z.of_nat fuel <= INT_MAX ->
    main_loop params prog fuel st = None
    /\ exists st',
        after_iterations params prog fuel st = Some st'
        /\ Istream.unread (cin st') = Istream.unread (cin st)
        /\ engine_windows (log st') = engine_windows (log st) ++ repeat [] fuel.
Proof.
  induction fuel as [|fuel IH]; intros st Hgood Hrun Hbuf Hn.
  - cbn [main_loop after_iterations repeat]. rewrite Hrun. split; [reflexivity|].
    exists st. rewrite app_nil_r. repeat split; reflexivity.
  - destruct (raw_iteration_full params prog raw_mode engine_ok st Hgood)
      as (st1 & Hit & Hg1 & Hu1 & Hp1 & Hl1 & Hn1 & Hr1 & Hw1);
      [rewrite Hbuf; cbn; lia | lia |].
    rewrite Hbuf in Hu1, Hp1, Hl1. cbn [List.length Nat.mul skipn firstn] in Hu1, Hp1, Hl1.
    assert (pcmf32 st1 = []) as Hb1 by (destruct (pcmf32 st1); [reflexivity | discriminate]).
    destruct (IH st1 Hg1 ltac:(rewrite Hr1; exact Hrun) Hb1 ltac:(lia))
      as (Hnone & st' & Hk & Hu & Hw).
    cbn [main_loop after_iterations]. rewrite Hrun, Hit. split; [exact Hnone|].
    exists st'. split; [exact Hk|]. split; [rewrite Hu; exact Hu1|].
    rewrite Hw, Hw1, Hb1, <- app_assoc. reflexivity.
Qed.

End ZeroStep.

(** X15.  In raw mode a step of zero samples makes a loop that never reads:
    with an engine none of whose calls fails, every iteration recognises an
    empty window and leaves standard input as it is, and the loop is still
    running after any number of iterations up to [INT_MAX]. *)
Theorem zero_step_never_reads {API : WhisperAPI} (stof : string -> stox Float32.t)
    (w : world) (p : whisper_params) (entry : loop_state) (fuel : nat) :
  startup stof w = inr (p, entry) ->
  from_wav_file p = false ->
  n_samples_step_of WHISPER_SAMPLE_RATE (step_ms p) = Some 0 ->
  always_succeeds API ->
  Z.of_nat fuel <= INT_MAX ->
  main stof w fuel = None
  /\ exists st,
      after_iterations p (argv0 w) fuel entry = Some st
      /\ Istream.unread (cin st) = stdin w
      /\ engine_windows (log st) = repeat [] fuel.
Proof.
  intros Hs Hraw Hn Hok Hfuel.
  destruct (startup_inr stof w p entry Hs)
    as (_ & n' & x & is_open & l & Hn' & _ & _ & -> & Hl & _).
  rewrite Hn in Hn'. injection Hn' as <-.
  destruct (zero_step_loop p (argv0 w) Hraw Hok fuel
              (loop_entry (Istream.of_bytes (stdin w)) x 0 is_open l))
    as (Hnone & st & Hk & Hu & Hw); try reflexivity.
  - cbn [loop_entry n_iter]. lia.
  - split.
    + unfold main. rewrite Hs, Hnone. reflexivity.
    + exists st. split; [exact Hk|]. split; [exact Hu|].
      rewrite Hw. cbn [loop_entry log]. rewrite engine_windows_app, Hl. reflexivity.
Qed.

Lemma zero_step_never_reads_witness :
  @startup Run.engine Fake.stof zero_step_world
  = inr (zero_step_params, Run.entry zero_step_params 0 (Run.silence 300))
  /\ n_samples_step_of SAMPLE_RATE_16K (step_ms zero_step_params) = Some 0
  /\ Z.of_nat 7 <= INT_MAX
  /\ @main Run.engine Fake.stof zero_step_world 7 = None.
Proof.
  assert (@startup Run.engine Fake.stof zero_step_world
          = inr (zero_step_params, Run.entry zero_step_params 0 (Run.silence 300)))
    as H1 by (vm_compute; reflexivity).
  assert (n_samples_step_of SAMPLE_RATE_16K (step_ms zero_step_params) = Some 0) as H2
    by (vm_compute; reflexivity).
  assert (Z.of_nat 7 <= INT_MAX) as H3 by (vm_compute; discriminate).
  split; [exact H1|]. split; [exact H2|]. split; [exact H3|].
  exact (proj1 (@zero_step_never_reads Run.engine Fake.stof zero_step_world
                  zero_step_params _ 7%nat H1 eq_refl H2
                  run_engine_always_succeeds H3)).
Defined.

(** ** Witnesses of the statements on the parser and the start-up *)

Lemma exit_codes_are_0_2_3_witness :
  option_map result (@main Run.engine Fake.stof Run.unwritable_world 10) = Some (Exit 3)
  /\ (3 = 0 \/ 3 = 2 \/ 3 = 3).
Proof.
  assert (option_map result (@main Run.engine Fake.stof Run.unwritable_world 10)
          = Some (Exit 3)) as H by (vm_compute; reflexivity).
  split; [exact H|].
  exact (@exit_codes_are_0_2_3 Run.engine Fake.stof Run.unwritable_world 10%nat 3 H).
Defined.

Lemma parser_is_left_to_right_witness :
  whisper_params_parse Fake.stof "stream-rt" ["--step"; "7"; "-kc"]%string (default_params 8)
  = ParseReturn true (Set_.no_context false (Set_.step_ms 7 (default_params 8)))
  /\ whisper_params_parse Fake.stof "stream-rt"
       (["--step"; "7"; "-kc"]%string ++ ["--step"; "2"]%string) (default_params 8)
     = ParseReturn true
         (Set_.step_ms 2 (Set_.no_context false (Set_.step_ms 7 (default_params 8)))).
Proof.
  assert (whisper_params_parse Fake.stof "stream-rt" ["--step"; "7"; "-kc"]%string
            (default_params 8)
          = ParseReturn true (Set_.no_context false (Set_.step_ms 7 (default_params 8))))
    as H by (vm_compute; reflexivity).
  split; [exact H|].
  apply (proj2 (parser_is_left_to_right Fake.stof "stream-rt" _
                  ["--step"; "2"]%string _ _ H)).
  vm_compute. reflexivity.
Defined.

Lemma missing_value_is_undefined_witness :
  whisper_params_parse Fake.stof "stream-rt" ["-kc"%string] (default_params 8)
  = ParseReturn true (Set_.no_context false (default_params 8))
  /\ In "--step"%string value_options
  /\ option_map result (@main Run.engine Fake.stof missing_value_world 5) = Some Undefined.
Proof.
  assert (whisper_params_parse Fake.stof "stream-rt" ["-kc"%string] (default_params 8)
          = ParseReturn true (Set_.no_context false (default_params 8))) as H1
    by (vm_compute; reflexivity).
  assert (In "--step"%string value_options) as H2 by (cbn; tauto).
  split; [exact H1|]. split; [exact H2|].
  rewrite (@missing_value_is_undefined Run.engine Fake.stof missing_value_world
             ["-kc"%string] "--step" _ 5%nat H1 H2 eq_refl).
  reflexivity.
Defined.

Lemma help_stops_parsing_witness :
  whisper_params_parse Fake.stof "stream-rt" ["--step"; "2"]%string (default_params 8)
  = ParseReturn true Run.step2_params
  /\ @main Run.engine Fake.stof help_world 5
     = Some (mk_run (Exit 0) [hello; UsageText "stream-rt" Run.step2_params]
               (Istream.of_bytes (Run.silence 300))).
Proof.
  assert (whisper_params_parse Fake.stof "stream-rt" ["--step"; "2"]%string
            (default_params 8) = ParseReturn true Run.step2_params) as H1
    by (vm_compute; reflexivity).
  split; [exact H1|].
  exact (@help_stops_parsing Run.engine Fake.stof help_world ["--step"; "2"]%string
           ["--bogus"%string] "-h" _ 5%nat H1 (or_introl eq_refl) eq_refl).
Defined.

Lemma bad_integer_terminates_witness :
  whisper_params_parse Fake.stof "stream-rt" ["-kc"%string] (default_params 8)
  = ParseReturn true (Set_.no_context false (default_params 8))
  /\ In "--step"%string int_options
  /\ (forall n, stoi "abc" <> Parsed n)
  /\ option_map result (@main Run.engine Fake.stof bad_step_world 5)
     = Some (Terminate "std::invalid_argument").
Proof.
  assert (whisper_params_parse Fake.stof "stream-rt" ["-kc"%string] (default_params 8)
          = ParseReturn true (Set_.no_context false (default_params 8))) as H1
    by (vm_compute; reflexivity).
  assert (In "--step"%string int_options) as H2 by (cbn; tauto).
  assert (forall n, stoi "abc" <> Parsed n) as H3 by (intros n; vm_compute; discriminate).
  split; [exact H1|]. split; [exact H2|]. split; [exact H3|].
  rewrite (@bad_integer_terminates Run.engine Fake.stof bad_step_world
             ["-kc"%string] [] "--step" "abc" _ 5%nat H1 H2 H3 eq_refl).
  reflexivity.
Defined.

Lemma engine_init_failure_exits_2_witness :
  whisper_params_parse Fake.stof "stream-rt" ["-f"; "/nonexistent/out.txt"]%string
    (default_params 8) = ParseReturn true Run.unwritable_params
  /\ n_samples_step_of SAMPLE_RATE_16K (step_ms Run.unwritable_params) = Some 48000
  /\ option_map result (@main absent_engine Fake.stof Run.unwritable_world 10)
     = Some (Exit 2).
Proof.
  assert (whisper_params_parse Fake.stof "stream-rt" ["-f"; "/nonexistent/out.txt"]%string
            (default_params 8) = ParseReturn true Run.unwritable_params) as H1
    by (vm_compute; reflexivity).
  assert (n_samples_step_of SAMPLE_RATE_16K (step_ms Run.unwritable_params) = Some 48000)
    as H2 by (vm_compute; reflexivity).
  split; [exact H1|]. split; [exact H2|].
  destruct (@engine_init_failure_exits_2 absent_engine Fake.stof Run.unwritable_world
              Run.unwritable_params 48000 10%nat H1 H2 eq_refl)
    as (r & Hmain & Hres & _).
  rewrite Hmain. cbn [option_map]. rewrite Hres. reflexivity.
Defined.

(** ** Termination *)

(** X16.  Every execution that enters the loop in wav mode, or in raw mode
    with a step of at least one sample, ends: the loop is left after at most
    as many iterations as standard input has bytes, and one more, whatever
    the engine answers. *)
Theorem every_run_ends {API : WhisperAPI} (stof : string -> stox Float32.t)
    (w : world) (p : whisper_params) (entry : loop_state) :
  startup stof w = inr (p, entry) ->
  (from_wav_file p = true
   \/ exists n, n_samples_step_of WHISPER_SAMPLE_RATE (step_ms p) = Some n /\ 0 < n) ->
  exists r, main stof w (S (List.length (stdin w))) = Some r.
Proof.
  intros Hs Hstep. apply main_returns. rewrite Hs. exact Hstep.
Qed.

Lemma every_run_ends_witness :
  @startup Run.engine Fake.stof Run.step2_world
  = inr (Run.step2_params, Run.entry Run.step2_params 32 (Run.silence 300))
  /\ (exists n, n_samples_step_of SAMPLE_RATE_16K (step_ms Run.step2_params) = Some n
                /\ 0 < n)
  /\ exists r, @main Run.engine Fake.stof Run.step2_world
                 (S (List.length (stdin Run.step2_world))) = Some r.
Proof.
  assert (@startup Run.engine Fake.stof Run.step2_world
          = inr (Run.step2_params, Run.entry Run.step2_params 32 (Run.silence 300)))
    as H1 by (vm_compute; reflexivity).
  assert (exists n, n_samples_step_of SAMPLE_RATE_16K (step_ms Run.step2_params) = Some n
                    /\ 0 < n) as H2
    by (exists 32; split; [vm_compute; reflexivity | lia]).
  split; [exact H1|]. split; [exact H2|].
  exact (@every_run_ends Run.engine Fake.stof Run.step2_world Run.step2_params _
           H1 (or_intror H2)).
Defined.
